(** * NetArchitect: the command interpreter and the reachability engine

    A shallow embedding of [src/services/rules.ts] (connection validator,
    [findPath]) and of the terminal component (the command matcher, the port
    mapper, [ensureInterface], [handleCommand], [handleKeyDown] and the
    timer of [reload]), with the properties the specification states about
    them; and, for what the two mean to the rest of the application, of the
    parts of [App] that draw, delete and highlight links and open the
    terminal, and of the checks of the missions on VLANs.

    Conventions of the embedding.
    - A JavaScript string is a [string]; a character is a code unit in
      0..255, read as the Unicode code point of the same number.
    - A JavaScript number that holds an integer is a [Z] (exact below 2^53),
      and [NaN] coming out of [parseInt] is [None].
    - An object used as a dictionary is a [gmap] over its own keys, a [Map]
      is a [gmap], a [Set] is a [gset]; an optional field is an [option].
      The table of interfaces is read and written under names the user
      types, so it is modelled with the members every object inherits and
      with its prototype, which an assignment under [__proto__] replaces
      ([Interfaces], [member], [assign]).  The table of VLANs is keyed by
      numbers, which meet no inherited member.
    - React state is passed explicitly: a handler maps the component's state
      to its next state. *)

From Stdlib Require Import ZArith Ascii Bool Lia DecimalString.
From Stdlib Require DecimalPos.
From stdpp Require Import base option list gmap strings sorting relations.

#[local] Set Warnings "-clear-no-such-hyp".

(** ** JavaScript string primitives *)

Module Js.

Definition code (c : ascii) : nat := nat_of_ascii c.

Definition between (lo hi n : nat) : bool := Nat.leb lo n && Nat.leb n hi.

(** [\s] of a regular expression and the characters [trim] strips: TAB, LF,
    VT, FF, CR, SPACE and NBSP are the ones below 256. *)
Definition isSpace (c : ascii) : bool :=
  between 9 13 (code c) || Nat.eqb (code c) 32 || Nat.eqb (code c) 160.

(** [[0-9]] and [\d]. *)
Definition isDigit (c : ascii) : bool := between 48 57 (code c).

(** [[a-z]] under the [i] flag. *)
Definition isLetter (c : ascii) : bool :=
  between 65 90 (code c) || between 97 122 (code c).

(** [String.prototype.toLowerCase] on one code unit: A-Z and the Latin-1
    capitals (except the multiplication sign) move up by 32. *)
Definition lowerChar (c : ascii) : ascii :=
  if between 65 90 (code c) || between 192 214 (code c) || between 216 222 (code c)
  then ascii_of_nat (code c + 32) else c.

Fixpoint toLowerCase (s : string) : string :=
  match s with
  | EmptyString => EmptyString
  | String c s' => String (lowerChar c) (toLowerCase s')
  end.

(** A string in a condition: the empty string is falsy. *)
Definition truthy (s : string) : bool :=
  match s with EmptyString => false | String _ _ => true end.

Fixpoint trimStart (s : string) : string :=
  match s with
  | EmptyString => EmptyString
  | String c s' => if isSpace c then trimStart s' else s
  end.

(** [trimEnd], by one pass from the right: a space is dropped when nothing
    but spaces follows it. *)
Fixpoint trimEnd (s : string) : string :=
  match s with
  | EmptyString => EmptyString
  | String c s' =>
      match trimEnd s' with
      | EmptyString => if isSpace c then EmptyString else String c EmptyString
      | r => String c r
      end
  end.

Definition trim (s : string) : string := trimEnd (trimStart s).

(** [s.split(/\s+/)]: the pieces between maximal runs of white space; a run
    at either end leaves an empty piece there, and the empty string has the
    one piece [""]. *)
Fixpoint splitWs (s : string) : list string :=
  match s with
  | EmptyString => [EmptyString]
  | String c s' =>
      if isSpace c then
        match s' with
        | String c' _ => if isSpace c' then splitWs s' else EmptyString :: splitWs s'
        | EmptyString => EmptyString :: splitWs s'
        end
      else
        match splitWs s' with
        | t :: ts => String c t :: ts
        | [] => [String c EmptyString]
        end
  end.

(** [s.startsWith(p)]. *)
Fixpoint startsWith (s p : string) {struct p} : bool :=
  match p with
  | EmptyString => true
  | String b p' =>
      match s with
      | EmptyString => false
      | String a s' => if Ascii.eqb a b then startsWith s' p' else false
      end
  end.

(** [s.includes(p)]. *)
Fixpoint includes (s p : string) : bool :=
  startsWith s p ||
  match s with
  | EmptyString => false
  | String _ s' => includes s' p
  end.

(** [s.substring(n)] for [0 <= n]. *)
Fixpoint substring (n : nat) (s : string) : string :=
  match n, s with
  | O, _ => s
  | S n', String _ s' => substring n' s'
  | S _, EmptyString => EmptyString
  end.

(** [s.split(sep)] for a non-empty separator string: the pieces between the
    successive occurrences of [sep], found from the left.  [skip] counts the
    characters of an occurrence still to be passed over. *)
Fixpoint splitGo (sep : string) (skip : nat) (cur : string) (s : string) : list string :=
  match s with
  | EmptyString => [cur]
  | String c s' =>
      match skip with
      | S k => splitGo sep k cur s'
      | O =>
          if startsWith s sep
          then cur :: splitGo sep (String.length sep - 1) EmptyString s'
          else splitGo sep 0 (cur +:+ String c EmptyString) s'
      end
  end.

Definition split (sep : string) (s : string) : list string :=
  splitGo sep 0 EmptyString s.

(** [parts.join(sep)]. *)
Fixpoint join (sep : string) (parts : list string) : string :=
  match parts with
  | [] => EmptyString
  | [p] => p
  | p :: ps => p +:+ sep +:+ join sep ps
  end.

(** The names under which every object finds a member in
    [Object.prototype]: functions, and under [__proto__] the prototype of
    the object.  Whatever is read under one of them is truthy. *)
Definition inheritedNames : list string :=
  ["constructor"; "__defineGetter__"; "__defineSetter__"; "hasOwnProperty";
   "__lookupGetter__"; "__lookupSetter__"; "isPrototypeOf"; "propertyIsEnumerable";
   "toString"; "valueOf"; "__proto__"; "toLocaleString"].

Definition inherited (k : string) : bool := existsb (String.eqb k) inheritedNames.

(** The last piece of a split, [parts.pop()]; [undefined] is [None]. *)
Definition pop (parts : list string) : option string := last parts.

(** The value of a digit in the given radix (10 or 16). *)
Definition digitValue (radix : Z) (c : ascii) : option Z :=
  let n := code c in
  if between 48 57 n then Some (Z.of_nat n - 48)%Z
  else if Z.eqb radix 16 && between 97 102 n then Some (Z.of_nat n - 87)%Z
  else if Z.eqb radix 16 && between 65 70 n then Some (Z.of_nat n - 55)%Z
  else None.

(** The value of the longest run of digits at the head of [s], on top of
    [acc]. *)
Fixpoint digitsValue (radix acc : Z) (s : string) : Z :=
  match s with
  | EmptyString => acc
  | String c s' =>
      match digitValue radix c with
      | Some d => digitsValue radix (acc * radix + d)%Z s'
      | None => acc
      end
  end.

(** [parseInt(s)] without a radix: leading white space is skipped, then an
    optional sign, then [0x]/[0X] selects radix 16; the digits that follow
    are read as far as they go, and [NaN] ([None]) is the answer when there
    is none.  The value is the exact integer, which is the program's number
    up to 2^53 in magnitude; beyond, the program holds the nearest double. *)
Definition parseInt (s : string) : option Z :=
  let s1 := trimStart s in
  let '(sign, s2) :=
    match s1 with
    | String "-" r => ((-1)%Z, r)
    | String "+" r => (1%Z, r)
    | _ => (1%Z, s1)
    end in
  let '(radix, s3) :=
    match s2 with
    | String "0" (String "x" r) => (16%Z, r)
    | String "0" (String "X" r) => (16%Z, r)
    | _ => (10%Z, s2)
    end in
  match s3 with
  | String c _ =>
      match digitValue radix c with
      | Some _ => Some (sign * digitsValue radix 0 s3)%Z
      | None => None
      end
  | EmptyString => None
  end.

(** [parseInt(x)] of a value that may be [undefined]: the text "undefined"
    has no digit. *)
Definition parseIntOpt (x : option string) : option Z :=
  match x with
  | Some s => parseInt s
  | None => None
  end.

(** [n.toString()] and [`${n}`] of an integer: its decimal digits, which is
    what the program writes for a number below 10^21 in magnitude; from
    there on it writes an exponent. *)
Definition toString (n : Z) : string := NilZero.string_of_int (Z.to_int n).

Fixpoint repeatChar (n : nat) (c : ascii) : string :=
  match n with
  | O => EmptyString
  | S n' => String c (repeatChar n' c)
  end.

(** [s.padStart(n, c)] and [s.padEnd(n, c)] with a one-character filler. *)
Definition padStart (n : nat) (c : ascii) (s : string) : string :=
  repeatChar (n - String.length s) c +:+ s.

Definition padEnd (n : nat) (c : ascii) (s : string) : string :=
  s +:+ repeatChar (n - String.length s) c.

(** The longest suffix of [s] made of digits. *)
Fixpoint digitSuffix (s : string) : string :=
  match s with
  | EmptyString => EmptyString
  | String c s' =>
      let r := digitSuffix s' in
      if isDigit c && Nat.eqb (String.length r) (String.length s')
      then String c r else r
  end.

(** [s.match(/\d+$/)]: the matched text, [null] is [None]. *)
Definition matchTrailingDigits (s : string) : option string :=
  let r := digitSuffix s in
  if truthy r then Some r else None.

Fixpoint dropLetters (s : string) : string :=
  match s with
  | EmptyString => EmptyString
  | String c s' => if isLetter c then dropLetters s' else s
  end.

(** [s.replace(/^X[a-z]*/i, by)] where [X] is the letter [x] in either
    case: the letter and the letters after it give way to [by]; a string
    that does not start with [X] is returned as it is. *)
Definition replaceLeadingWord (x : ascii) (by_ : string) (s : string) : string :=
  match s with
  | String c s' =>
      if Ascii.eqb (lowerChar c) x then by_ +:+ dropLetters s' else s
  | EmptyString => s
  end.

End Js.

(** ** The command matcher ([matchCmd]) *)

Definition inputParts (inputStr : string) : list string :=
  Js.splitWs (Js.toLowerCase (Js.trim inputStr)).

Definition targetParts (target : string) : list string :=
  Js.splitWs (Js.toLowerCase target).

(** One turn of the loop at index [i]: [false] stands for the early
    [return false]. *)
Definition matchAt (ips tps : list string) (i : nat) : bool :=
  match tps !! i with
  | None => true
  | Some tp =>
      match ips !! i with
      | None => false
      | Some ip => Js.truthy ip && Js.startsWith tp ip
      end
  end.

Definition matchCmd (inputStr target : string) : bool :=
  if negb (Js.truthy inputStr) then false
  else
    let ips := inputParts inputStr in
    let tps := targetParts target in
    forallb (matchAt ips tps) (seq 0 (length tps)).

(** ** The data model ([types.ts]) *)

Inductive DeviceType :=
  | ROUTER | SWITCH_L2 | SWITCH_L3 | FIREWALL | PC | LAPTOP | SERVER
  | ACCESS_POINT | PRINTER | PHONE | HUB | INTERNET | SDWAN_EDGE.

(** The string value of each member of the enum. *)
Definition deviceTypeText (t : DeviceType) : string :=
  match t with
  | ROUTER => "ROUTER" | SWITCH_L2 => "SWITCH_L2" | SWITCH_L3 => "SWITCH_L3"
  | FIREWALL => "FIREWALL" | PC => "PC" | LAPTOP => "LAPTOP"
  | SERVER => "SERVER" | ACCESS_POINT => "ACCESS_POINT"
  | PRINTER => "PRINTER" | PHONE => "PHONE" | HUB => "HUB"
  | INTERNET => "INTERNET" | SDWAN_EDGE => "SDWAN_EDGE"
  end.

Definition DeviceType_eqb (a b : DeviceType) : bool :=
  String.eqb (deviceTypeText a) (deviceTypeText b).

Inductive Status := up | down | booting.

Definition Status_eqb (a b : Status) : bool :=
  match a, b with
  | up, up | down, down | booting, booting => true
  | _, _ => false
  end.

Inductive SwitchportMode := access | trunk | dynamic.

(** An interface record as it is at run time: the interpreter can store
    one made from nothing but the field a command sets, so the two fields
    the type requires are optional as well. *)
Record InterfaceConfig := mkInterfaceConfig {
  if_name : option string;
  if_description : option string;
  if_ip : option string;
  if_mask : option string;
  if_shutdown : option bool;
  if_switchportMode : option SwitchportMode;
  if_accessVlan : option Z;
  if_trunkAllowedVlans : option string;
  if_nativeVlan : option Z
}.

(** The table of interfaces of a device: its own entries, and its
    prototype when that is not [Object.prototype] ([None]) but a record an
    assignment under [__proto__] put there.  [Object.values], a spread and
    [Object.keys] see the own entries only. *)
Record Interfaces := mkInterfaces {
  own : gmap string InterfaceConfig;
  proto : option InterfaceConfig
}.

Record LineConfig := mkLineConfig {
  ln_password : option string;
  ln_login : option bool
}.

Record Lines := mkLines {
  ln_console : option LineConfig;
  ln_vty : option LineConfig
}.

Record NetworkNodeData := mkNetworkNodeData {
  d_label : string;
  d_type : DeviceType;
  d_ip : option string;
  d_mac : option string;
  d_status : Status;
  d_floor : option string;
  d_isVulnerable : option bool;
  d_hostname : option string;
  d_domainName : option string;
  d_ipRouting : option bool;
  d_vlanDb : option (gmap Z string);
  d_interfaces : option Interfaces;
  d_lines : option Lines;
  d_assignedVlan : option Z;
  d_gateway : option (option string)
}.

(** A node of the canvas: its identifier, its place and its data. *)
Record NetworkNode := mkNetworkNode {
  node_id : string;
  node_position : Z * Z;
  node_data : NetworkNodeData
}.

(** A link of the canvas. *)
Record Edge := mkEdge {
  edge_id : string;
  edge_source : string;
  edge_target : string
}.

Inductive Mode :=
  | UserExec | PrivilegedExec | GlobalConfig
  | InterfaceConfigMode | VlanConfig | LineConfigMode.

(** The prompt suffix that [TerminalState.mode] holds. *)
Definition modeText (m : Mode) : string :=
  match m with
  | UserExec => ">"
  | PrivilegedExec => "#"
  | GlobalConfig => "(config)#"
  | InterfaceConfigMode => "(config-if)#"
  | VlanConfig => "(config-vlan)#"
  | LineConfigMode => "(config-line)#"
  end.

Record TerminalState := mkTerminalState {
  ts_isOpen : bool;
  ts_nodeId : option string;
  ts_history : list string;
  ts_hostname : string;
  ts_mode : Mode
}.

Record PacketSimulationResult := mkResult {
  success : bool;
  path : list string;
  hops : Z;
  message : string
}.

(** Spreads that replace one field: [{ ...c, f: v }] and [{ ...n, data }]. *)
Definition withShutdown (v : bool) (c : InterfaceConfig) : InterfaceConfig :=
  mkInterfaceConfig (if_name c) (if_description c) (if_ip c) (if_mask c) (Some v)
    (if_switchportMode c) (if_accessVlan c) (if_trunkAllowedVlans c) (if_nativeVlan c).

Definition withSwitchportMode (v : SwitchportMode) (c : InterfaceConfig) : InterfaceConfig :=
  mkInterfaceConfig (if_name c) (if_description c) (if_ip c) (if_mask c) (if_shutdown c)
    (Some v) (if_accessVlan c) (if_trunkAllowedVlans c) (if_nativeVlan c).

Definition withAccessVlan (v : Z) (c : InterfaceConfig) : InterfaceConfig :=
  mkInterfaceConfig (if_name c) (if_description c) (if_ip c) (if_mask c) (if_shutdown c)
    (if_switchportMode c) (Some v) (if_trunkAllowedVlans c) (if_nativeVlan c).

Definition withTrunkAllowedVlans (v : string) (c : InterfaceConfig) : InterfaceConfig :=
  mkInterfaceConfig (if_name c) (if_description c) (if_ip c) (if_mask c) (if_shutdown c)
    (if_switchportMode c) (if_accessVlan c) (Some v) (if_nativeVlan c).

Definition withIpMask (i m : option string) (c : InterfaceConfig) : InterfaceConfig :=
  mkInterfaceConfig (if_name c) (if_description c) i m (if_shutdown c)
    (if_switchportMode c) (if_accessVlan c) (if_trunkAllowedVlans c) (if_nativeVlan c).

Definition withInterfaces (v : option Interfaces) (d : NetworkNodeData)
  : NetworkNodeData :=
  mkNetworkNodeData (d_label d) (d_type d) (d_ip d) (d_mac d) (d_status d) (d_floor d)
    (d_isVulnerable d) (d_hostname d) (d_domainName d) (d_ipRouting d) (d_vlanDb d)
    v (d_lines d) (d_assignedVlan d) (d_gateway d).

Definition withVlanDb (v : option (gmap Z string)) (d : NetworkNodeData) : NetworkNodeData :=
  mkNetworkNodeData (d_label d) (d_type d) (d_ip d) (d_mac d) (d_status d) (d_floor d)
    (d_isVulnerable d) (d_hostname d) (d_domainName d) (d_ipRouting d) v
    (d_interfaces d) (d_lines d) (d_assignedVlan d) (d_gateway d).

Definition withHostnameLabel (v : string) (d : NetworkNodeData) : NetworkNodeData :=
  mkNetworkNodeData v (d_type d) (d_ip d) (d_mac d) (d_status d) (d_floor d)
    (d_isVulnerable d) (Some v) (d_domainName d) (d_ipRouting d) (d_vlanDb d)
    (d_interfaces d) (d_lines d) (d_assignedVlan d) (d_gateway d).

Definition withIpRouting (v : bool) (d : NetworkNodeData) : NetworkNodeData :=
  mkNetworkNodeData (d_label d) (d_type d) (d_ip d) (d_mac d) (d_status d) (d_floor d)
    (d_isVulnerable d) (d_hostname d) (d_domainName d) (Some v) (d_vlanDb d)
    (d_interfaces d) (d_lines d) (d_assignedVlan d) (d_gateway d).

Definition withAssignedVlan (v : Z) (d : NetworkNodeData) : NetworkNodeData :=
  mkNetworkNodeData (d_label d) (d_type d) (d_ip d) (d_mac d) (d_status d) (d_floor d)
    (d_isVulnerable d) (d_hostname d) (d_domainName d) (d_ipRouting d) (d_vlanDb d)
    (d_interfaces d) (d_lines d) (Some v) (d_gateway d).

Definition withData (d : NetworkNodeData) (n : NetworkNode) : NetworkNode :=
  mkNetworkNode (node_id n) (node_position n) d.

(** [nodes.find(n => n.id === id)]. *)
Definition findNode (nodes : list NetworkNode) (id : string) : option NetworkNode :=
  List.find (fun n => String.eqb (node_id n) id) nodes.

(** ** The connection validator and the reachability engine ([rules.ts]) *)

Inductive Level := warning | error | info.

Record Validation := mkValidation {
  isValid : bool;
  v_message : string;
  level : option Level
}.

Definition validateConnection (sourceType targetType : DeviceType) : Validation :=
  if DeviceType_eqb sourceType PC && DeviceType_eqb targetType PC then
    mkValidation true "PC connected directly to PC. Ensure IPs are in the same subnet."
      (Some warning)
  else if DeviceType_eqb sourceType INTERNET && DeviceType_eqb targetType PC then
    mkValidation true
      "DANGER: Direct Internet connection to PC! Please use a Firewall or Router."
      (Some error)
  else if DeviceType_eqb sourceType SWITCH_L2 && DeviceType_eqb targetType INTERNET then
    mkValidation true
      "L2 Switches cannot terminate ISP links directly without a Router/Gateway."
      (Some warning)
  else mkValidation true "Connection established." None.

(** [[0-9]{1,3}] at the head of [s]: the text after the digits it takes.
    The quantifier is greedy, and what follows it in the pattern is never a
    digit, so the longest run of at most three digits is the only way to
    match. *)
Definition eatDigits13 (s : string) : option string :=
  match s with
  | String a s1 =>
      if Js.isDigit a then
        match s1 with
        | String b s2 =>
            if Js.isDigit b then
              match s2 with
              | String c s3 => if Js.isDigit c then Some s3 else Some s2
              | EmptyString => Some s2
              end
            else Some s1
        | EmptyString => Some s1
        end
      else None
  | EmptyString => None
  end.

(** [[0-9]{1,3}\.] at the head of [s]. *)
Definition eatGroupDot (s : string) : option string :=
  match eatDigits13 s with
  | Some (String "." r) => Some r
  | _ => None
  end.

(** [/^(?:[0-9]{1,3}\.){3}[0-9]{1,3}$/.test(s)]. *)
Definition ipPattern (s : string) : bool :=
  match eatGroupDot s with
  | Some r1 =>
      match eatGroupDot r1 with
      | Some r2 =>
          match eatGroupDot r2 with
          | Some r3 =>
              match eatDigits13 r3 with
              | Some EmptyString => true
              | _ => false
              end
          | None => false
          end
      | None => false
      end
  | None => false
  end.

(** [isValidIP]: [ip && pattern.test(ip)], read as a condition. *)
Definition isValidIP (ip : option string) : bool :=
  match ip with
  | Some s => Js.truthy s && ipPattern s
  | None => false
  end.

Definition getSubnet (ip : string) : string :=
  Js.join "." (take 3 (Js.split "." ip)).

(** The adjacency map, filled edge by edge. *)
Definition addEdgeTo (adj : gmap string (list string)) (e : Edge) : gmap string (list string) :=
  let adj1 :=
    if decide (is_Some (adj !! edge_source e)) then adj else <[edge_source e := []]> adj in
  let adj2 :=
    if decide (is_Some (adj1 !! edge_target e)) then adj1 else <[edge_target e := []]> adj1 in
  let adj3 := alter (fun l => l ++ [edge_target e]) (edge_source e) adj2 in
  alter (fun l => l ++ [edge_source e]) (edge_target e) adj3.

Definition adjacencyList (edges : list Edge) : gmap string (list string) :=
  foldl addEdgeTo ∅ edges.

(** The [for] loop over the neighbours of the current entry: each one not
    yet visited is marked and queued with its path. *)
Definition visitNeighbor (cpath : list string)
    (st : gset string * list (string * list string)) (neighborId : string)
  : gset string * list (string * list string) :=
  if decide (neighborId ∈ st.1) then st
  else ({[neighborId]} ∪ st.1, st.2 ++ [(neighborId, cpath ++ [neighborId])]).

(** The [while] loop of the search.  [None] is an exhausted [fuel]; the
    loop's own outcomes are [Some (Some path)] (the [break]) and [Some None]
    (the queue ran empty). *)
Fixpoint bfsLoop (fuel : nat) (adj : gmap string (list string)) (endNodeId : string)
    (queue : list (string * list string)) (visited : gset string)
  : option (option (list string)) :=
  match fuel with
  | O => None
  | S fuel' =>
      match queue with
      | [] => Some None
      | (cid, cpath) :: rest =>
          if String.eqb cid endNodeId then Some (Some cpath)
          else
            let neighbors := default [] (adj !! cid) in
            let st := foldl (visitNeighbor cpath) (visited, rest) neighbors in
            bfsLoop fuel' adj endNodeId st.2 st.1
      end
  end.

(** Turns of the loop that are always enough: every turn removes one entry
    from the queue, and an entry is added only for an identifier seen for
    the first time, of which the links name at most two each. *)
Definition bfsFuel (edges : list Edge) : nat := 4 * length edges + 2.

Definition bfsRun (edges : list Edge) (startNodeId endNodeId : string)
  : option (option (list string)) :=
  bfsLoop (bfsFuel edges) (adjacencyList edges) endNodeId
    [(startNodeId, [startNodeId])] {[startNodeId]}.

(** The search of [findPath]: [Some physicalPath] when [pathFound].  The
    bound on turns is never reached, as is proved of [bfsLoop] below, so
    the last case is never taken. *)
Definition bfs (edges : list Edge) (startNodeId endNodeId : string)
  : option (list string) :=
  match bfsRun edges startNodeId endNodeId with
  | Some found => found
  | None => None
  end.

Definition isDown (nodes : list NetworkNode) (id : string) : bool :=
  match findNode nodes id with
  | Some node => Status_eqb (d_status (node_data node)) down
  | None => false
  end.

Definition isRoutingDevice (nodes : list NetworkNode) (id : string) : bool :=
  match findNode nodes id with
  | Some node =>
      DeviceType_eqb (d_type (node_data node)) ROUTER
      || DeviceType_eqb (d_type (node_data node)) SWITCH_L3
      || DeviceType_eqb (d_type (node_data node)) FIREWALL
  | None => false
  end.

(** [${node?.data.label}] in a template: a missing node prints as
    [undefined]. *)
Definition labelText (node : option NetworkNode) : string :=
  match node with
  | Some n => d_label (node_data n)
  | None => "undefined"
  end.

(** The routing requirement and the verdict of success, for a path that
    passed the liveness check. *)
Definition routePath (nodes : list NetworkNode) (physicalPath : list string)
    (sourceIP targetIP : string) : PacketSimulationResult :=
  let sourceSubnet := getSubnet sourceIP in
  let targetSubnet := getSubnet targetIP in
  let isSameSubnet := String.eqb sourceSubnet targetSubnet in
  let delivered :=
    mkResult true physicalPath (Z.of_nat (length physicalPath) - 1)
      ("Success! Packet delivered from " +:+ sourceIP +:+ " to " +:+ targetIP
         +:+ " via " +:+ Js.toString (Z.of_nat (length physicalPath) - 1) +:+ " hops.") in
  if negb isSameSubnet then
    let hasRouter := existsb (isRoutingDevice nodes) physicalPath in
    if negb hasRouter then
      mkResult false physicalPath 0
        ("Routing Error: Devices are in different subnets (" +:+ sourceSubnet
           +:+ ".x vs " +:+ targetSubnet
           +:+ ".x) but no Router/Gateway was found in the path.")
    else delivered
  else delivered.

(** Path validation: the scan for a device that is down, whose result
    [brokenDevice] is tested as a condition, then the routing requirement. *)
Definition validatePath (nodes : list NetworkNode) (physicalPath : list string)
    (sourceIP targetIP : string) : PacketSimulationResult :=
  match List.find (isDown nodes) physicalPath with
  | Some brokenDevice =>
      if Js.truthy brokenDevice then
        mkResult false physicalPath 0
          ("Link Failure: Packet dropped at " +:+ labelText (findNode nodes brokenDevice)
             +:+ " (Device is DOWN).")
      else routePath nodes physicalPath sourceIP targetIP
  | None => routePath nodes physicalPath sourceIP targetIP
  end.

(** [findPath]. *)
Definition findPath (nodes : list NetworkNode) (edges : list Edge)
    (startNodeId endNodeId : string) : PacketSimulationResult :=
  match findNode nodes startNodeId, findNode nodes endNodeId with
  | Some startNode, Some endNode =>
      if negb (isValidIP (d_ip (node_data startNode))) then
        mkResult false [] 0
          ("Configuration Error: Source device (" +:+ d_label (node_data startNode)
             +:+ ") is missing a valid IP address.")
      else if negb (isValidIP (d_ip (node_data endNode))) then
        mkResult false [] 0
          ("Configuration Error: Destination device (" +:+ d_label (node_data endNode)
             +:+ ") is missing a valid IP address.")
      else
        let sourceIP := default "" (d_ip (node_data startNode)) in
        let targetIP := default "" (d_ip (node_data endNode)) in
        match bfs edges startNodeId endNodeId with
        | None =>
            mkResult false [] 0
              "Physical Link Error: No cable connection exists between these devices."
        | Some physicalPath => validatePath nodes physicalPath sourceIP targetIP
        end
  | _, _ => mkResult false [] 0 "Device not found."
  end.

(** ** The terminal component *)

Definition nl : string := String "010"%char EmptyString.
Definition dq : string := String "034"%char EmptyString.

(** [SYSTEM_INFO]. *)
Definition SYSTEM_INFO_version : string := "15.2(4)E".
Definition SYSTEM_INFO_image : string := "C2960-LANBASEK9-M".

(** The component's state: the [state] and [nodes] it is given (owned by
    the application, which applies [onUpdateState], [onClose] and
    [setNodes] as its setters), and its own hooks. *)
Record Terminal := mkTerminal {
  t_state : TerminalState;
  t_nodes : list NetworkNode;
  t_input : string;
  t_output : list string;
  t_contextInt : string;
  t_contextVlan : Z;
  t_contextLine : string;
  t_isBooting : bool;
  t_historyIdx : Z
}.

(** What a command leaves behind besides the next state: the request for a
    hint ([getCLIFix(cmdRaw, response)]) and the timer of [reload]. *)
Record Outcome := mkOutcome {
  next : Terminal;
  aiFix : option (string * string);
  reloadTimer : bool
}.

(** [n.id === state.nodeId], where [state.nodeId] may be [null]. *)
Definition isBound (nodeId : option string) (n : NetworkNode) : bool :=
  match nodeId with
  | Some i => String.eqb (node_id n) i
  | None => false
  end.

Definition getNode (nodes : list NetworkNode) (nodeId : option string) : option NetworkNode :=
  List.find (isBound nodeId) nodes.

(** [p[k]] read as a condition, for a record [p] and a key [k]: the field
    of that name, when the record has it and it is neither [false], nor
    zero, nor the empty string. *)
Definition fieldTruthy (p : InterfaceConfig) (k : string) : bool :=
  let text (x : option string) := Js.truthy (default "" x) in
  let number (x : option Z) := match x with Some v => negb (v =? 0)%Z | None => false end in
  if String.eqb k "name" then text (if_name p)
  else if String.eqb k "description" then text (if_description p)
  else if String.eqb k "ip" then text (if_ip p)
  else if String.eqb k "mask" then text (if_mask p)
  else if String.eqb k "shutdown" then default false (if_shutdown p)
  else if String.eqb k "switchportMode" then bool_decide (is_Some (if_switchportMode p))
  else if String.eqb k "accessVlan" then number (if_accessVlan p)
  else if String.eqb k "trunkAllowedVlans" then text (if_trunkAllowedVlans p)
  else if String.eqb k "nativeVlan" then number (if_nativeVlan p)
  else false.

(** [interfaces[k]] read as a condition: an own entry is a record, which is
    truthy; without one the prototype answers, a record by its field of
    that name, and [Object.prototype] behind it by the members every object
    inherits. *)
Definition member (interfaces : Interfaces) (k : string) : bool :=
  match own interfaces !! k with
  | Some _ => true
  | None =>
      match proto interfaces with
      | Some p => fieldTruthy p k || Js.inherited k
      | None => Js.inherited k
      end
  end.

(** [{ ...interfaces }]: the own entries, under [Object.prototype]. *)
Definition spread (interfaces : Interfaces) : Interfaces :=
  mkInterfaces (own interfaces) None.

(** [interfaces[k] = c]: an own entry is made or replaced; but under
    [__proto__], when there is no own entry of that name, the setter that
    every object inherits makes [c] the prototype instead. *)
Definition assign (k : string) (c : InterfaceConfig) (interfaces : Interfaces) : Interfaces :=
  if String.eqb k "__proto__" && bool_decide (own interfaces !! k = None)
  then mkInterfaces (own interfaces) (Some c)
  else mkInterfaces (<[k := c]> (own interfaces)) (proto interfaces).

(** [{}] as an interface record. *)
Definition emptyInterface : InterfaceConfig :=
  mkInterfaceConfig None None None None None None None None None.

(** [ensureInterface]. *)
Definition defaultInterface (ifName : string) : InterfaceConfig :=
  mkInterfaceConfig (Some ifName) None None None (Some false) (Some access) (Some 1%Z)
    (Some "1-4094") None.

Definition ensureInterface (node : NetworkNode) (ifName : string) : NetworkNode :=
  let interfaces := default (mkInterfaces ∅ None) (d_interfaces (node_data node)) in
  let interfaces' :=
    if member interfaces ifName then interfaces
    else assign ifName (defaultInterface ifName) interfaces in
  withData (withInterfaces (Some interfaces') (node_data node)) node.

(** [getHelp]. *)
Definition helpTable (m : Mode) : list (string * string) :=
  match m with
  | UserExec =>
      [("enable", "Turn on privileged commands"); ("ping", "Send echo messages");
       ("show", "Show running system information"); ("exit", "Exit from the EXEC")]
  | PrivilegedExec =>
      [("configure", "Enter configuration mode");
       ("show running-config", "Show current config");
       ("show vlan", "Show VLAN information");
       ("show ip interface", "IP interface status");
       ("reload", "Halt and perform a cold restart")]
  | GlobalConfig =>
      [("hostname", "Set system network name");
       ("interface", "Select interface to configure");
       ("vlan", "VLAN configuration mode"); ("ip routing", "Enable IP routing");
       ("exit", "Exit from configure mode")]
  | InterfaceConfigMode =>
      [("switchport", "Set switching mode characteristics");
       ("ip address", "Set the IP address of an interface");
       ("shutdown", "Shutdown the selected interface");
       ("no shutdown", "Restart the selected interface");
       ("exit", "Exit from interface mode")]
  | VlanConfig =>
      [("name", "Ascii name of the VLAN"); ("exit", "Exit from VLAN mode")]
  | LineConfigMode => []
  end.

Definition getHelp (m : Mode) : string :=
  foldl (fun out c => out +:+ "  " +:+ Js.padEnd 20 " " c.1 +:+ " " +:+ c.2 +:+ nl)
    ("Exec commands:" +:+ nl) (helpTable m).

(** [updateInt]: on the bound device, when its table of interfaces answers
    under the name of the current interface, the table is copied and the
    updater applied to a copy of what the copy holds under that name: the
    own record, or nothing, since neither an inherited function nor
    [Object.prototype] has anything a spread copies. *)
Definition updateInt (nodeId : option string) (contextInt : string)
    (updater : InterfaceConfig → InterfaceConfig) (nds : list NetworkNode)
  : list NetworkNode :=
  map (fun n =>
    if isBound nodeId n then
      match d_interfaces (node_data n) with
      | Some interfaces =>
          if member interfaces contextInt then
            let newInterfaces := spread interfaces in
            let c := default emptyInterface (own newInterfaces !! contextInt) in
            withData (withInterfaces (Some (assign contextInt (updater c) newInterfaces))
                        (node_data n)) n
          else n
      | None => n
      end
    else n) nds.

(** An end host takes the VLAN tag of the port it hangs on. *)
Definition isEndHost (t : DeviceType) : bool :=
  DeviceType_eqb t PC || DeviceType_eqb t PRINTER || DeviceType_eqb t SERVER.

Definition tagNeighbor (neighborId : string) (vid : Z) (nds : list NetworkNode)
  : list NetworkNode :=
  map (fun n =>
    if String.eqb (node_id n) neighborId && isEndHost (d_type (node_data n))
    then withData (withAssignedVlan vid (node_data n)) n
    else n) nds.

(** The VLAN table with its stand-in [{1: 'default'}], and the test
    [!vlanDb[vid]] of an entry: a missing name and an empty one are alike. *)
Definition vlanTable (d : NetworkNodeData) : gmap Z string :=
  default {[ 1%Z := "default" ]} (d_vlanDb d).

Definition hasVlanName (vlanDb : gmap Z string) (vid : Z) : bool :=
  match vlanDb !! vid with
  | Some nm => Js.truthy nm
  | None => false
  end.

Definition defaultVlanName (vid : Z) : string :=
  "VLAN" +:+ Js.padStart 4 "0" (Js.toString vid).

(** The update of [vlan <id>] on the bound device. *)
Definition createVlan (nodeId : option string) (vid : Z) (nds : list NetworkNode)
  : list NetworkNode :=
  map (fun n =>
    if isBound nodeId n then
      let vlanDb := vlanTable (node_data n) in
      let vlanDb' :=
        if negb (hasVlanName vlanDb vid) then <[vid := defaultVlanName vid]> vlanDb
        else vlanDb in
      withData (withVlanDb (Some vlanDb') (node_data n)) n
    else n) nds.

(** The update of [name <text>] in VLAN configuration. *)
Definition renameVlan (nodeId : option string) (contextVlan : Z) (name : string)
    (nds : list NetworkNode) : list NetworkNode :=
  map (fun n =>
    if isBound nodeId n then
      match d_vlanDb (node_data n) with
      | Some vlanDb => withData (withVlanDb (Some (<[contextVlan := name]> vlanDb)) (node_data n)) n
      | None => n
      end
    else n) nds.

(** [getVlanBrief] writes the entry of VLAN 1 into the table of the device
    it prints, when the table is there and lacks it. *)
Fixpoint touchVlan1 (nodeId : option string) (nds : list NetworkNode) : list NetworkNode :=
  match nds with
  | [] => []
  | n :: rest =>
      if isBound nodeId n then
        match d_vlanDb (node_data n) with
        | Some vlanDb =>
            if negb (hasVlanName vlanDb 1) then
              withData (withVlanDb (Some (<[1%Z := "default"]> vlanDb)) (node_data n)) n :: rest
            else nds
        | None => nds
        end
      else n :: touchVlan1 nodeId rest
  end.

(** What a command has decided so far: the local variables of
    [handleCommand] and the pending calls of the setters. *)
Record Pending := mkPending {
  response : string;
  newMode : Mode;
  newHostname : string;
  shouldClose : bool;
  p_nodes : list NetworkNode;
  p_contextInt : string;
  p_contextVlan : Z;
  p_contextLine : string
}.

Definition respond (r : string) (p : Pending) : Pending :=
  mkPending r (newMode p) (newHostname p) (shouldClose p) (p_nodes p)
    (p_contextInt p) (p_contextVlan p) (p_contextLine p).

Definition toMode (m : Mode) (p : Pending) : Pending :=
  mkPending (response p) m (newHostname p) (shouldClose p) (p_nodes p)
    (p_contextInt p) (p_contextVlan p) (p_contextLine p).

Definition toHostname (h : string) (p : Pending) : Pending :=
  mkPending (response p) (newMode p) h (shouldClose p) (p_nodes p)
    (p_contextInt p) (p_contextVlan p) (p_contextLine p).

Definition closing (p : Pending) : Pending :=
  mkPending (response p) (newMode p) (newHostname p) true (p_nodes p)
    (p_contextInt p) (p_contextVlan p) (p_contextLine p).

Definition setNodes (f : list NetworkNode → list NetworkNode) (p : Pending) : Pending :=
  mkPending (response p) (newMode p) (newHostname p) (shouldClose p) (f (p_nodes p))
    (p_contextInt p) (p_contextVlan p) (p_contextLine p).

Definition setContextInt (v : string) (p : Pending) : Pending :=
  mkPending (response p) (newMode p) (newHostname p) (shouldClose p) (p_nodes p)
    v (p_contextVlan p) (p_contextLine p).

Definition setContextVlan (v : Z) (p : Pending) : Pending :=
  mkPending (response p) (newMode p) (newHostname p) (shouldClose p) (p_nodes p)
    (p_contextInt p) v (p_contextLine p).

Definition setContextLine (v : string) (p : Pending) : Pending :=
  mkPending (response p) (newMode p) (newHostname p) (shouldClose p) (p_nodes p)
    (p_contextInt p) (p_contextVlan p) v.

(** A command either returns at once or falls through to the common end of
    [handleCommand]. *)
Inductive Flow :=
  | Returned (o : Outcome)
  | Pended (p : Pending).

Definition withOutput (out : list string) (t : Terminal) : Terminal :=
  mkTerminal (t_state t) (t_nodes t) (t_input t) out (t_contextInt t)
    (t_contextVlan t) (t_contextLine t) (t_isBooting t) (t_historyIdx t).

Definition withHistoryIdx (i : Z) (t : Terminal) : Terminal :=
  mkTerminal (t_state t) (t_nodes t) (t_input t) (t_output t) (t_contextInt t)
    (t_contextVlan t) (t_contextLine t) (t_isBooting t) i.

Definition withInput (s : string) (t : Terminal) : Terminal :=
  mkTerminal (t_state t) (t_nodes t) s (t_output t) (t_contextInt t)
    (t_contextVlan t) (t_contextLine t) (t_isBooting t) (t_historyIdx t).

Definition withBooting (b : bool) (t : Terminal) : Terminal :=
  mkTerminal (t_state t) (t_nodes t) (t_input t) (t_output t) (t_contextInt t)
    (t_contextVlan t) (t_contextLine t) b (t_historyIdx t).

(** [onClose] of the application: [{ ...prev, isOpen: false }]. *)
Definition onClose (t : Terminal) : Terminal :=
  let s := t_state t in
  mkTerminal (mkTerminalState false (ts_nodeId s) (ts_history s) (ts_hostname s) (ts_mode s))
    (t_nodes t) (t_input t) (t_output t) (t_contextInt t)
    (t_contextVlan t) (t_contextLine t) (t_isBooting t) (t_historyIdx t).

Section Interpreter.

(** [a.localeCompare(b)] is the host's collation; the texts of the [show]
    commands are left open as well: [getRunningConfig], [getVlanBrief] and
    [getDynamicIpIntBrief] of a device that is found.  Nothing below
    depends on what they are. *)
Variable localeCompare : string → string → Z.
Variable runningConfigText : NetworkNode → string.
Variable vlanBriefText : NetworkNode → string.
Variable ipIntBriefText : NetworkNode → list Edge → string.

(** [sort((a, b) => a.id.localeCompare(b.id))]: the stable order. *)
Fixpoint insertEdge (e : Edge) (l : list Edge) : list Edge :=
  match l with
  | [] => [e]
  | x :: r =>
      if (localeCompare (edge_id e) (edge_id x) <=? 0)%Z then e :: l
      else x :: insertEdge e r
  end.

Definition sortEdges (l : list Edge) : list Edge := foldr insertEdge [] l.

Definition isIncident (nodeId : option string) (e : Edge) : bool :=
  match nodeId with
  | Some i => String.eqb (edge_source e) i || String.eqb (edge_target e) i
  | None => false
  end.

(** The port mapper. *)
Definition getSortedEdges (edges : list Edge) (nodeId : option string) : list Edge :=
  sortEdges (filter (fun e => isIncident nodeId e = true) edges).

Definition getInterfaceName (idx : Z) : string :=
  "GigabitEthernet0/" +:+ Js.toString (idx + 1).

Definition getShortInterfaceName (idx : Z) : string :=
  "Gi0/" +:+ Js.toString (idx + 1).

(** [arr[i]] for an integer [i]: nothing below zero or past the end. *)
Definition at_ {A} (l : list A) (i : Z) : option A :=
  if (i <? 0)%Z then None else l !! Z.to_nat i.

Definition getRunningConfig (t : Terminal) : string :=
  match getNode (t_nodes t) (ts_nodeId (t_state t)) with
  | Some n => runningConfigText n
  | None => ""
  end.

(** [getVlanBrief] prints the device as it is after the entry of VLAN 1 is
    put in. *)
Definition getVlanBrief (t : Terminal) (nds : list NetworkNode) : string :=
  match getNode (touchVlan1 (ts_nodeId (t_state t)) nds) (ts_nodeId (t_state t)) with
  | Some n => vlanBriefText n
  | None => ""
  end.

Definition getDynamicIpIntBrief (edges : list Edge) (t : Terminal) : string :=
  match getNode (t_nodes t) (ts_nodeId (t_state t)) with
  | Some n => ipIntBriefText n (getSortedEdges edges (Some (node_id n)))
  | None => ""
  end.

Definition showVlan (t : Terminal) (p : Pending) : Pending :=
  respond (getVlanBrief t (p_nodes p)) (setNodes (touchVlan1 (ts_nodeId (t_state t))) p).

(** The branch of [do]. *)
Definition doCommand (edges : list Edge) (t : Terminal) (cmd : string) (p : Pending)
  : Pending :=
  let subCmd := Js.trim (Js.substring 3 cmd) in
  if matchCmd subCmd "show run" then respond (getRunningConfig t) p
  else if matchCmd subCmd "show vlan" then showVlan t p
  else if matchCmd subCmd "show ip int" then respond (getDynamicIpIntBrief edges t) p
  else if matchCmd subCmd "ping" then respond "Sending 5, 100-byte ICMP Echos... !!!!!" p
  else respond "% Unrecognized command" p.

Definition pingHeader (targetIP : string) : string :=
  "Sending 5, 100-byte ICMP Echos to " +:+ targetIP +:+ ", timeout is 2 seconds:" +:+ nl.

(** The branch of user EXEC. *)
Definition userExec (edges : list Edge) (t : Terminal) (cmd : string)
    (tokens : list string) (p : Pending) : Pending :=
  if matchCmd cmd "enable" || String.eqb cmd "en" then toMode PrivilegedExec p
  else if matchCmd cmd "ping" then
    match tokens !! 1 with
    | Some targetIP =>
        if negb (Js.truthy targetIP) then respond "% Incomplete command." p
        else
          match List.find (fun n => bool_decide (d_ip (node_data n) = Some targetIP)) (t_nodes t) with
          | Some targetNode =>
              let res :=
                match ts_nodeId (t_state t) with
                | Some i => findPath (t_nodes t) edges i (node_id targetNode)
                | None => mkResult false [] 0 "Device not found."
                end in
              if success res then
                respond (pingHeader targetIP +:+ "!!!!!" +:+ nl
                           +:+ "Success rate is 100 percent (5/5).") p
              else
                respond (pingHeader targetIP +:+ "....." +:+ nl
                           +:+ "Success rate is 0 percent (0/5)." +:+ nl +:+ message res) p
          | None =>
              respond (pingHeader targetIP +:+ "....." +:+ nl
                         +:+ "Success rate is 0 percent (0/5).") p
          end
    | None => respond "% Incomplete command." p
    end
  else if matchCmd cmd "show version" || String.eqb cmd "sh ver" then
    respond ("Cisco IOS Software, " +:+ SYSTEM_INFO_version +:+ nl
               +:+ "System image file is " +:+ dq +:+ "flash:" +:+ SYSTEM_INFO_image
               +:+ ".bin" +:+ dq) p
  else if negb (String.eqb cmd "exit") then respond "% Unknown command" p
  else p.

(** The state [reload] returns with, its timer pending. *)
Definition reloadNow (t1 : Terminal) : Outcome :=
  mkOutcome (withOutput [] (withBooting true t1)) None true.

(** The branch of privileged EXEC. *)
Definition privilegedExec (edges : list Edge) (t t1 : Terminal) (cmd : string)
    (firstToken : option string) (p : Pending) : Flow :=
  if matchCmd cmd "configure terminal" || String.eqb cmd "conf t" then
    Pended (respond "Enter configuration commands, one per line.  End with CNTL/Z."
              (toMode GlobalConfig p))
  else if matchCmd cmd "show running-config" || String.eqb cmd "sh run" then
    Pended (respond (getRunningConfig t) p)
  else if matchCmd cmd "show vlan brief" || String.eqb cmd "sh vlan br"
          || String.eqb cmd "sh vlan" then
    Pended (showVlan t p)
  else if matchCmd cmd "show ip interface brief" || String.eqb cmd "sh ip int br" then
    Pended (respond (getDynamicIpIntBrief edges t) p)
  else if matchCmd cmd "reload" then Returned (reloadNow t1)
  else if bool_decide (firstToken = Some "vlan") then
    Pended (respond ("% Incomplete command. Use " +:+ dq +:+ "configure terminal" +:+ dq
                       +:+ " first.") p)
  else if negb (String.eqb cmd "exit") then Pended (respond "% Unknown command" p)
  else Pended p.

(** [interface <name>]: the long form of an abbreviated name. *)
Definition fullInterfaceName (intName : string) : string :=
  if Js.startsWith (Js.toLowerCase intName) "g" then
    Js.replaceLeadingWord "g" "GigabitEthernet" intName
  else if Js.startsWith (Js.toLowerCase intName) "f" then
    Js.replaceLeadingWord "f" "FastEthernet" intName
  else intName.

(** The branch of global configuration. *)
Definition globalConfig (t : Terminal) (cmd : string) (tokens : list string)
    (firstToken : option string) (p : Pending) : Pending :=
  let nodeId := ts_nodeId (t_state t) in
  if matchCmd cmd "hostname" then
    match tokens !! 1 with
    | Some name =>
        if Js.truthy name then
          setNodes (map (fun n =>
                      if isBound nodeId n
                      then withData (withHostnameLabel name (node_data n)) n else n))
            (toHostname name p)
        else p
    | None => p
    end
  else if matchCmd cmd "interface" then
    match tokens !! 1 with
    | Some intName =>
        if Js.truthy intName then
          let fullName := fullInterfaceName intName in
          setNodes (map (fun n => if isBound nodeId n then ensureInterface n fullName else n))
            (setContextInt fullName (toMode InterfaceConfigMode p))
        else respond "% Incomplete command." p
    | None => respond "% Incomplete command." p
    end
  else if bool_decide (firstToken = Some "vlan") then
    let isSwitch :=
      match getNode (t_nodes t) nodeId with
      | Some n => Js.includes (deviceTypeText (d_type (node_data n))) "SWITCH"
      | None => false
      end in
    if negb isSwitch then respond "% Command rejected: Device does not support VLANs." p
    else
      match Js.parseIntOpt (tokens !! 1) with
      | Some vid =>
          setNodes (createVlan nodeId vid) (setContextVlan vid (toMode VlanConfig p))
      | None => respond "% Invalid input detected at marker." p
      end
  else if matchCmd cmd "ip routing" then
    setNodes (map (fun n =>
                if isBound nodeId n then withData (withIpRouting true (node_data n)) n else n)) p
  else if negb (String.eqb cmd "exit") then respond "% Invalid input detected at marker." p
  else p.

(** The propagation of an access VLAN to the end host on the port: the
    trailing number of the interface name, less one, indexes the sorted
    links of the bound device. *)
Definition propagateVlan (edges : list Edge) (t : Terminal) (vid : Z) (p : Pending)
  : Pending :=
  let nodeId := ts_nodeId (t_state t) in
  let contextInt := t_contextInt t in
  let nodeEdges := getSortedEdges edges nodeId in
  match Js.matchTrailingDigits contextInt with
  | Some m =>
      match Js.parseInt m with
      | Some k =>
          let portIdx := (k - 1)%Z in
          match at_ nodeEdges portIdx with
          | Some targetEdge =>
              let neighborId :=
                if bool_decide (Some (edge_source targetEdge) = nodeId)
                then edge_target targetEdge else edge_source targetEdge in
              respond ("[Sim]: Assigned neighbor device on " +:+ contextInt
                         +:+ " to VLAN " +:+ Js.toString vid)
                (setNodes (tagNeighbor neighborId vid) p)
          | None => p
          end
      | None => p
      end
  | None => p
  end.

(** [cmd.split(' ').pop() || '1']. *)
Definition lastWord (cmd : string) : string :=
  match Js.pop (Js.split " " cmd) with
  | Some w => if Js.truthy w then w else "1"
  | None => "1"
  end.

(** The branch of interface configuration. *)
Definition interfaceConfig (edges : list Edge) (t : Terminal) (cmd : string)
    (p : Pending) : Pending :=
  let nodeId := ts_nodeId (t_state t) in
  let contextInt := t_contextInt t in
  if matchCmd cmd "shutdown" || String.eqb cmd "shut" then
    respond ("%LINK-5-CHANGED: Interface " +:+ contextInt
               +:+ ", changed state to administratively down")
      (setNodes (updateInt nodeId contextInt (withShutdown true)) p)
  else if matchCmd cmd "no shutdown" || String.eqb cmd "no shut" then
    respond ("%LINK-3-UPDOWN: Interface " +:+ contextInt +:+ ", changed state to up")
      (setNodes (updateInt nodeId contextInt (withShutdown false)) p)
  else if matchCmd cmd "switchport mode" then
    let mode := if Js.includes cmd "trunk" then trunk else access in
    setNodes (updateInt nodeId contextInt (withSwitchportMode mode)) p
  else if matchCmd cmd "switchport access vlan" then
    match Js.parseInt (lastWord cmd) with
    | Some vid =>
        propagateVlan edges t vid
          (setNodes (updateInt nodeId contextInt (withAccessVlan vid)) p)
    | None => p
    end
  else if matchCmd cmd "switchport trunk allowed vlan" then
    match Js.split "vlan" cmd !! 1 with
    | Some rest =>
        let vlanStr := Js.trim rest in
        if Js.truthy vlanStr
        then setNodes (updateInt nodeId contextInt (withTrunkAllowedVlans vlanStr)) p
        else p
    | None => p
    end
  else if matchCmd cmd "ip address" then
    let parts := Js.split " " cmd in
    if (4 <=? length parts)%nat
    then setNodes (updateInt nodeId contextInt (withIpMask (parts !! 2) (parts !! 3))) p
    else respond "% Incomplete command." p
  else if negb (String.eqb cmd "exit") then respond "% Invalid input detected at marker." p
  else p.

(** The branch of VLAN configuration. *)
Definition vlanConfig (t : Terminal) (cmd : string) (tokens : list string)
    (firstToken : option string) (p : Pending) : Pending :=
  if matchCmd cmd "name" then
    match tokens !! 1 with
    | Some name =>
        if Js.truthy name
        then setNodes (renameVlan (ts_nodeId (t_state t)) (t_contextVlan t) name) p
        else p
    | None => p
    end
  else if bool_decide (firstToken = Some "vlan")
          || bool_decide (is_Some (Js.parseIntOpt firstToken)) then
    respond ("% Invalid input. Type " +:+ dq +:+ "exit" +:+ dq
               +:+ " to return to global config mode first.") p
  else if negb (String.eqb cmd "exit") then respond "% Invalid input detected at marker." p
  else p.

(** [exit]: one level up, or out of the terminal. *)
Definition exitCommand (m : Mode) (p : Pending) : Pending :=
  match m with
  | LineConfigMode => setContextLine "" (toMode GlobalConfig p)
  | InterfaceConfigMode => setContextInt "" (toMode GlobalConfig p)
  | VlanConfig => setContextVlan 0 (toMode GlobalConfig p)
  | GlobalConfig => toMode PrivilegedExec p
  | PrivilegedExec => toMode UserExec p
  | UserExec => closing p
  end.

(** [appendOutput]: the echoed prompt line and the lines of the response,
    the empty ones dropped from the whole transcript. *)
Definition appendOutput (t : Terminal) (cmdRaw txt : string) (prev : list string)
  : list string :=
  let s := t_state t in
  filter (fun l => Js.truthy l = true)
    (prev ++ (ts_hostname s +:+ modeText (ts_mode s) +:+ " " +:+ cmdRaw) :: Js.split nl txt).

(** The common end of [handleCommand]. *)
Definition finish (t1 : Terminal) (cmdRaw : string) (newHistory : list string)
    (p : Pending) : Outcome :=
  if shouldClose p then mkOutcome (onClose t1) None false
  else
    let s := t_state t1 in
    mkOutcome
      (mkTerminal
         (mkTerminalState (ts_isOpen s) (ts_nodeId s) newHistory (newHostname p) (newMode p))
         (p_nodes p) "" (appendOutput t1 cmdRaw (response p) (t_output t1))
         (p_contextInt p) (p_contextVlan p) (p_contextLine p)
         (t_isBooting t1) (t_historyIdx t1))
      (if Js.startsWith (response p) "%" then Some (cmdRaw, response p) else None)
      false.

(** [handleCommand]: one line of input run to its end. *)
Definition handleCommand (edges : list Edge) (t : Terminal) : Outcome :=
  let s := t_state t in
  let cmdRaw := t_input t in
  let cmd := Js.trim (t_input t) in
  let tokens := Js.splitWs cmd in
  let firstToken := Js.toLowerCase <$> tokens !! 0 in
  let newHistory := filter (fun c => Js.truthy c = true) (ts_history s ++ [cmdRaw]) in
  let t1 := withHistoryIdx (-1) t in
  let p :=
    mkPending "" (ts_mode s) (ts_hostname s) false (t_nodes t)
      (t_contextInt t) (t_contextVlan t) (t_contextLine t) in
  let flow :=
    if String.eqb cmd "" then
      Returned (mkOutcome
        (withOutput (t_output t ++ [ts_hostname s +:+ modeText (ts_mode s)]) t1) None false)
    else if String.eqb cmd "exit" then Pended (exitCommand (ts_mode s) p)
    else if String.eqb cmd "end" then
      Pended (setContextVlan 0 (setContextLine "" (setContextInt "" (toMode PrivilegedExec p))))
    else if String.eqb cmd "?" || String.eqb cmd "help" then
      Pended (respond (getHelp (ts_mode s)) p)
    else if String.eqb cmd "clear" || String.eqb cmd "cls" then
      Returned (mkOutcome (withOutput [] t1) None false)
    else if bool_decide (firstToken = Some "do") then Pended (doCommand edges t cmd p)
    else
      match ts_mode s with
      | UserExec => Pended (userExec edges t cmd tokens p)
      | PrivilegedExec => privilegedExec edges t t1 cmd firstToken p
      | GlobalConfig => Pended (globalConfig t cmd tokens firstToken p)
      | InterfaceConfigMode => Pended (interfaceConfig edges t cmd p)
      | VlanConfig => Pended (vlanConfig t cmd tokens firstToken p)
      | LineConfigMode => Pended p
      end in
  match flow with
  | Returned o => o
  | Pended p' => finish t1 cmdRaw newHistory p'
  end.

(** The timer of [reload], three seconds on: back to user EXEC with the
    host name the command saw. *)
Definition reloadTimeout (hostnameThen : string) (t : Terminal) : Terminal :=
  let s := t_state t in
  mkTerminal (mkTerminalState (ts_isOpen s) (ts_nodeId s) (ts_history s) hostnameThen UserExec)
    (t_nodes t) (t_input t) ["Press RETURN to get started."] "" 0 "" false (t_historyIdx t).

End Interpreter.

(** [history[i]] for an integer index: [undefined] outside the list. *)
Definition historyAt (history : list string) (i : Z) : option string :=
  if (i <? 0)%Z then None else history !! Z.to_nat i.

(** The text [setInput] is given: the entry of the history.  Outside the
    history the code passes [undefined] on, after which the next [Enter]
    fails on [input.trim()] and changes nothing; the embedding has the empty
    text there, so what is stated of recall is stated of indices within the
    history. *)
Definition inputOf (x : option string) : string := default "" x.

(** History recall, the arrow keys of [handleKeyDown]. *)
Definition arrowUp (t : Terminal) : Terminal :=
  let history := ts_history (t_state t) in
  let len := Z.of_nat (length history) in
  if (0 <? len)%Z then
    let newIdx :=
      if (t_historyIdx t =? -1)%Z then 0%Z else Z.min (t_historyIdx t + 1) (len - 1) in
    withInput (inputOf (historyAt history (len - 1 - newIdx))) (withHistoryIdx newIdx t)
  else t.

Definition arrowDown (t : Terminal) : Terminal :=
  let history := ts_history (t_state t) in
  let len := Z.of_nat (length history) in
  if (0 <? t_historyIdx t)%Z then
    withInput (inputOf (historyAt history (len - 1 - (t_historyIdx t - 1))))
      (withHistoryIdx (t_historyIdx t - 1) t)
  else withInput "" (withHistoryIdx (-1) t).

(** * Properties *)

(** ** The command matcher *)

Example matchCmd_sh_run : matchCmd "sh run" "show running-config" = true.
Proof. reflexivity. Qed.

Example matchCmd_caps : matchCmd "  SH   RUN extra" "show running-config" = true.
Proof. reflexivity. Qed.

Example matchCmd_sh : matchCmd "sh" "show running-config" = false.
Proof. reflexivity. Qed.

(** *** Properties of the string primitives used by the matcher *)

Lemma startsWith_prefix (s p : string) :
  Js.startsWith s p = true ↔ ∃ rest, s = p +:+ rest.
Proof.
  revert s. induction p as [|b p IH]; intros s; simpl.
  - split; [intros _; exists s; reflexivity | reflexivity].
  - destruct s as [|a s].
    { split; [discriminate | intros [r Hr]; discriminate]. }
    destruct (Ascii.eqb_spec a b) as [->|Hne].
    + rewrite IH. split; intros [r Hr]; exists r.
      * by rewrite Hr.
      * by injection Hr.
    + split; [discriminate | intros [r Hr]; injection Hr; intros _ ?; contradiction].
Qed.

Lemma truthy_nonempty (s : string) : Js.truthy s = true ↔ s ≠ "".
Proof. destruct s; simpl; split; intros; done. Qed.

Lemma splitWs_nonnil (s : string) : Js.splitWs s ≠ [].
Proof.
  induction s as [|c s IH]; simpl; [done |].
  destruct (Js.isSpace c).
  - destruct s as [|c' s']; [done |]. destruct (Js.isSpace c'); [exact IH | done].
  - destruct (Js.splitWs s); done.
Qed.

Lemma targetParts_length (target : string) : 0 < length (targetParts target).
Proof.
  unfold targetParts. pose proof (splitWs_nonnil (Js.toLowerCase target)) as H.
  destruct (Js.splitWs _); simpl; [done | lia].
Qed.

(** The loop of [matchCmd] over all canonical positions. *)
Lemma matchLoop_spec (ips tps : list string) :
  forallb (matchAt ips tps) (seq 0 (length tps)) = true ↔
  length tps ≤ length ips ∧
  ∀ i t c, ips !! i = Some t → tps !! i = Some c →
           t ≠ "" ∧ ∃ rest, c = t +:+ rest.
Proof.
  rewrite forallb_forall. split.
  - intros H. split.
    + destruct (decide (length tps ≤ length ips)) as [|Hlt]; [done | exfalso].
      assert (Hi : length ips < length tps) by lia.
      specialize (H (length ips)). unfold matchAt in H.
      destruct (lookup_lt_is_Some_2 tps (length ips) Hi) as [c Hc].
      rewrite Hc, (lookup_ge_None_2 ips (length ips)) in H by lia.
      assert (false = true); [apply H, in_seq; lia | done].
    + intros i t c Ht Hc.
      assert (Hin : In i (seq 0 (length tps))).
      { apply in_seq. apply lookup_lt_Some in Hc. lia. }
      specialize (H i Hin). unfold matchAt in H. rewrite Hc, Ht in H.
      apply andb_true_iff in H as [H1 H2].
      split; [by apply truthy_nonempty | by apply startsWith_prefix].
  - intros [Hlen H] i Hin. apply in_seq in Hin. unfold matchAt.
    destruct (tps !! i) as [c|] eqn:Hc; [| done].
    destruct (lookup_lt_is_Some_2 ips i) as [t Ht]; [lia |].
    rewrite Ht. destruct (H i t c Ht Hc) as [Hne Hpre].
    apply andb_true_iff. split; [by apply truthy_nonempty | by apply startsWith_prefix].
Qed.

(** The rule in the words of the specification: every typed token is a
    prefix of the canonical token at its position, whichever list is the
    longer. *)
Definition abbreviates (typed canon : list string) : Prop :=
  ∀ i t c, typed !! i = Some t → canon !! i = Some c → ∃ rest, c = t +:+ rest.

(** What [matchCmd] decides, in terms of the two token lists. *)
Lemma matchCmd_tokens (inputStr target : string) :
  matchCmd inputStr target = true ↔
  length (targetParts target) ≤ length (inputParts inputStr) ∧
  ∀ i t c, inputParts inputStr !! i = Some t → targetParts target !! i = Some c →
           t ≠ "" ∧ ∃ rest, c = t +:+ rest.
Proof.
  unfold matchCmd. destruct inputStr as [|a s] eqn:E; simpl negb; cbv iota.
  - split; [discriminate |]. intros [Hlen H]. exfalso.
    pose proof (targetParts_length target) as Hpos.
    destruct (targetParts target) as [|c cs] eqn:Ht; [simpl in Hpos; lia |].
    destruct (H 0 "" c) as [Hne _]; [reflexivity | reflexivity | by apply Hne].
  - apply matchLoop_spec.
Qed.

(** C1, as the code has it: a typed input matches a canonical command
    exactly when it has a token for every canonical position and each of
    these is a non-empty prefix of the canonical token there (both sides in
    lower case, the input trimmed).  Tokens past the canonical ones are
    free, as trailing arguments; an input with fewer tokens than the
    canonical command never matches. *)
Theorem matchCmd_rule (inputStr target : string) :
  (matchCmd inputStr target = true ↔
   length (targetParts target) ≤ length (inputParts inputStr) ∧
   ∀ i t c, inputParts inputStr !! i = Some t → targetParts target !! i = Some c →
            t ≠ "" ∧ ∃ rest, c = t +:+ rest) ∧
  (length (inputParts inputStr) < length (targetParts target) →
   matchCmd inputStr target = false).
Proof.
  split; [apply matchCmd_tokens |].
  intros Hlt. destruct (matchCmd inputStr target) eqn:E; [| reflexivity].
  apply matchCmd_tokens in E as [Hle _]. lia.
Qed.

Lemma matchCmd_rule_witness :
  matchCmd "sh" "show running-config" = false ∧
  matchCmd "sh run" "show running-config" = true ∧
  matchCmd "int g0/1 extra" "interface" = true.
Proof.
  split; [| split].
  - apply (proj2 (matchCmd_rule "sh" "show running-config")). vm_compute. lia.
  - reflexivity.
  - reflexivity.
Defined.

(** C1, the stated rule fails: [sh] abbreviates [show running-config] token
    by token, having fewer tokens, and is not matched. *)
Lemma matchCmd_fewer_tokens_rejected :
  abbreviates (inputParts "sh") (targetParts "show running-config") ∧
  length (inputParts "sh") < length (targetParts "show running-config") ∧
  matchCmd "sh" "show running-config" = false.
Proof.
  split; [| split; [vm_compute; lia | reflexivity]].
  intros i t c Ht Hc. destruct i as [|i]; [| destruct i; discriminate].
  injection Ht as <-. injection Hc as <-. by exists "ow".
Qed.

(** ** The connection validator *)

(** C8, as the code has it: no pair of kinds is refused; (PC, PC) and
    (SwitchL2, Internet) are warnings, (Internet, PC) is an error, and every
    other pair carries the message "Connection established." and no level at
    all. *)
Theorem validateConnection_table (sourceType targetType : DeviceType) :
  isValid (validateConnection sourceType targetType) = true ∧
  validateConnection sourceType targetType =
    match sourceType, targetType with
    | PC, PC =>
        mkValidation true
          "PC connected directly to PC. Ensure IPs are in the same subnet." (Some warning)
    | INTERNET, PC =>
        mkValidation true
          "DANGER: Direct Internet connection to PC! Please use a Firewall or Router."
          (Some error)
    | SWITCH_L2, INTERNET =>
        mkValidation true
          "L2 Switches cannot terminate ISP links directly without a Router/Gateway."
          (Some warning)
    | _, _ => mkValidation true "Connection established." None
    end.
Proof. destruct sourceType, targetType; split; reflexivity. Qed.

(** C8, the stated level fails: a router linked to a PC is one of the other
    pairs, and its verdict has no level, so it is not [info]. *)
Lemma validateConnection_router_pc_no_level :
  level (validateConnection ROUTER PC) = None ∧
  level (validateConnection ROUTER PC) ≠ Some info.
Proof. split; [reflexivity | discriminate]. Qed.

(** ** [ensureInterface] *)

(** The table of interfaces of a device, [node.data.interfaces || {}], and
    its own entries. *)
Definition tableOf (node : NetworkNode) : Interfaces :=
  default (mkInterfaces ∅ None) (d_interfaces (node_data node)).

Definition interfacesOf (node : NetworkNode) : gmap string InterfaceConfig :=
  own (tableOf node).


Lemma member_own (interfaces : Interfaces) (k : string) :
  is_Some (own interfaces !! k) → member interfaces k = true.
Proof. intros [c Hc]. unfold member. by rewrite Hc. Qed.

Lemma member_proto (interfaces : Interfaces) : member interfaces "__proto__" = true.
Proof.
  unfold member. destruct (own interfaces !! "__proto__"); [done |].
  destruct (proto interfaces); [apply orb_true_r | done].
Qed.


Lemma assign_fresh (k : string) (c : InterfaceConfig) (interfaces : Interfaces) :
  member interfaces k = false →
  assign k c interfaces = mkInterfaces (<[k := c]> (own interfaces)) (proto interfaces).
Proof.
  intros Hm. unfold assign. destruct (String.eqb_spec k "__proto__") as [->|_]; [| done].
  by rewrite member_proto in Hm.
Qed.

Lemma ensureInterface_table (node : NetworkNode) (ifName : string) :
  tableOf (ensureInterface node ifName) =
    if member (tableOf node) ifName then tableOf node
    else mkInterfaces (<[ifName := defaultInterface ifName]> (interfacesOf node))
           (proto (tableOf node)).
Proof.
  unfold ensureInterface. fold (tableOf node).
  destruct (member (tableOf node) ifName) eqn:Hm; [done |].
  cbn. by rewrite assign_fresh.
Qed.

Lemma ensureInterface_interfaces (node : NetworkNode) (ifName : string) :
  interfacesOf (ensureInterface node ifName) =
    if member (tableOf node) ifName then interfacesOf node
    else <[ifName := defaultInterface ifName]> (interfacesOf node).
Proof.
  unfold interfacesOf. rewrite ensureInterface_table.
  by destruct (member (tableOf node) ifName).
Qed.

Lemma ensureInterface_member (node : NetworkNode) (ifName : string) :
  member (tableOf (ensureInterface node ifName)) ifName = true.
Proof.
  rewrite ensureInterface_table.
  destruct (member (tableOf node) ifName) eqn:Hm; [done |].
  apply member_own. cbn. rewrite lookup_insert_eq. by eexists.
Qed.



(** ** The search of [findPath] always finishes *)

(** Every identifier the links name. *)
Definition endpoints (edges : list Edge) : gset string :=
  list_to_set (flat_map (fun e => [edge_source e; edge_target e]) edges).

Lemma size_insert_le (x : string) (X : gset string) : size ({[x]} ∪ X) ≤ S (size X).
Proof.
  destruct (decide (x ∈ X)) as [Hin|Hout].
  - assert (Heq : {[x]} ∪ X = X) by set_solver. rewrite Heq. lia.
  - rewrite size_union by set_solver. rewrite size_singleton. lia.
Qed.

Lemma endpoints_cons (e : Edge) (edges : list Edge) :
  endpoints (e :: edges) = {[edge_source e]} ∪ ({[edge_target e]} ∪ endpoints edges).
Proof. reflexivity. Qed.

Lemma endpoints_size (edges : list Edge) : size (endpoints edges) ≤ 2 * length edges.
Proof.
  induction edges as [|e edges IH].
  - change (size (∅ : gset string) ≤ 0). by rewrite size_empty.
  - rewrite endpoints_cons. cbn [length].
    pose proof (size_insert_le (edge_source e) ({[edge_target e]} ∪ endpoints edges)).
    pose proof (size_insert_le (edge_target e) (endpoints edges)).
    lia.
Qed.

(** All the neighbours an adjacency map lists are in [U]. *)
Definition neighborsWithin (adj : gmap string (list string)) (U : gset string) : Prop :=
  ∀ id l x, adj !! id = Some l → x ∈ l → x ∈ U.

Lemma addEdgeTo_within (adj : gmap string (list string)) (U : gset string) (e : Edge) :
  neighborsWithin adj U →
  neighborsWithin (addEdgeTo adj e) ({[edge_source e; edge_target e]} ∪ U).
Proof.
  intros H id l x Hl Hx. unfold addEdgeTo in Hl.
  apply lookup_alter_Some in Hl as [(-> & l1 & Hl1 & ->) | (Hne1 & Hl)].
  { apply elem_of_app in Hx as [Hx | Hx]; [| set_solver].
    apply lookup_alter_Some in Hl1 as [(Heq & l2 & Hl2 & ->) | (Hne2 & Hl1)].
    - apply elem_of_app in Hx as [Hx | Hx]; [| set_solver].
      repeat case_decide; simplify_map_eq; set_solver.
    - repeat case_decide; simplify_map_eq; set_solver. }
  apply lookup_alter_Some in Hl as [(-> & l2 & Hl2 & ->) | (Hne2 & Hl)].
  { apply elem_of_app in Hx as [Hx | Hx]; [| set_solver].
    repeat case_decide; simplify_map_eq; set_solver. }
  repeat case_decide; simplify_map_eq; set_solver.
Qed.

Lemma foldl_addEdgeTo_within (edges : list Edge) (adj : gmap string (list string))
    (U : gset string) :
  neighborsWithin adj U →
  neighborsWithin (foldl addEdgeTo adj edges) (endpoints edges ∪ U).
Proof.
  revert adj U. induction edges as [|e edges IH]; intros adj U H.
  - intros id l x Hl Hx. apply elem_of_union_r. by apply (H id l x).
  - intros id l x Hl Hx.
    pose proof (IH _ _ (addEdgeTo_within adj U e H) id l x Hl Hx) as Hin.
    rewrite endpoints_cons. set_solver.
Qed.

Lemma adjacencyList_within (edges : list Edge) :
  neighborsWithin (adjacencyList edges) (endpoints edges).
Proof.
  intros id l x Hl Hx.
  assert (H0 : neighborsWithin (∅ : gmap string (list string)) ∅).
  { intros ? ? ? Hl'. by rewrite lookup_empty in Hl'. }
  pose proof (foldl_addEdgeTo_within edges ∅ ∅ H0 id l x Hl Hx). set_solver.
Qed.

(** What is left for the loop to do: two for an identifier not yet
    visited, one for an entry in the queue. *)
Definition bfsMeasure (U visited : gset string) (queue : list (string * list string)) : nat :=
  2 * size (U ∖ visited) + length queue.

Lemma visitNeighbor_measure (U : gset string) (cpath : list string)
    (st : gset string * list (string * list string)) (x : string) :
  x ∈ U →
  bfsMeasure U (visitNeighbor cpath st x).1 (visitNeighbor cpath st x).2
    ≤ bfsMeasure U st.1 st.2.
Proof.
  intros HxU. unfold visitNeighbor, bfsMeasure. case_decide as Hin; [lia |]. simpl.
  rewrite length_app. simpl.
  assert (Hlt : size (U ∖ ({[x]} ∪ st.1)) < size (U ∖ st.1)).
  { apply subset_size. set_solver. }
  lia.
Qed.

Lemma visit_all_measure (U : gset string) (cpath neighbors : list string)
    (st : gset string * list (string * list string)) :
  (∀ x, x ∈ neighbors → x ∈ U) →
  bfsMeasure U (foldl (visitNeighbor cpath) st neighbors).1
               (foldl (visitNeighbor cpath) st neighbors).2
    ≤ bfsMeasure U st.1 st.2.
Proof.
  revert st. induction neighbors as [|x neighbors IH]; intros st H; simpl; [lia |].
  etransitivity; [apply IH; intros y Hy; apply H; by right |].
  apply visitNeighbor_measure, H. by left.
Qed.

Lemma bfsLoop_finishes (adj : gmap string (list string)) (U : gset string)
    (endNodeId : string) (fuel : nat) :
  neighborsWithin adj U →
  ∀ queue visited,
    bfsMeasure U visited queue < fuel →
    is_Some (bfsLoop fuel adj endNodeId queue visited).
Proof.
  intros Hadj. induction fuel as [|fuel IH]; intros queue visited Hm; [lia |].
  simpl. destruct queue as [|[cid cpath] rest]; [by eexists |].
  destruct (String.eqb cid endNodeId); [by eexists |].
  apply IH.
  eapply Nat.le_lt_trans.
  - apply visit_all_measure. intros x Hx.
    destruct (adj !! cid) as [l|] eqn:El; simpl in Hx.
    + by apply (Hadj cid l x El).
    + by apply elem_of_nil in Hx.
  - unfold bfsMeasure in *. simpl in *. lia.
Qed.

(** X2: the search of [findPath] always finishes; the bound on the turns
    of its loop is never reached, whatever the links and the two
    identifiers. *)
Theorem bfsRun_finishes (edges : list Edge) (startNodeId endNodeId : string) :
  is_Some (bfsRun edges startNodeId endNodeId).
Proof.
  unfold bfsRun. apply (bfsLoop_finishes _ (endpoints edges)).
  - apply adjacencyList_within.
  - unfold bfsMeasure, bfsFuel. simpl.
    pose proof (endpoints_size edges).
    assert (size (endpoints edges ∖ {[startNodeId]}) ≤ size (endpoints edges)).
    { apply subseteq_size. set_solver. }
    lia.
Qed.

(** ** The address check of [findPath] *)

Lemma app_cons (c : ascii) (s r : string) : String c s +:+ r = String c (s +:+ r).
Proof. reflexivity. Qed.

Lemma app_empty (r : string) : "" +:+ r = r.
Proof. reflexivity. Qed.

(** One to three digits. *)
Definition isGroup (g : string) : bool :=
  match g with
  | String a EmptyString => Js.isDigit a
  | String a (String b EmptyString) => Js.isDigit a && Js.isDigit b
  | String a (String b (String c EmptyString)) => Js.isDigit a && Js.isDigit b && Js.isDigit c
  | _ => false
  end.

(** Four groups of one to three digits with dots between them, and nothing
    else. *)
Definition dottedQuad (s : string) : Prop :=
  ∃ a b c d, isGroup a = true ∧ isGroup b = true ∧ isGroup c = true ∧ isGroup d = true ∧
             s = a +:+ "." +:+ b +:+ "." +:+ c +:+ "." +:+ d.

Lemma eatDigits13_sound (s r : string) :
  eatDigits13 s = Some r → ∃ g, isGroup g = true ∧ s = g +:+ r.
Proof.
  unfold eatDigits13. destruct s as [|a s1]; [discriminate |].
  destruct (Js.isDigit a) eqn:Ha; [| discriminate].
  destruct s1 as [|b s2].
  { intros [= <-]. exists (String a ""). split; [exact Ha | reflexivity]. }
  destruct (Js.isDigit b) eqn:Hb.
  2: { intros [= <-]. exists (String a ""). split; [exact Ha | reflexivity]. }
  destruct s2 as [|c s3].
  { intros [= <-]. exists (String a (String b "")).
    split; [simpl; by rewrite Ha, Hb | reflexivity]. }
  destruct (Js.isDigit c) eqn:Hc; intros [= <-].
  - exists (String a (String b (String c ""))).
    split; [simpl; by rewrite Ha, Hb, Hc | reflexivity].
  - exists (String a (String b "")). split; [simpl; by rewrite Ha, Hb | reflexivity].
Qed.

(** What follows a group is not a digit. *)
Definition noDigitAhead (rest : string) : Prop :=
  match rest with
  | String c _ => Js.isDigit c = false
  | EmptyString => True
  end.

Lemma eatDigits13_complete (g rest : string) :
  isGroup g = true → noDigitAhead rest → eatDigits13 (g +:+ rest) = Some rest.
Proof.
  intros Hg Hrest.
  destruct g as [|a [|b [|c [|? ?]]]]; simpl in Hg; try discriminate.
  - rewrite app_cons, app_empty. unfold eatDigits13. rewrite Hg.
    destruct rest as [|x rest']; [done |]. simpl in Hrest. by rewrite Hrest.
  - apply andb_true_iff in Hg as [Ha Hb].
    rewrite !app_cons, app_empty. unfold eatDigits13. rewrite Ha, Hb.
    destruct rest as [|x rest']; [done |]. simpl in Hrest. by rewrite Hrest.
  - apply andb_true_iff in Hg as [Hab Hc]. apply andb_true_iff in Hab as [Ha Hb].
    rewrite !app_cons, app_empty. unfold eatDigits13. by rewrite Ha, Hb, Hc.
Qed.

Lemma eatGroupDot_sound (s r : string) :
  eatGroupDot s = Some r → ∃ g, isGroup g = true ∧ s = g +:+ "." +:+ r.
Proof.
  unfold eatGroupDot. destruct (eatDigits13 s) as [r0|] eqn:E; [| discriminate].
  destruct r0 as [|x r0]; [discriminate |].
  destruct (Ascii.eqb_spec x ".") as [->|Hne].
  - intros [= <-]. by apply eatDigits13_sound in E.
  - intros H. exfalso. apply Hne.
    destruct x as [[] [] [] [] [] [] [] []]; try discriminate H. reflexivity.
Qed.

Lemma eatGroupDot_complete (g r : string) :
  isGroup g = true → eatGroupDot (g +:+ "." +:+ r) = Some r.
Proof.
  intros Hg. unfold eatGroupDot.
  rewrite (eatDigits13_complete g ("." +:+ r) Hg); [reflexivity | reflexivity].
Qed.

(** The pattern of [isValidIP] accepts exactly the dotted quads. *)
Lemma ipPattern_dottedQuad (s : string) : ipPattern s = true ↔ dottedQuad s.
Proof.
  unfold ipPattern, dottedQuad. split.
  - destruct (eatGroupDot s) as [r1|] eqn:E1; [| discriminate].
    destruct (eatGroupDot r1) as [r2|] eqn:E2; [| discriminate].
    destruct (eatGroupDot r2) as [r3|] eqn:E3; [| discriminate].
    destruct (eatDigits13 r3) as [r4|] eqn:E4; [| discriminate].
    destruct r4; [| discriminate]. intros _.
    apply eatGroupDot_sound in E1 as (a & Ha & ->).
    apply eatGroupDot_sound in E2 as (b & Hb & ->).
    apply eatGroupDot_sound in E3 as (c & Hc & ->).
    apply eatDigits13_sound in E4 as (d & Hd & ->).
    exists a, b, c, d. repeat split; try done.
    replace (d +:+ "") with d; [done |].
    clear. induction d as [|x d IH]; [done |]. rewrite app_cons. by rewrite <- IH.
  - intros (a & b & c & d & Ha & Hb & Hc & Hd & ->).
    rewrite !eatGroupDot_complete by done.
    assert (Hd' : eatDigits13 (d +:+ "") = Some "") by by apply eatDigits13_complete.
    replace (d +:+ "") with d in Hd'; [by rewrite Hd' |].
    clear. induction d as [|x d IH]; [done |]. rewrite app_cons. by rewrite <- IH.
Qed.

Lemma isValidIP_dottedQuad (ip : option string) :
  isValidIP ip = true ↔ ∃ s, ip = Some s ∧ dottedQuad s.
Proof.
  destruct ip as [s|]; simpl.
  - rewrite andb_true_iff, ipPattern_dottedQuad. split.
    + intros [_ H]. by exists s.
    + intros (s' & [= <-] & H). split; [| done].
      destruct H as (a & ? & ? & ? & Ha & _ & _ & _ & ->).
      destruct a; [discriminate | done].
  - split; [discriminate | intros (? & ? & _); discriminate].
Qed.

(** ** Subnets *)

Fixpoint noDot (s : string) : bool :=
  match s with
  | EmptyString => true
  | String c s' => negb (Ascii.eqb c ".") && noDot s'
  end.

Lemma digit_not_dot (c : ascii) : Js.isDigit c = true → Ascii.eqb c "." = false.
Proof. intros H. destruct (Ascii.eqb_spec c ".") as [->|]; [discriminate H | reflexivity]. Qed.

Lemma isGroup_noDot (g : string) : isGroup g = true → noDot g = true.
Proof.
  destruct g as [|a [|b [|c [|? ?]]]]; simpl; try discriminate; intros H.
  - by rewrite (digit_not_dot a H).
  - apply andb_true_iff in H as [Ha Hb].
    by rewrite (digit_not_dot a Ha), (digit_not_dot b Hb).
  - apply andb_true_iff in H as [Hab Hc]. apply andb_true_iff in Hab as [Ha Hb].
    by rewrite (digit_not_dot a Ha), (digit_not_dot b Hb), (digit_not_dot c Hc).
Qed.

Lemma app_assoc_cons (cur : string) (x : ascii) (g : string) :
  (cur +:+ String x "") +:+ g = cur +:+ String x g.
Proof. induction cur as [|c cur IH]; [reflexivity |]. rewrite !app_cons. by rewrite IH. Qed.

Lemma app_empty_r (s : string) : s +:+ "" = s.
Proof. induction s as [|c s IH]; [reflexivity |]. rewrite app_cons. by rewrite IH. Qed.

Lemma splitGo_piece (g rest cur : string) :
  noDot g = true →
  Js.splitGo "." 0 cur (g +:+ "." +:+ rest) = (cur +:+ g) :: Js.splitGo "." 0 "" rest.
Proof.
  revert cur. induction g as [|x g IH]; intros cur Hg.
  - rewrite app_empty, app_empty_r. reflexivity.
  - simpl in Hg. apply andb_true_iff in Hg as [Hx Hg]. apply negb_true_iff in Hx.
    rewrite app_cons. cbn [Js.splitGo Js.startsWith]. rewrite Hx.
    rewrite (IH _ Hg). by rewrite app_assoc_cons.
Qed.

Lemma splitGo_last (g cur : string) :
  noDot g = true → Js.splitGo "." 0 cur g = [cur +:+ g].
Proof.
  revert cur. induction g as [|x g IH]; intros cur Hg.
  - by rewrite app_empty_r.
  - simpl in Hg. apply andb_true_iff in Hg as [Hx Hg]. apply negb_true_iff in Hx.
    cbn [Js.splitGo Js.startsWith]. rewrite Hx. rewrite (IH _ Hg). by rewrite app_assoc_cons.
Qed.

(** X4: the subnet of a dotted quad is its first three groups. *)
Theorem getSubnet_dottedQuad (a b c d : string) :
  isGroup a = true → isGroup b = true → isGroup c = true → isGroup d = true →
  getSubnet (a +:+ "." +:+ b +:+ "." +:+ c +:+ "." +:+ d) = a +:+ "." +:+ b +:+ "." +:+ c.
Proof.
  intros Ha Hb Hc Hd. unfold getSubnet, Js.split.
  rewrite (splitGo_piece a _ "" (isGroup_noDot a Ha)).
  rewrite (splitGo_piece b _ "" (isGroup_noDot b Hb)).
  rewrite (splitGo_piece c _ "" (isGroup_noDot c Hc)).
  rewrite (splitGo_last d "" (isGroup_noDot d Hd)).
  reflexivity.
Qed.

Lemma subnet_of_valid (ip : string) :
  isValidIP (Some ip) = true →
  ∃ a b c d, ip = a +:+ "." +:+ b +:+ "." +:+ c +:+ "." +:+ d ∧
             getSubnet ip = a +:+ "." +:+ b +:+ "." +:+ c.
Proof.
  intros H.
  apply isValidIP_dottedQuad in H as (s & [= <-] & a & b & c & d & Ha & Hb & Hc & Hd & ->).
  exists a, b, c, d. split; [reflexivity |]. unfold getSubnet, Js.split.
  rewrite (splitGo_piece a _ "" (isGroup_noDot a Ha)).
  rewrite (splitGo_piece b _ "" (isGroup_noDot b Hb)).
  rewrite (splitGo_piece c _ "" (isGroup_noDot c Hc)).
  rewrite (splitGo_last d "" (isGroup_noDot d Hd)).
  reflexivity.
Qed.

(** *** Sample topologies *)

(** A device as the catalogue creates it: label, kind, address, status. *)
Definition device (label : string) (t : DeviceType) (ip : option string) (st : Status)
  : NetworkNodeData :=
  mkNetworkNodeData label t ip None st None None None None None None None None None None.

Definition host (id : string) (t : DeviceType) (ip : option string) (st : Status)
  : NetworkNode :=
  mkNetworkNode id (0, 0)%Z (device id t ip st).

(** Two hosts on either side of an L2 switch, in different subnets. *)
Definition lanNodes : list NetworkNode :=
  [host "h" PC (Some "10.0.0.5") up; host "g" SWITCH_L2 None up;
   host "i" PC (Some "10.0.1.5") up].

Definition lanEdges : list Edge := [mkEdge "e1" "h" "g"; mkEdge "e2" "g" "i"].

Example lan_routing_error :
  findPath lanNodes lanEdges "h" "i" =
    mkResult false ["h"; "g"; "i"] 0
      "Routing Error: Devices are in different subnets (10.0.0.x vs 10.0.1.x) but no Router/Gateway was found in the path.".
Proof. vm_compute. reflexivity. Qed.

(** The scenario of the specification: the two PCs behind switch B. *)
Example scenario_C_to_D :
  findPath
    [host "A" ROUTER None up; host "B" SWITCH_L2 None up;
     host "C" PC (Some "192.168.1.10") up; host "D" PC (Some "192.168.1.11") up]
    [mkEdge "ab" "A" "B"; mkEdge "bc" "B" "C"; mkEdge "bd" "B" "D"] "C" "D" =
    mkResult true ["C"; "B"; "D"] 2
      "Success! Packet delivered from 192.168.1.10 to 192.168.1.11 via 2 hops.".
Proof. vm_compute. reflexivity. Qed.

(** C4: both endpoints found, [findPath] checks the source's address, then
    the target's, by shape alone: an address passes exactly when it is four
    groups of one to three digits separated by dots, whatever the numbers
    (so 999.1.1.1 passes).  A source without such an address fails the call
    with the configuration error naming it, otherwise a target without one
    fails it naming the target; the path is empty and the hop count zero,
    and the links play no part. *)
Theorem findPath_address_check (nodes : list NetworkNode) (edges : list Edge)
    (startNodeId endNodeId : string) (startNode endNode : NetworkNode) :
  findNode nodes startNodeId = Some startNode →
  findNode nodes endNodeId = Some endNode →
  (∀ ip, isValidIP ip = true ↔ ∃ s, ip = Some s ∧ dottedQuad s) ∧
  isValidIP (Some "999.1.1.1") = true ∧
  (isValidIP (d_ip (node_data startNode)) = false →
   findPath nodes edges startNodeId endNodeId =
     mkResult false [] 0
       ("Configuration Error: Source device (" +:+ d_label (node_data startNode)
          +:+ ") is missing a valid IP address.")) ∧
  (isValidIP (d_ip (node_data startNode)) = true →
   isValidIP (d_ip (node_data endNode)) = false →
   findPath nodes edges startNodeId endNodeId =
     mkResult false [] 0
       ("Configuration Error: Destination device (" +:+ d_label (node_data endNode)
          +:+ ") is missing a valid IP address.")).
Proof.
  intros Hs He. split; [exact isValidIP_dottedQuad |]. split; [reflexivity |].
  unfold findPath. rewrite Hs, He. split.
  - intros ->. reflexivity.
  - intros -> ->. reflexivity.
Qed.

Lemma findPath_address_check_witness :
  findPath lanNodes lanEdges "g" "i" =
    mkResult false [] 0 "Configuration Error: Source device (g) is missing a valid IP address."
  ∧ findPath lanNodes [] "h" "g" =
    mkResult false [] 0
      "Configuration Error: Destination device (g) is missing a valid IP address.".
Proof.
  split.
  - destruct (findPath_address_check lanNodes lanEdges "g" "i"
                (host "g" SWITCH_L2 None up) (host "i" PC (Some "10.0.1.5") up)
                eq_refl eq_refl) as (_ & _ & Hsrc & _).
    apply Hsrc. reflexivity.
  - destruct (findPath_address_check lanNodes [] "h" "g"
                (host "h" PC (Some "10.0.0.5") up) (host "g" SWITCH_L2 None up)
                eq_refl eq_refl) as (_ & _ & _ & Hdst).
    apply Hdst; reflexivity.
Defined.

(** ** Liveness and routing on the discovered path *)

Lemma findPath_on_path (nodes : list NetworkNode) (edges : list Edge)
    (startNodeId endNodeId : string) (startNode endNode : NetworkNode)
    (sourceIP targetIP : string) (physicalPath : list string) :
  findNode nodes startNodeId = Some startNode →
  findNode nodes endNodeId = Some endNode →
  d_ip (node_data startNode) = Some sourceIP →
  d_ip (node_data endNode) = Some targetIP →
  isValidIP (Some sourceIP) = true →
  isValidIP (Some targetIP) = true →
  bfs edges startNodeId endNodeId = Some physicalPath →
  findPath nodes edges startNodeId endNodeId =
    validatePath nodes physicalPath sourceIP targetIP.
Proof.
  intros Hs He Hsi Hti Hsv Htv Hbfs. unfold findPath.
  rewrite Hs, He, Hsi, Hti, Hsv, Htv, Hbfs. reflexivity.
Qed.

Lemma find_none_iff {A} (f : A → bool) (l : list A) :
  List.find f l = None ↔ ∀ x, x ∈ l → f x = false.
Proof.
  induction l as [|a l IH]; simpl.
  - split; [intros _ x Hx; by apply elem_of_nil in Hx | done].
  - destruct (f a) eqn:Ha.
    + split; [discriminate |]. intros H. rewrite H in Ha; [discriminate | by left].
    + rewrite IH. split.
      * intros H x Hx. apply elem_of_cons in Hx as [-> | Hx]; [done | by apply H].
      * intros H x Hx. apply H. by right.
Qed.

Lemma existsb_false_iff {A} (f : A → bool) (l : list A) :
  existsb f l = false ↔ ∀ x, x ∈ l → f x = false.
Proof.
  induction l as [|a l IH]; simpl.
  - split; [intros _ x Hx; by apply elem_of_nil in Hx | done].
  - rewrite orb_false_iff, IH. split.
    + intros [Ha H] x Hx. apply elem_of_cons in Hx as [-> | Hx]; [done | by apply H].
    + intros H. split; [apply H; by left | intros x Hx; apply H; by right].
Qed.

(** The routing devices are the routers, the L3 switches and the
    firewalls among the devices of the list. *)
Lemma isRoutingDevice_kind (nodes : list NetworkNode) (id : string) :
  isRoutingDevice nodes id = true ↔
  ∃ node, findNode nodes id = Some node ∧
          (d_type (node_data node) = ROUTER ∨ d_type (node_data node) = SWITCH_L3 ∨
           d_type (node_data node) = FIREWALL).
Proof.
  unfold isRoutingDevice. destruct (findNode nodes id) as [node|].
  - split.
    + intros H. exists node. split; [done |].
      destruct (d_type (node_data node)); try discriminate H; auto.
    + intros (node' & [= <-] & [-> | [-> | ->]]); reflexivity.
  - split; [discriminate | by intros (node' & H & _)].
Qed.

(** C2: with both addresses valid, a path found and no device on it down,
    the subnet of either end is the first three groups of its address; the
    verdict is the routing error, naming both subnets, with hop count zero,
    when the subnets differ and no device on the path is of kind ROUTER,
    SWITCH_L3 or FIREWALL; and it is success, with one hop per link of the
    path, when the subnets are equal or a device of kind ROUTER, SWITCH_L3
    or FIREWALL is on the path. *)
Theorem findPath_routing_requirement (nodes : list NetworkNode) (edges : list Edge)
    (startNodeId endNodeId : string) (startNode endNode : NetworkNode)
    (sourceIP targetIP : string) (physicalPath : list string) :
  findNode nodes startNodeId = Some startNode →
  findNode nodes endNodeId = Some endNode →
  d_ip (node_data startNode) = Some sourceIP →
  d_ip (node_data endNode) = Some targetIP →
  isValidIP (Some sourceIP) = true →
  isValidIP (Some targetIP) = true →
  bfs edges startNodeId endNodeId = Some physicalPath →
  (∀ id, id ∈ physicalPath → isDown nodes id = false) →
  (∃ a b c d, sourceIP = a +:+ "." +:+ b +:+ "." +:+ c +:+ "." +:+ d ∧
              getSubnet sourceIP = a +:+ "." +:+ b +:+ "." +:+ c) ∧
  (∃ a b c d, targetIP = a +:+ "." +:+ b +:+ "." +:+ c +:+ "." +:+ d ∧
              getSubnet targetIP = a +:+ "." +:+ b +:+ "." +:+ c) ∧
  (getSubnet sourceIP ≠ getSubnet targetIP →
   (∀ id node, id ∈ physicalPath → findNode nodes id = Some node →
      d_type (node_data node) ≠ ROUTER ∧ d_type (node_data node) ≠ SWITCH_L3 ∧
      d_type (node_data node) ≠ FIREWALL) →
   findPath nodes edges startNodeId endNodeId =
     mkResult false physicalPath 0
       ("Routing Error: Devices are in different subnets (" +:+ getSubnet sourceIP
          +:+ ".x vs " +:+ getSubnet targetIP
          +:+ ".x) but no Router/Gateway was found in the path.")) ∧
  (getSubnet sourceIP = getSubnet targetIP ∨
   (∃ id node, id ∈ physicalPath ∧ findNode nodes id = Some node ∧
      (d_type (node_data node) = ROUTER ∨ d_type (node_data node) = SWITCH_L3 ∨
       d_type (node_data node) = FIREWALL)) →
   findPath nodes edges startNodeId endNodeId =
     mkResult true physicalPath (Z.of_nat (length physicalPath) - 1)
       ("Success! Packet delivered from " +:+ sourceIP +:+ " to " +:+ targetIP
          +:+ " via " +:+ Js.toString (Z.of_nat (length physicalPath) - 1) +:+ " hops.")).
Proof.
  intros Hs He Hsi Hti Hsv Htv Hbfs Hup.
  split; [by apply subnet_of_valid |]. split; [by apply subnet_of_valid |].
  rewrite (findPath_on_path _ _ _ _ _ _ _ _ _ Hs He Hsi Hti Hsv Htv Hbfs).
  unfold validatePath. apply find_none_iff in Hup. rewrite Hup.
  unfold routePath. split.
  - intros Hne Hno.
    destruct (String.eqb_spec (getSubnet sourceIP) (getSubnet targetIP)); [done |].
    assert (Hnone : existsb (isRoutingDevice nodes) physicalPath = false).
    { apply existsb_false_iff. intros id Hin.
      destruct (isRoutingDevice nodes id) eqn:Hr; [| done].
      apply isRoutingDevice_kind in Hr as (node & Hnode & Hkind).
      destruct (Hno id node Hin Hnode) as (H1 & H2 & H3).
      destruct Hkind as [H | [H | H]]; contradiction. }
    rewrite Hnone. reflexivity.
  - intros [Heq | (id & node & Hin & Hnode & Hkind)].
    + rewrite Heq, String.eqb_refl. reflexivity.
    + destruct (String.eqb (getSubnet sourceIP) (getSubnet targetIP)); [reflexivity |].
      destruct (existsb (isRoutingDevice nodes) physicalPath) eqn:Ex; [reflexivity |].
      rewrite existsb_false_iff in Ex.
      assert (Hr : isRoutingDevice nodes id = true).
      { apply isRoutingDevice_kind. by exists node. }
      rewrite (Ex id Hin) in Hr. discriminate.
Qed.

(** The two hosts with a device of the given kind between them. *)
Definition nodesAround (kind : DeviceType) : list NetworkNode :=
  [host "h" PC (Some "10.0.0.5") up; host "g" kind None up;
   host "i" PC (Some "10.0.1.5") up].

Definition routedNodes : list NetworkNode := nodesAround ROUTER.

Lemma lan_path : bfs lanEdges "h" "i" = Some ["h"; "g"; "i"].
Proof. vm_compute. reflexivity. Defined.

Lemma on_lan_path (P : string → Prop) :
  P "h" → P "g" → P "i" → ∀ id, id ∈ ["h"; "g"; "i"] → P id.
Proof.
  intros Hh Hg Hi id Hin.
  repeat (apply elem_of_cons in Hin as [-> | Hin]; [assumption |]).
  by apply elem_of_nil in Hin.
Defined.

Lemma findPath_routing_requirement_witness :
  findPath (nodesAround SWITCH_L2) lanEdges "h" "i" =
    mkResult false ["h"; "g"; "i"] 0
      "Routing Error: Devices are in different subnets (10.0.0.x vs 10.0.1.x) but no Router/Gateway was found in the path."
  ∧ findPath (nodesAround ROUTER) lanEdges "h" "i" =
    mkResult true ["h"; "g"; "i"] 2
      "Success! Packet delivered from 10.0.0.5 to 10.0.1.5 via 2 hops."
  ∧ findPath (nodesAround SWITCH_L3) lanEdges "h" "i" =
    mkResult true ["h"; "g"; "i"] 2
      "Success! Packet delivered from 10.0.0.5 to 10.0.1.5 via 2 hops."
  ∧ findPath (nodesAround FIREWALL) lanEdges "h" "i" =
    mkResult true ["h"; "g"; "i"] 2
      "Success! Packet delivered from 10.0.0.5 to 10.0.1.5 via 2 hops.".
Proof.
  split; [| split; [| split]].
  - refine (proj1 (proj2 (proj2 (findPath_routing_requirement (nodesAround SWITCH_L2)
                     lanEdges "h" "i"
                     (host "h" PC (Some "10.0.0.5") up) (host "i" PC (Some "10.0.1.5") up)
                     "10.0.0.5" "10.0.1.5" ["h"; "g"; "i"]
                     eq_refl eq_refl eq_refl eq_refl eq_refl eq_refl lan_path _))) _ _).
    + apply on_lan_path; reflexivity.
    + discriminate.
    + intros id node Hin. revert node.
      refine (on_lan_path
                (fun id => ∀ node, findNode (nodesAround SWITCH_L2) id = Some node → _)
                _ _ _ id Hin);
        intros node [= <-]; repeat split; discriminate.
  - refine (proj2 (proj2 (proj2 (findPath_routing_requirement (nodesAround ROUTER)
                     lanEdges "h" "i"
                     (host "h" PC (Some "10.0.0.5") up) (host "i" PC (Some "10.0.1.5") up)
                     "10.0.0.5" "10.0.1.5" ["h"; "g"; "i"]
                     eq_refl eq_refl eq_refl eq_refl eq_refl eq_refl lan_path _))) _).
    + apply on_lan_path; reflexivity.
    + right. exists "g", (host "g" ROUTER None up).
      split; [apply elem_of_cons; right; by left |]. split; [reflexivity | by left].
  - refine (proj2 (proj2 (proj2 (findPath_routing_requirement (nodesAround SWITCH_L3)
                     lanEdges "h" "i"
                     (host "h" PC (Some "10.0.0.5") up) (host "i" PC (Some "10.0.1.5") up)
                     "10.0.0.5" "10.0.1.5" ["h"; "g"; "i"]
                     eq_refl eq_refl eq_refl eq_refl eq_refl eq_refl lan_path _))) _).
    + apply on_lan_path; reflexivity.
    + right. exists "g", (host "g" SWITCH_L3 None up).
      split; [apply elem_of_cons; right; by left |]. split; [reflexivity | right; by left].
  - refine (proj2 (proj2 (proj2 (findPath_routing_requirement (nodesAround FIREWALL)
                     lanEdges "h" "i"
                     (host "h" PC (Some "10.0.0.5") up) (host "i" PC (Some "10.0.1.5") up)
                     "10.0.0.5" "10.0.1.5" ["h"; "g"; "i"]
                     eq_refl eq_refl eq_refl eq_refl eq_refl eq_refl lan_path _))) _).
    + apply on_lan_path; reflexivity.
    + right. exists "g", (host "g" FIREWALL None up).
      split; [apply elem_of_cons; right; by left |]. split; [reflexivity | right; by right].
Defined.

Lemma find_first {A} (f : A → bool) (pre post : list A) (b : A) :
  (∀ x, x ∈ pre → f x = false) → f b = true → List.find f (pre ++ b :: post) = Some b.
Proof.
  intros Hpre Hb. induction pre as [|a pre IH]; simpl.
  - by rewrite Hb.
  - rewrite (Hpre a) by by left. apply IH. intros x Hx. apply Hpre. by right.
Qed.

(** X1: the device that stops the packet is the first one down in path
    order, provided it has an identifier (the scan's result is tested as a
    condition, and the empty identifier fails that test): the verdict is
    the link failure naming that device, with the path found and hop count
    zero, whatever the subnets and the kinds of the devices. *)
Theorem findPath_liveness_first_down (nodes : list NetworkNode) (edges : list Edge)
    (startNodeId endNodeId : string) (startNode endNode : NetworkNode)
    (sourceIP targetIP : string) (pre post : list string) (brokenDevice : string) :
  findNode nodes startNodeId = Some startNode →
  findNode nodes endNodeId = Some endNode →
  d_ip (node_data startNode) = Some sourceIP →
  d_ip (node_data endNode) = Some targetIP →
  isValidIP (Some sourceIP) = true →
  isValidIP (Some targetIP) = true →
  bfs edges startNodeId endNodeId = Some (pre ++ brokenDevice :: post) →
  (∀ id, id ∈ pre → isDown nodes id = false) →
  isDown nodes brokenDevice = true →
  brokenDevice ≠ "" →
  ∃ node, findNode nodes brokenDevice = Some node ∧
    findPath nodes edges startNodeId endNodeId =
      mkResult false (pre ++ brokenDevice :: post) 0
        ("Link Failure: Packet dropped at " +:+ d_label (node_data node)
           +:+ " (Device is DOWN).").
Proof.
  intros Hs He Hsi Hti Hsv Htv Hbfs Hpre Hdown Hid.
  rewrite (findPath_on_path _ _ _ _ _ _ _ _ _ Hs He Hsi Hti Hsv Htv Hbfs).
  unfold validatePath. rewrite (find_first _ _ _ _ Hpre Hdown).
  apply truthy_nonempty in Hid. rewrite Hid.
  unfold isDown in Hdown. destruct (findNode nodes brokenDevice) as [node|]; [| discriminate].
  by exists node.
Qed.

(** A switch without an identifier between two PCs of one subnet, and the
    switch is down. *)
Definition anonNodes : list NetworkNode :=
  [host "h" PC (Some "10.0.0.5") up;
   mkNetworkNode "" (0, 0)%Z (device "G" SWITCH_L2 None down);
   host "i" PC (Some "10.0.0.6") up].

Definition anonEdges : list Edge := [mkEdge "e1" "h" ""; mkEdge "e2" "" "i"].

(** C3 on that topology: the discovered path runs through the switch that
    is down, and the call succeeds with two hops instead of reporting the
    link failure. *)
Theorem findPath_down_device_without_id :
  bfs anonEdges "h" "i" = Some ["h"; ""; "i"] ∧
  isDown anonNodes "" = true ∧
  findPath anonNodes anonEdges "h" "i" =
    mkResult true ["h"; ""; "i"] 2
      "Success! Packet delivered from 10.0.0.5 to 10.0.0.6 via 2 hops.".
Proof. repeat split; vm_compute; reflexivity. Qed.

(** The path H, G, I of the specification, G down. *)
Definition downNodes : list NetworkNode :=
  [host "h" PC (Some "10.0.0.5") up; host "g" SWITCH_L2 None down;
   host "i" PC (Some "10.0.1.5") up].

Lemma findPath_liveness_first_down_witness :
  ∃ node, findNode downNodes "g" = Some node ∧
    findPath downNodes lanEdges "h" "i" =
      mkResult false (["h"] ++ "g" :: ["i"]) 0
        ("Link Failure: Packet dropped at " +:+ d_label (node_data node)
           +:+ " (Device is DOWN).").
Proof.
  refine (findPath_liveness_first_down downNodes lanEdges "h" "i"
            (host "h" PC (Some "10.0.0.5") up) (host "i" PC (Some "10.0.1.5") up)
            "10.0.0.5" "10.0.1.5" ["h"] ["i"] "g"
            eq_refl eq_refl eq_refl eq_refl eq_refl eq_refl lan_path _ eq_refl _).
  - intros id Hin. apply elem_of_cons in Hin as [-> | Hin]; [reflexivity |].
    by apply elem_of_nil in Hin.
  - discriminate.
Defined.

(** ** Tokens of a command line *)

Lemma isSpace_lowerChar (c : ascii) : Js.isSpace (Js.lowerChar c) = Js.isSpace c.
Proof. destruct c as [[] [] [] [] [] [] [] []]; reflexivity. Qed.

Lemma splitWs_toLowerCase (s : string) :
  Js.splitWs (Js.toLowerCase s) = map Js.toLowerCase (Js.splitWs s).
Proof.
  induction s as [|c s IH]; [reflexivity |].
  cbn [Js.toLowerCase Js.splitWs]. rewrite isSpace_lowerChar.
  destruct (Js.isSpace c).
  - destruct s as [|c' s']; [reflexivity |].
    cbn [Js.toLowerCase] in *. rewrite isSpace_lowerChar.
    destruct (Js.isSpace c'); [exact IH |]. cbn [map]. by rewrite IH.
  - rewrite IH. destruct (Js.splitWs s); reflexivity.
Qed.

Lemma trimStart_head (s : string) :
  match Js.trimStart s with
  | String c _ => Js.isSpace c = false
  | EmptyString => True
  end.
Proof.
  induction s as [|c s IH]; simpl; [done |].
  destruct (Js.isSpace c) eqn:E; [exact IH | exact E].
Qed.

Lemma trimStart_fixed (s : string) :
  match s with String c _ => Js.isSpace c = false | EmptyString => True end →
  Js.trimStart s = s.
Proof. destruct s as [|c s]; simpl; [done |]. by intros ->. Qed.

Lemma trimEnd_head (c : ascii) (s : string) :
  Js.isSpace c = false → ∃ r, Js.trimEnd (String c s) = String c r.
Proof.
  intros Hc. simpl. destruct (Js.trimEnd s); rewrite ?Hc; by eexists.
Qed.

Lemma trimEnd_idempotent (s : string) : Js.trimEnd (Js.trimEnd s) = Js.trimEnd s.
Proof.
  induction s as [|c s IH]; [reflexivity |]. simpl.
  destruct (Js.trimEnd s) as [|d r] eqn:E.
  - destruct (Js.isSpace c) eqn:Hc; [reflexivity |]. simpl. by rewrite Hc.
  - simpl. simpl in IH. by rewrite IH.
Qed.

Lemma trim_idempotent (s : string) : Js.trim (Js.trim s) = Js.trim s.
Proof.
  unfold Js.trim. pose proof (trimStart_head s) as H.
  destruct (Js.trimStart s) as [|c u] eqn:E; [reflexivity |].
  destruct (trimEnd_head c u H) as [r Hr]. rewrite Hr.
  rewrite trimStart_fixed by exact H. rewrite <- Hr. apply trimEnd_idempotent.
Qed.

(** The keywords [matchCmd] compares are the tokens of the command in
    lower case. *)
Lemma inputParts_trimmed (input : string) :
  inputParts (Js.trim input) = map Js.toLowerCase (Js.splitWs (Js.trim input)).
Proof. unfold inputParts. by rewrite trim_idempotent, splitWs_toLowerCase. Qed.

(** A keyword that is no prefix of the canonical one at its place rules the
    command out. *)
Lemma matchCmd_mismatch (inputStr target : string) (i : nat) (t c : string) :
  inputParts inputStr !! i = Some t →
  targetParts target !! i = Some c →
  Js.startsWith c t = false →
  matchCmd inputStr target = false.
Proof.
  intros Ht Hc Hno. destruct (matchCmd inputStr target) eqn:E; [| reflexivity].
  apply matchCmd_tokens in E as [_ H]. destruct (H i t c Ht Hc) as [_ Hpre].
  apply startsWith_prefix in Hpre. congruence.
Qed.

Lemma lookup_map {A B} (f : A → B) (l : list A) (i : nat) :
  map f l !! i = f <$> (l !! i).
Proof.
  revert i. induction l as [|a l IH]; intros [|i]; simpl; try reflexivity. apply IH.
Qed.

(** The first keyword [matchCmd] sees is [firstToken]. *)
Lemma inputParts_firstToken (input : string) :
  inputParts (Js.trim input) !! 0 = Js.toLowerCase <$> Js.splitWs (Js.trim input) !! 0.
Proof. by rewrite inputParts_trimmed, lookup_map. Qed.

(** A non-empty prefix starts as the whole does. *)
Lemma prefix_head (a : ascii) (s t rest : string) :
  t ≠ "" → String a s = t +:+ rest → ∃ t', t = String a t'.
Proof.
  intros Hne E. destruct t as [|b t']; [done |].
  rewrite app_cons in E. injection E as -> _. by exists t'.
Qed.

(** What a line that matches a canonical command of one keyword looks
    like. *)
Lemma matchCmd_one (cmd : string) (a : ascii) (ka : string) (target : string) :
  targetParts target = [String a ka] →
  matchCmd cmd target = true →
  ∃ ta more, inputParts cmd = String a ta :: more.
Proof.
  intros Ht Hm. apply matchCmd_tokens in Hm as [Hlen H]. rewrite Ht in Hlen, H.
  destruct (inputParts cmd) as [|x0 more]; simpl in Hlen; [lia |].
  destruct (H 0 x0 _ eq_refl eq_refl) as [N0 [r0 E0]].
  destruct (prefix_head _ _ _ _ N0 E0) as [ta ->].
  by exists ta, more.
Qed.

(** What a line that matches a canonical command of three keywords
    looks like: three keywords at least, each starting as its canonical
    one. *)
Lemma matchCmd_three (cmd : string) (a b c : ascii) (ka kb kc : string) (target : string) :
  targetParts target = [String a ka; String b kb; String c kc] →
  matchCmd cmd target = true →
  ∃ ta tb tc more,
    inputParts cmd = String a ta :: String b tb :: String c tc :: more.
Proof.
  intros Ht Hm. apply matchCmd_tokens in Hm as [Hlen H]. rewrite Ht in Hlen, H.
  destruct (inputParts cmd) as [|x0 [|x1 [|x2 more]]]; simpl in Hlen; try lia.
  destruct (H 0 x0 _ eq_refl eq_refl) as [N0 [r0 E0]].
  destruct (H 1 x1 _ eq_refl eq_refl) as [N1 [r1 E1]].
  destruct (H 2 x2 _ eq_refl eq_refl) as [N2 [r2 E2]].
  destruct (prefix_head _ _ _ _ N0 E0) as [ta ->].
  destruct (prefix_head _ _ _ _ N1 E1) as [tb ->].
  destruct (prefix_head _ _ _ _ N2 E2) as [tc ->].
  by exists ta, tb, tc, more.
Qed.

(** The instances of the open parts that the examples run with: code-unit
    order for the collation, and no text for the [show] commands. *)
Definition codeUnitCompare (a b : string) : Z :=
  match String.compare a b with
  | Lt => (-1)%Z
  | Eq => 0%Z
  | Gt => 1%Z
  end.

Definition runSample (edges : list Edge) (t : Terminal) : Outcome :=
  handleCommand codeUnitCompare (fun _ => "") (fun _ => "") (fun _ _ => "") edges t.

(** A terminal just opened on a device, in the given mode, with a line
    typed. *)
Definition session (nodes : list NetworkNode) (nodeId : string) (m : Mode)
    (contextInt : string) (history : list string) (input : string) : Terminal :=
  mkTerminal (mkTerminalState true (Some nodeId) history nodeId m)
    nodes input [] contextInt 0 "" false (-1).

(** ** The port mapper *)

Section PortMapper.

Variable localeCompare : string → string → Z.

Definition idOrder (a b : Edge) : Prop := (localeCompare (edge_id a) (edge_id b) ≤ 0)%Z.

Lemma insertEdge_perm (e : Edge) (l : list Edge) :
  insertEdge localeCompare e l ≡ₚ e :: l.
Proof.
  induction l as [|x l IH]; simpl; [reflexivity |].
  destruct (localeCompare (edge_id e) (edge_id x) <=? 0)%Z; [reflexivity |].
  rewrite IH. apply Permutation_swap.
Qed.

Lemma sortEdges_perm (l : list Edge) : sortEdges localeCompare l ≡ₚ l.
Proof.
  induction l as [|x l IH]; simpl; [reflexivity |].
  rewrite insertEdge_perm. by rewrite IH.
Qed.

Lemma insertEdge_sorted (e : Edge) (l : list Edge) :
  (∀ a b, idOrder a b ∨ idOrder b a) →
  (∀ a b c, idOrder a b → idOrder b c → idOrder a c) →
  StronglySorted idOrder l → StronglySorted idOrder (insertEdge localeCompare e l).
Proof.
  intros Htotal Htrans. induction 1 as [|x l Hs IH Hx]; simpl.
  - repeat constructor.
  - destruct (Z.leb_spec (localeCompare (edge_id e) (edge_id x)) 0) as [Hle | Hgt].
    + constructor; [by constructor |].
      constructor; [exact Hle |].
      eapply Forall_impl; [exact Hx |]. intros y Hy. by apply (Htrans e x y).
    + constructor; [exact IH |].
      rewrite insertEdge_perm. constructor; [| exact Hx].
      destruct (Htotal x e) as [H | H]; [exact H |]. unfold idOrder in H. lia.
Qed.

Lemma sortEdges_sorted (l : list Edge) :
  (∀ a b, idOrder a b ∨ idOrder b a) →
  (∀ a b c, idOrder a b → idOrder b c → idOrder a c) →
  StronglySorted idOrder (sortEdges localeCompare l).
Proof.
  intros Htotal Htrans. induction l as [|x l IH]; simpl.
  - constructor.
  - by apply insertEdge_sorted.
Qed.

(** X3: the links of a device, as the port mapper numbers them, are the
    links that touch the device, each once, in the order of their
    identifiers whenever the collation is a total preorder. *)
Theorem getSortedEdges_spec (edges : list Edge) (nodeId : option string) :
  getSortedEdges localeCompare edges nodeId
    ≡ₚ filter (fun e => isIncident nodeId e = true) edges ∧
  ((∀ a b, idOrder a b ∨ idOrder b a) →
   (∀ a b c, idOrder a b → idOrder b c → idOrder a c) →
   StronglySorted idOrder (getSortedEdges localeCompare edges nodeId)).
Proof.
  unfold getSortedEdges. split.
  - apply sortEdges_perm.
  - intros Htotal Htrans. by apply sortEdges_sorted.
Qed.

End PortMapper.

(** ** The interpreter *)

Section InterpreterProperties.

Variable localeCompare : string → string → Z.
Variable runningConfigText : NetworkNode → string.
Variable vlanBriefText : NetworkNode → string.
Variable ipIntBriefText : NetworkNode → list Edge → string.

Local Abbreviation run :=
  (handleCommand localeCompare runningConfigText vlanBriefText ipIntBriefText).

(** Case analysis on every test of a branch. *)
Ltac split_tests :=
  repeat match goal with
         | |- context [if ?b then _ else _] => destruct b
         | |- context [match ?x with _ => _ end] => destruct x
         end.

(** No branch but the [exit] of user EXEC asks to close the terminal. *)
Lemma doCommand_stays (edges : list Edge) (t : Terminal) (cmd : string) (p : Pending) :
  shouldClose (doCommand localeCompare runningConfigText vlanBriefText ipIntBriefText
                 edges t cmd p) = shouldClose p.
Proof. unfold doCommand, showVlan. split_tests; reflexivity. Qed.

Lemma userExec_stays (edges : list Edge) (t : Terminal) (cmd : string)
    (tokens : list string) (p : Pending) :
  shouldClose (userExec edges t cmd tokens p) = shouldClose p.
Proof. unfold userExec. split_tests; reflexivity. Qed.

Lemma privilegedExec_stays (edges : list Edge) (t t1 : Terminal) (cmd : string)
    (firstToken : option string) (p : Pending) :
  matchCmd cmd "reload" = false →
  ∃ p', privilegedExec localeCompare runningConfigText vlanBriefText ipIntBriefText
          edges t t1 cmd firstToken p = Pended p' ∧ shouldClose p' = shouldClose p.
Proof.
  intros Hr. unfold privilegedExec, showVlan. rewrite Hr.
  split_tests; eexists; split; reflexivity.
Qed.

Lemma globalConfig_stays (t : Terminal) (cmd : string) (tokens : list string)
    (firstToken : option string) (p : Pending) :
  shouldClose (globalConfig t cmd tokens firstToken p) = shouldClose p.
Proof. unfold globalConfig. split_tests; reflexivity. Qed.

Lemma interfaceConfig_stays (edges : list Edge) (t : Terminal) (cmd : string) (p : Pending) :
  shouldClose (interfaceConfig localeCompare edges t cmd p) = shouldClose p.
Proof. unfold interfaceConfig, propagateVlan. split_tests; reflexivity. Qed.

Lemma vlanConfig_stays (t : Terminal) (cmd : string) (tokens : list string)
    (firstToken : option string) (p : Pending) :
  shouldClose (vlanConfig t cmd tokens firstToken p) = shouldClose p.
Proof. unfold vlanConfig. split_tests; reflexivity. Qed.







Lemma isSwitch_kind (k : DeviceType) :
  Js.includes (deviceTypeText k) "SWITCH" = true ↔ k = SWITCH_L2 ∨ k = SWITCH_L3.
Proof.
  destruct k; vm_compute; split; intros H; try discriminate H; auto;
    destruct H as [H | H]; discriminate H.
Qed.

(** The line [vlan ...] in global configuration comes down to the branch
    of [vlan]. *)
Lemma vlan_dispatch (edges : list Edge) (t : Terminal) :
  ts_mode (t_state t) = GlobalConfig →
  Js.toLowerCase <$> Js.splitWs (Js.trim (t_input t)) !! 0 = Some "vlan" →
  run edges t =
    finish (withHistoryIdx (-1) t) (t_input t)
      (filter (fun c => Js.truthy c = true) (ts_history (t_state t) ++ [t_input t]))
      (let p := mkPending "" GlobalConfig (ts_hostname (t_state t)) false (t_nodes t)
                  (t_contextInt t) (t_contextVlan t) (t_contextLine t) in
       let isSwitch :=
         match getNode (t_nodes t) (ts_nodeId (t_state t)) with
         | Some n => Js.includes (deviceTypeText (d_type (node_data n))) "SWITCH"
         | None => false
         end in
       if negb isSwitch then respond "% Command rejected: Device does not support VLANs." p
       else
         match Js.parseIntOpt (Js.splitWs (Js.trim (t_input t)) !! 1) with
         | Some vid =>
             setNodes (createVlan (ts_nodeId (t_state t)) vid)
               (setContextVlan vid (toMode VlanConfig p))
         | None => respond "% Invalid input detected at marker." p
         end).
Proof.
  intros Hmode Hft.
  assert (Hip : inputParts (Js.trim (t_input t)) !! 0 = Some "vlan")
    by (by rewrite inputParts_firstToken).
  unfold handleCommand. rewrite Hmode, Hft.
  remember (Js.trim (t_input t)) as cmd eqn:Ecmd.
  destruct (String.eqb_spec cmd "") as [->|_]; [discriminate Hft |].
  destruct (String.eqb_spec cmd "exit") as [->|_]; [discriminate Hft |].
  destruct (String.eqb_spec cmd "end") as [->|_]; [discriminate Hft |].
  destruct (String.eqb_spec cmd "?") as [->|_]; [discriminate Hft |].
  destruct (String.eqb_spec cmd "help") as [->|_]; [discriminate Hft |].
  destruct (String.eqb_spec cmd "clear") as [->|_]; [discriminate Hft |].
  destruct (String.eqb_spec cmd "cls") as [->|_]; [discriminate Hft |].
  cbn [orb]. rewrite bool_decide_false by discriminate.
  unfold globalConfig.
  rewrite (matchCmd_mismatch cmd "hostname" 0 "vlan" "hostname" Hip eq_refl eq_refl).
  rewrite (matchCmd_mismatch cmd "interface" 0 "vlan" "interface" Hip eq_refl eq_refl).
  rewrite bool_decide_true by reflexivity. reflexivity.
Qed.

Lemma createVlan_lookup (nodeId : option string) (vid : Z) (nds : list NetworkNode)
    (i : nat) (m : NetworkNode) :
  nds !! i = Some m →
  createVlan nodeId vid nds !! i =
    Some (if isBound nodeId m then
            withData (withVlanDb
              (Some (if negb (hasVlanName (vlanTable (node_data m)) vid)
                     then <[vid := defaultVlanName vid]> (vlanTable (node_data m))
                     else vlanTable (node_data m))) (node_data m)) m
          else m).
Proof. intros H. unfold createVlan. by rewrite lookup_map, H. Qed.


(** C5, as the code has it.  In global configuration a line whose first
    token is [vlan]: on a device that is not an L2 or L3 switch (or is not
    found) it is rejected, the VLAN tables, the mode and the context left
    as they were; on a switch, with an identifier that [parseInt] reads,
    the session moves to VLAN configuration with that identifier as its
    context, and in the table of the bound device (with [{1: default}]
    standing in for a missing table) an identifier that has no name, or an
    empty one, gets the name VLAN followed by the identifier padded with
    zeros to four places, while a non-empty name stays; no other device
    changes. *)
Theorem vlan_command (edges : list Edge) (t : Terminal) :
  ts_mode (t_state t) = GlobalConfig →
  Js.toLowerCase <$> Js.splitWs (Js.trim (t_input t)) !! 0 = Some "vlan" →
  ((∀ n, getNode (t_nodes t) (ts_nodeId (t_state t)) = Some n →
         d_type (node_data n) ≠ SWITCH_L2 ∧ d_type (node_data n) ≠ SWITCH_L3) →
   aiFix (run edges t) =
     Some (t_input t, "% Command rejected: Device does not support VLANs.") ∧
   t_output (next (run edges t)) =
     appendOutput t (t_input t) "% Command rejected: Device does not support VLANs."
       (t_output t) ∧
   t_nodes (next (run edges t)) = t_nodes t ∧
   ts_mode (t_state (next (run edges t))) = GlobalConfig ∧
   t_contextVlan (next (run edges t)) = t_contextVlan t) ∧
  (∀ n vid,
     getNode (t_nodes t) (ts_nodeId (t_state t)) = Some n →
     d_type (node_data n) = SWITCH_L2 ∨ d_type (node_data n) = SWITCH_L3 →
     Js.parseIntOpt (Js.splitWs (Js.trim (t_input t)) !! 1) = Some vid →
     ts_mode (t_state (next (run edges t))) = VlanConfig ∧
     t_contextVlan (next (run edges t)) = vid ∧
     ∀ i m, t_nodes t !! i = Some m →
       (isBound (ts_nodeId (t_state t)) m = false →
        t_nodes (next (run edges t)) !! i = Some m) ∧
       (isBound (ts_nodeId (t_state t)) m = true →
        ∃ m', t_nodes (next (run edges t)) !! i = Some m' ∧
          node_id m' = node_id m ∧
          (vlanTable (node_data m) !! vid = None ∨ vlanTable (node_data m) !! vid = Some "" →
           d_vlanDb (node_data m') =
             Some (<[vid := "VLAN" +:+ Js.padStart 4 "0" (Js.toString vid)]>
                     (vlanTable (node_data m)))) ∧
          (∀ name, vlanTable (node_data m) !! vid = Some name → name ≠ "" →
           d_vlanDb (node_data m') = Some (vlanTable (node_data m))))) ∧
  "VLAN" +:+ Js.padStart 4 "0" (Js.toString 10) = "VLAN0010".
Proof.
  intros Hmode Hft. rewrite (vlan_dispatch edges t Hmode Hft).
  split; [| split; [| reflexivity]].
  - intros Hkind.
    assert (Hsw : match getNode (t_nodes t) (ts_nodeId (t_state t)) with
                  | Some n => Js.includes (deviceTypeText (d_type (node_data n))) "SWITCH"
                  | None => false
                  end = false).
    { destruct (getNode (t_nodes t) (ts_nodeId (t_state t))) as [n|]; [| reflexivity].
      destruct (Hkind n eq_refl) as [H2 H3].
      destruct (Js.includes (deviceTypeText (d_type (node_data n))) "SWITCH") eqn:E;
        [| reflexivity].
      apply isSwitch_kind in E as [E | E]; contradiction. }
    cbv zeta. rewrite Hsw. repeat split; reflexivity.
  - intros n vid Hn Hkind Hvid. cbv zeta. rewrite Hn, Hvid.
    rewrite (proj2 (isSwitch_kind (d_type (node_data n))) Hkind).
    split; [reflexivity |]. split; [reflexivity |].
    intros i m Hm. cbn [negb finish shouldClose setNodes setContextVlan toMode next
                         t_nodes p_nodes].
    rewrite (createVlan_lookup _ _ _ _ _ Hm). split.
    + by intros ->.
    + intros ->. eexists. split; [reflexivity |]. split; [reflexivity |]. split.
      * intros Hnone. cbn. unfold hasVlanName.
        destruct Hnone as [-> | ->]; reflexivity.
      * intros name Hname Hne. cbn. unfold hasVlanName. rewrite Hname.
        apply truthy_nonempty in Hne. by rewrite Hne.
Qed.


(** A line that matches [switchport access vlan] and is not taken for
    [shutdown] comes down to the branch of the access VLAN. *)
Lemma accessVlan_dispatch (edges : list Edge) (t : Terminal) :
  ts_mode (t_state t) = InterfaceConfigMode →
  matchCmd (Js.trim (t_input t)) "switchport access vlan" = true →
  matchCmd (Js.trim (t_input t)) "shutdown" = false →
  run edges t =
    finish (withHistoryIdx (-1) t) (t_input t)
      (filter (fun c => Js.truthy c = true) (ts_history (t_state t) ++ [t_input t]))
      (let p := mkPending "" InterfaceConfigMode (ts_hostname (t_state t)) false (t_nodes t)
                  (t_contextInt t) (t_contextVlan t) (t_contextLine t) in
       match Js.parseInt (lastWord (Js.trim (t_input t))) with
       | Some vid =>
           propagateVlan localeCompare edges t vid
             (setNodes (updateInt (ts_nodeId (t_state t)) (t_contextInt t)
                          (withAccessVlan vid)) p)
       | None => p
       end).
Proof.
  intros Hmode Hm Hs.
  destruct (matchCmd_three _ "s" "a" "v" "witchport" "ccess" "lan"
              "switchport access vlan" eq_refl Hm)
    as (ta & tb & tc & more & Hparts).
  assert (Hft : Js.toLowerCase <$> Js.splitWs (Js.trim (t_input t)) !! 0
                = Some (String "s" ta)).
  { by rewrite <- inputParts_firstToken, Hparts. }
  unfold handleCommand. rewrite Hmode, Hft.
  remember (Js.trim (t_input t)) as cmd eqn:Ecmd.
  destruct (String.eqb_spec cmd "") as [->|_]; [by vm_compute in Hm |].
  destruct (String.eqb_spec cmd "exit") as [->|_]; [by vm_compute in Hm |].
  destruct (String.eqb_spec cmd "end") as [->|_]; [by vm_compute in Hm |].
  destruct (String.eqb_spec cmd "?") as [->|_]; [by vm_compute in Hm |].
  destruct (String.eqb_spec cmd "help") as [->|_]; [by vm_compute in Hm |].
  destruct (String.eqb_spec cmd "clear") as [->|_]; [by vm_compute in Hm |].
  destruct (String.eqb_spec cmd "cls") as [->|_]; [by vm_compute in Hm |].
  cbn [orb]. rewrite bool_decide_false by discriminate.
  unfold interfaceConfig. rewrite Hs.
  destruct (String.eqb_spec cmd "shut") as [->|_]; [by vm_compute in Hm |].
  destruct (String.eqb_spec cmd "no shut") as [->|_]; [by vm_compute in Hm |].
  rewrite (matchCmd_mismatch cmd "no shutdown" 0 (String "s" ta) "no");
    [| by rewrite Hparts | reflexivity | reflexivity].
  rewrite (matchCmd_mismatch cmd "switchport mode" 1 (String "a" tb) "mode");
    [| by rewrite Hparts | reflexivity | reflexivity].
  cbn [orb]. rewrite Hm. reflexivity.
Qed.

Lemma appendOutput_silent (t : Terminal) (cmdRaw : string) (prev : list string) :
  appendOutput t cmdRaw "" prev =
    filter (fun l => Js.truthy l = true)
      (prev ++ [ts_hostname (t_state t) +:+ modeText (ts_mode (t_state t)) +:+ " " +:+ cmdRaw]).
Proof.
  unfold appendOutput. change (Js.split nl "") with [""].
  rewrite !filter_app. by f_equal.
Qed.

(** A word that starts with neither a digit, nor a sign, nor white space is
    not a number for [parseInt]. *)
Lemma parseInt_no_number (c : ascii) (w : string) :
  Js.isDigit c = false → Js.isSpace c = false → c ≠ "+"%char → c ≠ "-"%char →
  Js.parseInt (String c w) = None.
Proof.
  intros Hd Hs Hplus Hminus. unfold Js.parseInt. cbn [Js.trimStart]. rewrite Hs.
  destruct c as [[] [] [] [] [] [] [] []];
    first [ discriminate Hd | discriminate Hs | reflexivity
          | exfalso; by apply Hplus | exfalso; by apply Hminus ].
Qed.


(** A line that matches [switchport access vlan] matches [shutdown], which
    is tested before it, exactly when its first keyword is the one letter
    [s]. *)
Lemma shutdown_first (cmd : string) :
  matchCmd cmd "switchport access vlan" = true →
  matchCmd cmd "shutdown" = true ↔ inputParts cmd !! 0 = Some "s".
Proof.
  intros Hm. apply matchCmd_tokens in Hm as [Hlen H].
  destruct (inputParts cmd) as [|t0 more] eqn:Hparts; [simpl in Hlen; lia |].
  destruct (H 0 t0 "switchport" eq_refl eq_refl) as [Hne [rest Hrest]].
  destruct (prefix_head _ _ _ _ Hne Hrest) as [t' ->].
  rewrite matchCmd_tokens, Hparts. split.
  - intros [_ Hs]. destruct (Hs 0 (String "s" t') "shutdown" eq_refl eq_refl) as [_ [rest' Hrest']].
    destruct t' as [|b t']; [done |].
    rewrite !app_cons in Hrest, Hrest'. injection Hrest as <- _. by injection Hrest'.
  - intros [= ->]. split; [simpl; lia |].
    intros [|i] t c; [| by destruct i]. intros [= <-] [= <-]. split; [done | by exists "hutdown"].
Qed.

(** A line that matches [shutdown] in interface configuration comes down
    to its branch. *)
Lemma shutdown_dispatch (edges : list Edge) (t : Terminal) :
  ts_mode (t_state t) = InterfaceConfigMode →
  matchCmd (Js.trim (t_input t)) "shutdown" = true →
  run edges t =
    finish (withHistoryIdx (-1) t) (t_input t)
      (filter (fun c => Js.truthy c = true) (ts_history (t_state t) ++ [t_input t]))
      (respond ("%LINK-5-CHANGED: Interface " +:+ t_contextInt t
                  +:+ ", changed state to administratively down")
         (setNodes (updateInt (ts_nodeId (t_state t)) (t_contextInt t) (withShutdown true))
            (mkPending "" InterfaceConfigMode (ts_hostname (t_state t)) false (t_nodes t)
               (t_contextInt t) (t_contextVlan t) (t_contextLine t)))).
Proof.
  intros Hmode Hm.
  destruct (matchCmd_one _ "s" "hutdown" "shutdown" eq_refl Hm) as (ta & more & Hparts).
  assert (Hft : Js.toLowerCase <$> Js.splitWs (Js.trim (t_input t)) !! 0
                = Some (String "s" ta)).
  { by rewrite <- inputParts_firstToken, Hparts. }
  unfold handleCommand. rewrite Hmode, Hft.
  remember (Js.trim (t_input t)) as cmd eqn:Ecmd.
  destruct (String.eqb_spec cmd "") as [->|_]; [by vm_compute in Hm |].
  destruct (String.eqb_spec cmd "exit") as [->|_]; [by vm_compute in Hm |].
  destruct (String.eqb_spec cmd "end") as [->|_]; [by vm_compute in Hm |].
  destruct (String.eqb_spec cmd "?") as [->|_]; [by vm_compute in Hm |].
  destruct (String.eqb_spec cmd "help") as [->|_]; [by vm_compute in Hm |].
  destruct (String.eqb_spec cmd "clear") as [->|_]; [by vm_compute in Hm |].
  destruct (String.eqb_spec cmd "cls") as [->|_]; [by vm_compute in Hm |].
  cbn [orb]. rewrite bool_decide_false by discriminate.
  unfold interfaceConfig. rewrite Hm. reflexivity.
Qed.


(** C10, as the code has it.  In interface configuration, take a line that
    matches [switchport access vlan] and whose last word [parseInt] does
    not read as a number.  The test for [shutdown] comes first and takes
    the line exactly when its first keyword is the one letter [s].  When it
    does not, the line is ignored without a word: no device changes, the
    mode, the host name and the context stay, the transcript gets the
    echoed line and no response, and no hint is asked for.  When it does,
    the line is a [shutdown]: the current interface of the bound device is
    shut down, and the response, which starts with a per cent sign, is
    printed and sent for a hint.  A last word that starts with neither a
    digit, a sign nor white space is not a number, and neither is the
    keyword [vlan] itself when no argument follows. *)
Theorem access_vlan_without_number (edges : list Edge) (t : Terminal) :
  ts_mode (t_state t) = InterfaceConfigMode →
  matchCmd (Js.trim (t_input t)) "switchport access vlan" = true →
  Js.parseInt (lastWord (Js.trim (t_input t))) = None →
  (matchCmd (Js.trim (t_input t)) "shutdown" = true ↔
   Js.toLowerCase <$> Js.splitWs (Js.trim (t_input t)) !! 0 = Some "s") ∧
  (matchCmd (Js.trim (t_input t)) "shutdown" = false →
   next (run edges t) =
     mkTerminal
       (mkTerminalState (ts_isOpen (t_state t)) (ts_nodeId (t_state t))
          (filter (fun c => Js.truthy c = true) (ts_history (t_state t) ++ [t_input t]))
          (ts_hostname (t_state t)) InterfaceConfigMode)
       (t_nodes t) ""
       (filter (fun l => Js.truthy l = true)
          (t_output t ++ [ts_hostname (t_state t) +:+ modeText (ts_mode (t_state t))
                            +:+ " " +:+ t_input t]))
       (t_contextInt t) (t_contextVlan t) (t_contextLine t) (t_isBooting t) (-1) ∧
   aiFix (run edges t) = None ∧
   reloadTimer (run edges t) = false) ∧
  (matchCmd (Js.trim (t_input t)) "shutdown" = true →
   t_nodes (next (run edges t)) =
     updateInt (ts_nodeId (t_state t)) (t_contextInt t) (withShutdown true) (t_nodes t) ∧
   t_output (next (run edges t)) =
     appendOutput t (t_input t)
       ("%LINK-5-CHANGED: Interface " +:+ t_contextInt t
          +:+ ", changed state to administratively down") (t_output t) ∧
   aiFix (run edges t) =
     Some (t_input t, "%LINK-5-CHANGED: Interface " +:+ t_contextInt t
                        +:+ ", changed state to administratively down")) ∧
  (∀ c w, Js.isDigit c = false → Js.isSpace c = false → c ≠ "+"%char → c ≠ "-"%char →
          Js.parseInt (String c w) = None) ∧
  Js.parseInt (lastWord "switchport access vlan") = None.
Proof.
  intros Hmode Hm Hnan.
  split; [rewrite <- inputParts_firstToken; by apply shutdown_first |].
  split; [| split; [| split; [apply parseInt_no_number | reflexivity]]].
  - intros Hs. rewrite (accessVlan_dispatch edges t Hmode Hm Hs).
    cbv zeta. rewrite Hnan. unfold finish. cbn [shouldClose response].
    rewrite appendOutput_silent. repeat split; reflexivity.
  - intros Hs. rewrite (shutdown_dispatch edges t Hmode Hs). repeat split; reflexivity.
Qed.

Lemma tagNeighbor_lookup (neighborId : string) (vid : Z) (nds : list NetworkNode)
    (i : nat) (n : NetworkNode) :
  nds !! i = Some n →
  tagNeighbor neighborId vid nds !! i =
    Some (if String.eqb (node_id n) neighborId && isEndHost (d_type (node_data n))
          then withData (withAssignedVlan vid (node_data n)) n else n).
Proof. intros H. unfold tagNeighbor. by rewrite lookup_map, H. Qed.

Lemma updateInt_lookup (nodeId : option string) (contextInt : string)
    (updater : InterfaceConfig → InterfaceConfig) (nds : list NetworkNode)
    (i : nat) (n : NetworkNode) :
  nds !! i = Some n →
  ∃ n', updateInt nodeId contextInt updater nds !! i = Some n' ∧
        node_id n' = node_id n ∧
        d_type (node_data n') = d_type (node_data n) ∧
        (isBound nodeId n = false → n' = n).
Proof.
  intros H. unfold updateInt. rewrite lookup_map, H. cbn [fmap option_fmap option_map].
  eexists. split; [reflexivity |].
  destruct (isBound nodeId n); [| done].
  destruct (d_interfaces (node_data n)) as [ifs|]; [| done].
  destruct (member ifs contextInt); done.
Qed.

Lemma isEndHost_kind (k : DeviceType) :
  isEndHost k = true ↔ k = PC ∨ k = PRINTER ∨ k = SERVER.
Proof.
  split.
  - destruct k; try discriminate; auto.
  - intros [-> | [-> | ->]]; reflexivity.
Qed.

(** C6: when [switchport access vlan <id>] goes through in interface
    configuration, the digits that end the current interface name, read as
    a number and lessened by one, index the links of the bound device in
    the order of the port mapper (the links that touch the device, sorted
    by identifier under the collation); when there is a link at that
    index, every device at its far end whose kind is PC, PRINTER or SERVER
    has its VLAN tag set to [<id>] and is otherwise as it was, and every
    other device apart from the bound one, a far end of any other kind
    among them, is left exactly as it was. *)
Theorem access_vlan_propagation (edges : list Edge) (t : Terminal) (vid : Z)
    (digits : string) (port : Z) (targetEdge : Edge) :
  ts_mode (t_state t) = InterfaceConfigMode →
  matchCmd (Js.trim (t_input t)) "switchport access vlan" = true →
  matchCmd (Js.trim (t_input t)) "shutdown" = false →
  Js.parseInt (lastWord (Js.trim (t_input t))) = Some vid →
  Js.matchTrailingDigits (t_contextInt t) = Some digits →
  Js.parseInt digits = Some port →
  at_ (getSortedEdges localeCompare edges (ts_nodeId (t_state t))) (port - 1)
    = Some targetEdge →
  getSortedEdges localeCompare edges (ts_nodeId (t_state t))
    ≡ₚ filter (fun e => isIncident (ts_nodeId (t_state t)) e = true) edges ∧
  ((∀ a b, idOrder localeCompare a b ∨ idOrder localeCompare b a) →
   (∀ a b c, idOrder localeCompare a b → idOrder localeCompare b c →
             idOrder localeCompare a c) →
   StronglySorted (idOrder localeCompare)
     (getSortedEdges localeCompare edges (ts_nodeId (t_state t)))) ∧
  ∀ neighborId,
    neighborId = (if bool_decide (Some (edge_source targetEdge) = ts_nodeId (t_state t))
                  then edge_target targetEdge else edge_source targetEdge) →
    ∀ i n, t_nodes t !! i = Some n →
      ∃ n', t_nodes (next (run edges t)) !! i = Some n' ∧
        (node_id n = neighborId →
         d_type (node_data n) = PC ∨ d_type (node_data n) = PRINTER ∨
         d_type (node_data n) = SERVER →
         d_assignedVlan (node_data n') = Some vid ∧
         (isBound (ts_nodeId (t_state t)) n = false →
          n' = withData (withAssignedVlan vid (node_data n)) n)) ∧
        (isBound (ts_nodeId (t_state t)) n = false →
         node_id n ≠ neighborId ∨
         (d_type (node_data n) ≠ PC ∧ d_type (node_data n) ≠ PRINTER ∧
          d_type (node_data n) ≠ SERVER) →
         n' = n).
Proof.
  intros Hmode Hm Hs Hvid Hdigits Hport Hedge.
  split; [apply sortEdges_perm |]. split; [apply sortEdges_sorted |].
  intros neighborId -> i n Hn.
  rewrite (accessVlan_dispatch edges t Hmode Hm Hs).
  cbv zeta. rewrite Hvid. unfold propagateVlan. rewrite Hdigits, Hport, Hedge.
  cbn [finish shouldClose respond setNodes next t_nodes p_nodes].
  set (neighborId := if bool_decide (Some (edge_source targetEdge) = ts_nodeId (t_state t))
                     then edge_target targetEdge else edge_source targetEdge).
  destruct (updateInt_lookup (ts_nodeId (t_state t)) (t_contextInt t)
              (withAccessVlan vid) (t_nodes t) i n Hn) as (u & Hu & Hid & Hty & Hsame).
  rewrite (tagNeighbor_lookup _ _ _ _ _ Hu), Hid, Hty.
  eexists. split; [reflexivity |]. split.
  - intros Hnb Hend. apply isEndHost_kind in Hend.
    rewrite Hnb, String.eqb_refl, Hend. cbn [andb].
    split; [reflexivity |]. intros Hnot. by rewrite (Hsame Hnot).
  - intros Hnot Hother. rewrite (Hsame Hnot).
    destruct Hother as [Hne | (Hpc & Hpr & Hsrv)].
    + destruct (String.eqb_spec (node_id n) neighborId); [contradiction | reflexivity].
    + assert (Hkind : isEndHost (d_type (node_data n)) = false).
      { destruct (isEndHost (d_type (node_data n))) eqn:E; [| done].
        apply isEndHost_kind in E as [E | [E | E]]; contradiction. }
      rewrite Hkind, andb_false_r. reflexivity.
Qed.


(** *** History recall *)

Lemma arrowUp_state (t : Terminal) : t_state (arrowUp t) = t_state t.
Proof. unfold arrowUp. by destruct (0 <? _)%Z. Qed.





End InterpreterProperties.

(** ** The mode hierarchy *)

Section ModeHierarchy.

Variable localeCompare : string → string → Z.
Variable runningConfigText : NetworkNode → string.
Variable vlanBriefText : NetworkNode → string.
Variable ipIntBriefText : NetworkNode → list Edge → string.

Local Abbreviation run :=
  (handleCommand localeCompare runningConfigText vlanBriefText ipIntBriefText).

(** The parent of a mode: where [exit] leads. *)
Definition parentMode (m : Mode) : Mode :=
  match m with
  | UserExec | PrivilegedExec => UserExec
  | GlobalConfig => PrivilegedExec
  | InterfaceConfigMode | VlanConfig | LineConfigMode => GlobalConfig
  end.

(** X5, the mode hierarchy: [enable] leads from user EXEC to privileged EXEC,
    [configure terminal] from there to global configuration; [exit] goes up
    one level, and closes the terminal in user EXEC; [end] leads to
    privileged EXEC from any mode and clears the context. *)
Theorem mode_hierarchy (edges : list Edge) (t : Terminal) :
  (t_input t = "enable" → ts_mode (t_state t) = UserExec →
   ts_mode (t_state (next (run edges t))) = PrivilegedExec) ∧
  (t_input t = "configure terminal" → ts_mode (t_state t) = PrivilegedExec →
   ts_mode (t_state (next (run edges t))) = GlobalConfig) ∧
  (t_input t = "exit" → ts_mode (t_state t) ≠ UserExec →
   ts_mode (t_state (next (run edges t))) = parentMode (ts_mode (t_state t)) ∧
   ts_isOpen (t_state (next (run edges t))) = ts_isOpen (t_state t)) ∧
  (t_input t = "exit" → ts_mode (t_state t) = UserExec →
   ts_isOpen (t_state (next (run edges t))) = false) ∧
  (t_input t = "end" →
   ts_mode (t_state (next (run edges t))) = PrivilegedExec ∧
   t_contextInt (next (run edges t)) = "" ∧
   t_contextVlan (next (run edges t)) = 0%Z ∧
   t_contextLine (next (run edges t)) = "").
Proof.
  unfold handleCommand. split; [| split; [| split; [| split]]]; intros Hin; rewrite Hin.
  - intros ->. reflexivity.
  - intros ->. reflexivity.
  - intros Hm. destruct (ts_mode (t_state t)); [done | split; reflexivity ..].
  - intros ->. reflexivity.
  - repeat split.
Qed.

End ModeHierarchy.

(** *** Sample sessions *)

(** A switch with its first port configured, a PC on the first link and
    another switch on the second. *)
Definition accessSwitch : NetworkNode :=
  ensureInterface (host "sw" SWITCH_L2 None up) "GigabitEthernet0/1".

Definition officeNodes : list NetworkNode :=
  [accessSwitch; host "pc1" PC (Some "192.168.1.10") up; host "sw2" SWITCH_L2 None up].

Definition officeEdges : list Edge := [mkEdge "e2" "sw2" "sw"; mkEdge "e1" "sw" "pc1"].

(** The name a device gives a VLAN, and the access VLAN of one of its
    interfaces, by position in the list of nodes. *)
Definition vlanNameAt (nodes : list NetworkNode) (i : nat) (vid : Z) : option string :=
  n ← nodes !! i; db ← d_vlanDb (node_data n); db !! vid.

Definition accessVlanAt (nodes : list NetworkNode) (i : nat) (ifName : string) : option Z :=
  n ← nodes !! i; ifs ← d_interfaces (node_data n); c ← own ifs !! ifName; if_accessVlan c.

(** The record a device holds under a name, by position in the list of
    nodes: [Some None] when the device is there and holds none. *)
Definition recordAt (nodes : list NetworkNode) (i : nat) (ifName : string)
  : option (option InterfaceConfig) :=
  (fun n => interfacesOf n !! ifName) <$> nodes !! i.




(** The record that [shutdown] then stores under that name is made of the
    flag alone: it has no name. *)
Example shutdown_inherited_name :
  recordAt (t_nodes (next (runSample []
      (session [ensureInterface (host "sw" SWITCH_L2 None up) "constructor"] "sw"
         InterfaceConfigMode "constructor" [] "shutdown")))) 0 "constructor"
    = Some (Some (mkInterfaceConfig None None None None (Some true) None None None None)).
Proof. vm_compute. reflexivity. Qed.

(** Under [__proto__] the same command stores no record: it replaces the
    prototype of the table, which from then on answers under
    [shutdown]. *)
Example shutdown_proto_name :
  (fun n => (interfacesOf n, proto (tableOf n), member (tableOf n) "shutdown"))
    <$> t_nodes (next (runSample []
          (session [ensureInterface (host "sw" SWITCH_L2 None up) "__proto__"] "sw"
             InterfaceConfigMode "__proto__" [] "shutdown"))) !! 0
    = Some (∅, Some (mkInterfaceConfig None None None None (Some true) None None None None),
            true).
Proof. vm_compute. reflexivity. Qed.

(** The scenario of the specification: [vlan 10] on an L2 switch without a
    VLAN table. *)
Lemma vlan_command_witness :
  ts_mode (t_state (next (runSample officeEdges
     (session officeNodes "sw" GlobalConfig "" [] "vlan 10")))) = VlanConfig ∧
  (∃ m', t_nodes (next (runSample officeEdges
            (session officeNodes "sw" GlobalConfig "" [] "vlan 10"))) !! 0 = Some m' ∧
         d_vlanDb (node_data m')
           = Some (<[10%Z := "VLAN" +:+ Js.padStart 4 "0" (Js.toString 10)]>
                     (vlanTable (node_data accessSwitch)))) ∧
  aiFix (runSample officeEdges (session officeNodes "pc1" GlobalConfig "" [] "vlan 10"))
    = Some ("vlan 10", "% Command rejected: Device does not support VLANs.").
Proof.
  destruct (vlan_command codeUnitCompare (fun _ => "") (fun _ => "") (fun _ _ => "")
              officeEdges (session officeNodes "sw" GlobalConfig "" [] "vlan 10")
              eq_refl eq_refl) as (_ & Hacc & _).
  destruct (Hacc accessSwitch 10%Z eq_refl (or_introl eq_refl) eq_refl)
    as (Hmode & _ & Hnodes).
  destruct (Hnodes 0 accessSwitch eq_refl) as [_ Hbound].
  destruct (Hbound eq_refl) as (m' & Hm' & _ & Hnew & _).
  destruct (vlan_command codeUnitCompare (fun _ => "") (fun _ => "") (fun _ _ => "")
              officeEdges (session officeNodes "pc1" GlobalConfig "" [] "vlan 10")
              eq_refl eq_refl) as (Hrej & _).
  split; [exact Hmode |]. split.
  - exists m'. split; [exact Hm' |]. apply Hnew. left. reflexivity.
  - refine (proj1 (Hrej _)). intros n [= <-]. split; discriminate.
Defined.

(** A switch that holds VLAN 10 under an empty name. *)
Definition unnamedVlanNodes : list NetworkNode :=
  [mkNetworkNode "sw" (0, 0)%Z
     (withVlanDb (Some {[ 10%Z := "" ]}) (device "sw" SWITCH_L2 None up))].

(** C5, the stated frame fails: VLAN 10 is in the table, under the empty
    name, and [vlan 10] writes the default name over it. *)
Lemma vlan_command_overwrites_empty_name :
  vlanNameAt unnamedVlanNodes 0 10 = Some "" ∧
  vlanNameAt (t_nodes (next (runSample []
                (session unnamedVlanNodes "sw" GlobalConfig "" [] "vlan 10")))) 0 10
    = Some "VLAN0010".
Proof. split; vm_compute; reflexivity. Qed.

(** A switch with a PC, another switch, a printer and a server on its
    four links, in the order of the port mapper. *)
Definition floorNodes : list NetworkNode :=
  [accessSwitch; host "pc1" PC (Some "192.168.1.10") up; host "sw2" SWITCH_L2 None up;
   host "pr" PRINTER None up; host "srv" SERVER (Some "192.168.1.2") up].

Definition floorEdges : list Edge :=
  [mkEdge "e4" "srv" "sw"; mkEdge "e2" "sw2" "sw"; mkEdge "e3" "sw" "pr";
   mkEdge "e1" "sw" "pc1"].

Definition onPort (ifName : string) : Terminal :=
  session floorNodes "sw" InterfaceConfigMode ifName [] "switchport access vlan 10".

(** The PC on the first port, the printer on the third and the server on
    the fourth take the VLAN of the port; the switch on the second is as it
    was. *)
Lemma access_vlan_propagation_witness :
  t_nodes (next (runSample floorEdges (onPort "GigabitEthernet0/1"))) !! 1
    = Some (withData (withAssignedVlan 10
                        (node_data (host "pc1" PC (Some "192.168.1.10") up)))
              (host "pc1" PC (Some "192.168.1.10") up)) ∧
  t_nodes (next (runSample floorEdges (onPort "GigabitEthernet0/2"))) !! 2
    = Some (host "sw2" SWITCH_L2 None up) ∧
  t_nodes (next (runSample floorEdges (onPort "GigabitEthernet0/3"))) !! 3
    = Some (withData (withAssignedVlan 10 (node_data (host "pr" PRINTER None up)))
              (host "pr" PRINTER None up)) ∧
  t_nodes (next (runSample floorEdges (onPort "GigabitEthernet0/4"))) !! 4
    = Some (withData (withAssignedVlan 10
                        (node_data (host "srv" SERVER (Some "192.168.1.2") up)))
              (host "srv" SERVER (Some "192.168.1.2") up)).
Proof.
  split; [| split; [| split]].
  - destruct (access_vlan_propagation codeUnitCompare (fun _ => "") (fun _ => "")
                (fun _ _ => "") floorEdges (onPort "GigabitEthernet0/1")
                10%Z "1" 1%Z (mkEdge "e1" "sw" "pc1")
                eq_refl eq_refl eq_refl eq_refl eq_refl eq_refl eq_refl)
      as (_ & _ & Hnodes).
    destruct (Hnodes "pc1" eq_refl 1 (host "pc1" PC (Some "192.168.1.10") up) eq_refl)
      as (n' & Hn' & Htag & _).
    destruct (Htag eq_refl (or_introl eq_refl)) as [_ H].
    unfold runSample. rewrite Hn'. f_equal. exact (H eq_refl).
  - destruct (access_vlan_propagation codeUnitCompare (fun _ => "") (fun _ => "")
                (fun _ _ => "") floorEdges (onPort "GigabitEthernet0/2")
                10%Z "2" 2%Z (mkEdge "e2" "sw2" "sw")
                eq_refl eq_refl eq_refl eq_refl eq_refl eq_refl eq_refl)
      as (_ & _ & Hnodes).
    destruct (Hnodes "sw2" eq_refl 2 (host "sw2" SWITCH_L2 None up) eq_refl)
      as (n' & Hn' & _ & Hsame).
    unfold runSample. rewrite Hn'. f_equal.
    apply Hsame; [reflexivity | right; repeat split; discriminate].
  - destruct (access_vlan_propagation codeUnitCompare (fun _ => "") (fun _ => "")
                (fun _ _ => "") floorEdges (onPort "GigabitEthernet0/3")
                10%Z "3" 3%Z (mkEdge "e3" "sw" "pr")
                eq_refl eq_refl eq_refl eq_refl eq_refl eq_refl eq_refl)
      as (_ & _ & Hnodes).
    destruct (Hnodes "pr" eq_refl 3 (host "pr" PRINTER None up) eq_refl)
      as (n' & Hn' & Htag & _).
    destruct (Htag eq_refl (or_intror (or_introl eq_refl))) as [_ H].
    unfold runSample. rewrite Hn'. f_equal. exact (H eq_refl).
  - destruct (access_vlan_propagation codeUnitCompare (fun _ => "") (fun _ => "")
                (fun _ _ => "") floorEdges (onPort "GigabitEthernet0/4")
                10%Z "4" 4%Z (mkEdge "e4" "srv" "sw")
                eq_refl eq_refl eq_refl eq_refl eq_refl eq_refl eq_refl)
      as (_ & _ & Hnodes).
    destruct (Hnodes "srv" eq_refl 4 (host "srv" SERVER (Some "192.168.1.2") up) eq_refl)
      as (n' & Hn' & Htag & _).
    destruct (Htag eq_refl (or_intror (or_intror eq_refl))) as [_ H].
    unfold runSample. rewrite Hn'. f_equal. exact (H eq_refl).
Defined.

(** The line without a number is ignored; the same line with its keywords
    cut down to one letter each is a [shutdown]. *)
Lemma access_vlan_without_number_witness :
  (t_nodes (next (runSample officeEdges
     (session officeNodes "sw" InterfaceConfigMode "GigabitEthernet0/1" []
        "switchport access vlan"))) = officeNodes ∧
   ts_mode (t_state (next (runSample officeEdges
     (session officeNodes "sw" InterfaceConfigMode "GigabitEthernet0/1" []
        "switchport access vlan")))) = InterfaceConfigMode ∧
   t_output (next (runSample officeEdges
     (session officeNodes "sw" InterfaceConfigMode "GigabitEthernet0/1" []
        "switchport access vlan"))) = ["sw(config-if)# switchport access vlan"] ∧
   aiFix (runSample officeEdges
     (session officeNodes "sw" InterfaceConfigMode "GigabitEthernet0/1" []
        "switchport access vlan")) = None) ∧
  (t_nodes (next (runSample officeEdges
     (session officeNodes "sw" InterfaceConfigMode "GigabitEthernet0/1" [] "s a v")))
     = updateInt (Some "sw") "GigabitEthernet0/1" (withShutdown true) officeNodes ∧
   aiFix (runSample officeEdges
     (session officeNodes "sw" InterfaceConfigMode "GigabitEthernet0/1" [] "s a v"))
     = Some ("s a v",
             "%LINK-5-CHANGED: Interface GigabitEthernet0/1, changed state to administratively down")).
Proof.
  split.
  - destruct (access_vlan_without_number codeUnitCompare (fun _ => "") (fun _ => "")
                (fun _ _ => "") officeEdges
                (session officeNodes "sw" InterfaceConfigMode "GigabitEthernet0/1" []
                   "switchport access vlan")
                eq_refl eq_refl eq_refl) as (_ & Hignored & _).
    destruct (Hignored eq_refl) as (Hnext & Hfix & _).
    unfold runSample. rewrite Hnext. repeat split; first [exact Hfix | reflexivity].
  - destruct (access_vlan_without_number codeUnitCompare (fun _ => "") (fun _ => "")
                (fun _ _ => "") officeEdges
                (session officeNodes "sw" InterfaceConfigMode "GigabitEthernet0/1" []
                   "s a v")
                eq_refl eq_refl eq_refl) as (_ & _ & Hshut & _).
    destruct (Hshut eq_refl) as (Hnodes & _ & Hfix).
    split; [exact Hnodes | exact Hfix].
Defined.

(** C10, the stated condition fails: the last token [-5] does not begin
    with a digit, [parseInt] reads it, and the access VLAN of the port
    changes from 1 to -5. *)
Lemma access_vlan_signed_number_applied :
  lastWord "switchport access vlan -5" = "-5" ∧
  accessVlanAt officeNodes 0 "GigabitEthernet0/1" = Some 1%Z ∧
  accessVlanAt (t_nodes (next (runSample officeEdges
      (session officeNodes "sw" InterfaceConfigMode "GigabitEthernet0/1" []
         "switchport access vlan -5")))) 0 "GigabitEthernet0/1" = Some (-5)%Z.
Proof. repeat split; vm_compute; reflexivity. Qed.

(** C10, another line on which it fails: [s a v] matches [switchport
    access vlan] and has no number, and it is not ignored: [shutdown],
    tested first, takes it, the port is shut down and the response is sent
    for a hint. *)
Lemma access_vlan_taken_for_shutdown :
  matchCmd "s a v" "switchport access vlan" = true ∧
  Js.parseInt (lastWord "s a v") = None ∧
  (if_shutdown <$> recordAt officeNodes 0 "GigabitEthernet0/1" ≫= id) = Some (Some false) ∧
  (if_shutdown <$> recordAt (t_nodes (next (runSample officeEdges
      (session officeNodes "sw" InterfaceConfigMode "GigabitEthernet0/1" [] "s a v"))))
     0 "GigabitEthernet0/1" ≫= id) = Some (Some true) ∧
  aiFix (runSample officeEdges
     (session officeNodes "sw" InterfaceConfigMode "GigabitEthernet0/1" [] "s a v"))
    = Some ("s a v",
            "%LINK-5-CHANGED: Interface GigabitEthernet0/1, changed state to administratively down").
Proof. repeat split; vm_compute; reflexivity. Qed.



Lemma mode_hierarchy_witness :
  ts_mode (t_state (next (runSample [] (session [] "sw" UserExec "" [] "enable"))))
    = PrivilegedExec.
Proof.
  exact (proj1 (mode_hierarchy codeUnitCompare (fun _ => "") (fun _ => "") (fun _ _ => "")
                  [] (session [] "sw" UserExec "" [] "enable")) eq_refl eq_refl).
Defined.

Lemma getSubnet_dottedQuad_witness : getSubnet "10.0.1.5" = "10.0.1".
Proof. exact (getSubnet_dottedQuad "10" "0" "1" "5" eq_refl eq_refl eq_refl eq_refl). Defined.

(** * The path that the search finds *)

(** * More of the reachability engine *)

(** ** The search follows the links *)

(** Two devices joined by a link, in either direction. *)
Definition linked (edges : list Edge) (a b : string) : Prop :=
  ∃ e, e ∈ edges ∧
       ((edge_source e = a ∧ edge_target e = b) ∨ (edge_source e = b ∧ edge_target e = a)).

(** [b] is listed as a neighbour of [a]. *)
Definition listed (adj : gmap string (list string)) (a b : string) : Prop :=
  ∃ l, adj !! a = Some l ∧ b ∈ l.

(** The two moves of [addEdgeTo]: a key gets its empty list, a list gets
    one more entry. *)
Definition ensureKey (k : string) (adj : gmap string (list string)) :=
  if decide (is_Some (adj !! k)) then adj else <[k := []]> adj.

Definition pushTo (k v : string) (adj : gmap string (list string)) :=
  alter (fun l => l ++ [v]) k adj.

Lemma addEdgeTo_moves (adj : gmap string (list string)) (e : Edge) :
  addEdgeTo adj e =
    pushTo (edge_target e) (edge_source e)
      (pushTo (edge_source e) (edge_target e)
         (ensureKey (edge_target e) (ensureKey (edge_source e) adj))).
Proof. reflexivity. Qed.

Lemma ensureKey_listed (k : string) (adj : gmap string (list string)) (a b : string) :
  listed (ensureKey k adj) a b ↔ listed adj a b.
Proof.
  unfold listed, ensureKey. case_decide as Hk; [done |].
  destruct (decide (k = a)) as [->|Hne].
  - rewrite lookup_insert_eq. split.
    + intros (l & [= <-] & Hb). by apply elem_of_nil in Hb.
    + intros (l & Hl & _). exfalso. apply Hk. by eexists.
  - by rewrite lookup_insert_ne.
Qed.

Lemma ensureKey_has (k : string) (adj : gmap string (list string)) (a : string) :
  is_Some (ensureKey k adj !! a) ↔ is_Some (adj !! a) ∨ k = a.
Proof.
  unfold ensureKey. case_decide as Hk.
  - split; [by left |]. intros [H | <-]; done.
  - destruct (decide (k = a)) as [->|Hne].
    + rewrite lookup_insert_eq. split; [by right | by eexists].
    + rewrite lookup_insert_ne by done. split; [by left | by intros [H | H]].
Qed.

Lemma pushTo_has (k v : string) (adj : gmap string (list string)) (a : string) :
  is_Some (pushTo k v adj !! a) ↔ is_Some (adj !! a).
Proof.
  unfold pushTo. destruct (decide (k = a)) as [->|Hne].
  - rewrite lookup_alter_eq. by rewrite fmap_is_Some.
  - by rewrite lookup_alter_ne.
Qed.

Lemma pushTo_listed (k v : string) (adj : gmap string (list string)) (a b : string) :
  is_Some (adj !! k) →
  listed (pushTo k v adj) a b ↔ listed adj a b ∨ (k = a ∧ v = b).
Proof.
  intros [l0 Hk]. unfold listed, pushTo. destruct (decide (k = a)) as [->|Hne].
  - rewrite lookup_alter_eq, Hk. simpl. split.
    + intros (l & [= <-] & Hb). apply elem_of_app in Hb as [Hb | Hb].
      * left. by exists l0.
      * apply list_elem_of_singleton in Hb as ->. by right.
    + intros [(l & [= <-] & Hb) | [_ <-]]; eexists; (split; [reflexivity |]);
        apply elem_of_app; [by left | right; by apply list_elem_of_singleton].
  - rewrite lookup_alter_ne by done. split; [by left |].
    intros [H | [H _]]; [done | contradiction].
Qed.

(** The entries [addEdgeTo] leaves are those that were there and the two
    ends of the link, each listed with the other. *)
Lemma addEdgeTo_listed (adj : gmap string (list string)) (e : Edge) (a b : string) :
  listed (addEdgeTo adj e) a b ↔
  listed adj a b ∨ (edge_source e = a ∧ edge_target e = b)
                 ∨ (edge_target e = a ∧ edge_source e = b).
Proof.
  rewrite addEdgeTo_moves.
  rewrite pushTo_listed.
  2: { apply pushTo_has, ensureKey_has. by right. }
  rewrite pushTo_listed.
  2: { apply ensureKey_has. left. apply ensureKey_has. by right. }
  rewrite !ensureKey_listed. tauto.
Qed.

Lemma foldl_addEdgeTo_listed (edges : list Edge) (adj : gmap string (list string))
    (a b : string) :
  listed (foldl addEdgeTo adj edges) a b ↔ listed adj a b ∨ linked edges a b.
Proof.
  revert adj. induction edges as [|e edges IH]; intros adj; simpl.
  - split; [by left |]. intros [H | (e & He & _)]; [done |]. by apply elem_of_nil in He.
  - rewrite IH, addEdgeTo_listed. unfold linked. split.
    + intros [[H | H] | (e' & He' & H)].
      * by left.
      * right. exists e. split; [by left |]. tauto.
      * right. exists e'. split; [by right | done].
    + intros [H | (e' & He' & H)]; [by left; left |].
      apply elem_of_cons in He' as [-> | He'].
      * left. right. tauto.
      * right. by exists e'.
Qed.

(** The neighbours the search reads are exactly the devices joined by a
    link. *)
Lemma adjacencyList_listed (edges : list Edge) (a b : string) :
  listed (adjacencyList edges) a b ↔ linked edges a b.
Proof.
  unfold adjacencyList. rewrite foldl_addEdgeTo_listed. split; [| by right].
  intros [(l & Hl & _) | H]; [| done]. by rewrite lookup_empty in Hl.
Qed.

(** ** One turn of the search *)

(** The neighbours a turn queues: those not yet visited, each once, in the
    order they are listed. *)
Fixpoint fresh (visited : gset string) (neighbors : list string) : list string :=
  match neighbors with
  | [] => []
  | x :: rest =>
      if decide (x ∈ visited) then fresh visited rest
      else x :: fresh ({[x]} ∪ visited) rest
  end.

Definition enqueue (cpath : list string) (new : list string) : list (string * list string) :=
  map (fun nb => (nb, cpath ++ [nb])) new.

Lemma visit_all (cpath neighbors : list string) (visited : gset string)
    (queue : list (string * list string)) :
  foldl (visitNeighbor cpath) (visited, queue) neighbors =
    (list_to_set (fresh visited neighbors) ∪ visited,
     queue ++ enqueue cpath (fresh visited neighbors)).
Proof.
  revert visited queue. induction neighbors as [|x rest IH]; intros visited queue; simpl.
  - f_equal; [set_solver | by rewrite app_nil_r].
  - unfold visitNeighbor at 2. simpl. case_decide as Hx.
    + apply IH.
    + rewrite IH. simpl. f_equal; [set_solver | by rewrite <- app_assoc].
Qed.

Lemma fresh_spec (visited : gset string) (neighbors : list string) (x : string) :
  x ∈ fresh visited neighbors ↔ x ∈ neighbors ∧ x ∉ visited.
Proof.
  revert visited. induction neighbors as [|y rest IH]; intros visited; simpl.
  - set_solver.
  - case_decide as Hy.
    + rewrite IH. set_solver.
    + rewrite elem_of_cons, IH. destruct (decide (x = y)) as [->|Hne]; set_solver.
Qed.

Lemma fresh_NoDup (visited : gset string) (neighbors : list string) :
  NoDup (fresh visited neighbors).
Proof.
  revert visited. induction neighbors as [|y rest IH]; intros visited; simpl.
  - constructor.
  - case_decide as Hy; [apply IH |]. constructor; [| apply IH].
    rewrite fresh_spec. set_solver.
Qed.

Section Search.

Variable edges : list Edge.
Variable endNodeId : string.

(** The neighbours read for an entry. *)
Definition neighborsOf (c : string) : list string :=
  default [] (adjacencyList edges !! c).

Lemma neighborsOf_linked (c x : string) : x ∈ neighborsOf c ↔ linked edges c x.
Proof.
  rewrite <- adjacencyList_listed. unfold neighborsOf, listed.
  destruct (adjacencyList edges !! c) as [l|]; simpl.
  - split; [intros H; by exists l | by intros (l' & [= <-] & H)].
  - split; [intros H; by apply elem_of_nil in H | by intros (l' & [=] & _)].
Qed.

(** What a turn makes of the queue and of the visited set. *)
Definition turnQueue (cid : string) (cpath : list string)
    (rest : list (string * list string)) (visited : gset string) :=
  rest ++ enqueue cpath (fresh visited (neighborsOf cid)).

Definition turnVisited (cid : string) (visited : gset string) : gset string :=
  list_to_set (fresh visited (neighborsOf cid)) ∪ visited.

(** A property of the queue and the visited set that every turn keeps
    holds of what the loop ends with. *)
Lemma bfsLoop_keeps (I : list (string * list string) → gset string → Prop) :
  (∀ cid cpath rest visited,
     I ((cid, cpath) :: rest) visited → cid ≠ endNodeId →
     I (turnQueue cid cpath rest visited) (turnVisited cid visited)) →
  ∀ fuel queue visited found,
    I queue visited →
    bfsLoop fuel (adjacencyList edges) endNodeId queue visited = Some found →
    match found with
    | Some p => ∃ rest visited', I ((endNodeId, p) :: rest) visited'
    | None => ∃ visited', I [] visited'
    end.
Proof.
  intros Hturn. induction fuel as [|fuel IH]; intros queue visited found HI; [discriminate |].
  simpl. destruct queue as [|[cid cpath] rest].
  - intros [= <-]. by exists visited.
  - destruct (String.eqb_spec cid endNodeId) as [->|Hne].
    + intros [= <-]. by exists rest, visited.
    + fold (neighborsOf cid). rewrite visit_all. simpl. apply IH. by apply Hturn.
Qed.

End Search.

(** ** Walks *)

(** A walk: each device is linked to the next. *)
Definition isWalk (edges : list Edge) (p : list string) : Prop :=
  ∀ i a b, p !! i = Some a → p !! S i = Some b → linked edges a b.

(** A walk from [a] to [b]. *)
Definition walkFrom (edges : list Edge) (a b : string) (p : list string) : Prop :=
  p !! 0 = Some a ∧ last p = Some b ∧ isWalk edges p.

Lemma isWalk_snoc (edges : list Edge) (p : list string) (x y : string) :
  isWalk edges p → last p = Some x → linked edges x y → isWalk edges (p ++ [y]).
Proof.
  intros Hw Hlast Hxy i a b Ha Hb.
  destruct (decide (S i < length p)) as [Hlt|Hge].
  - rewrite lookup_app_l in Ha, Hb by lia. by apply (Hw i).
  - assert (Hi : S i = length p).
    { apply lookup_lt_Some in Hb. rewrite length_app in Hb. simpl in Hb. lia. }
    rewrite lookup_app_l in Ha by lia.
    rewrite lookup_app_r, Hi, Nat.sub_diag in Hb by lia. injection Hb as <-.
    rewrite last_lookup in Hlast. replace (pred (length p)) with i in Hlast by lia.
    rewrite Hlast in Ha. injection Ha as <-. exact Hxy.
Qed.

Lemma walkFrom_snoc (edges : list Edge) (a x y : string) (p : list string) :
  walkFrom edges a x p → linked edges x y → walkFrom edges a y (p ++ [y]).
Proof.
  intros (H0 & Hlast & Hw) Hxy. split; [| split].
  - apply lookup_app_l_Some. exact H0.
  - by rewrite last_snoc.
  - by apply (isWalk_snoc edges p x y).
Qed.

(** A walk of more than one device is a walk to the device before the
    last, and a link. *)
Lemma walkFrom_inv (edges : list Edge) (a y : string) (w : list string) :
  walkFrom edges a y w → 2 ≤ length w →
  ∃ w' x, w = w' ++ [y] ∧ walkFrom edges a x w' ∧ linked edges x y.
Proof.
  intros (H0 & Hlast & Hw) Hlen.
  apply last_Some in Hlast as [w' ->].
  rewrite length_app in Hlen. simpl in Hlen.
  destruct (last w') as [x|] eqn:Hx; [| apply last_None in Hx as ->; simpl in Hlen; lia].
  apply last_Some in Hx as [w'' ->].
  exists (w'' ++ [x]), x. split; [reflexivity |]. split.
  - split; [| split].
    + rewrite lookup_app_l in H0; [exact H0 |]. rewrite length_app. simpl. lia.
    + by rewrite last_snoc.
    + intros i c d Hc Hd. apply (Hw i).
      * apply lookup_app_l_Some. exact Hc.
      * apply lookup_app_l_Some. exact Hd.
  - apply (Hw (length w'')).
    + rewrite lookup_app_l by (rewrite length_app; simpl; lia).
      by rewrite lookup_app_r, Nat.sub_diag by lia.
    + rewrite lookup_app_r by (rewrite length_app; simpl; lia).
      by replace (S (length w'') - length (w'' ++ [x])) with 0
        by (rewrite length_app; simpl; lia).
Qed.

Lemma walkFrom_single (edges : list Edge) (a y : string) (w : list string) :
  walkFrom edges a y w → length w ≤ 1 → y = a.
Proof.
  intros (H0 & Hlast & _) Hlen. destruct w as [|x [|? ?]]; simpl in *; try lia; congruence.
Qed.

(** ** What the search keeps true *)

Section SearchInvariant.

Variable edges : list Edge.
Variable startNodeId endNodeId : string.

(** The entries of the queue come in two runs, paths as long as that of
    the head and paths one longer. *)
Definition twoRuns (n : nat) (queue : list (string * list string)) : Prop :=
  ∃ q1 q2, queue = q1 ++ q2 ∧
           (∀ x p, (x, p) ∈ q1 → length p = n) ∧
           (∀ x p, (x, p) ∈ q2 → length p = S n).

(** The invariant of the loop: every queued path is a shortest walk from
    the start to its entry, without a repeat and through visited devices;
    a visited device is queued or has been expanded, all its neighbours
    visited; and whatever a walk no longer than the head's path reaches is
    visited. *)
Definition SearchInv (queue : list (string * list string)) (visited : gset string) : Prop :=
  startNodeId ∈ visited ∧
  (∀ x p, (x, p) ∈ queue →
     walkFrom edges startNodeId x p ∧ NoDup p ∧ (∀ y, y ∈ p → y ∈ visited) ∧
     (∀ w, walkFrom edges startNodeId x w → length p ≤ length w)) ∧
  (∀ x, x ∈ visited →
     (∃ p, (x, p) ∈ queue) ∨ (x ≠ endNodeId ∧ ∀ y, linked edges x y → y ∈ visited)) ∧
  match queue with
  | [] => True
  | (_, cpath) :: _ =>
      twoRuns (length cpath) queue ∧
      (∀ x w, walkFrom edges startNodeId x w → length w ≤ length cpath → x ∈ visited)
  end.

Lemma SearchInv_start : SearchInv [(startNodeId, [startNodeId])] {[startNodeId]}.
Proof.
  split; [set_solver |]. split; [| split; [| split]].
  - intros x p Hin. apply list_elem_of_singleton in Hin as [= -> ->].
    split; [by repeat split |]. split; [apply NoDup_singleton |]. split; [set_solver |].
    intros w (H0 & _ & _). apply lookup_lt_Some in H0. simpl. lia.
  - intros x Hx. left. exists [startNodeId]. set_solver.
  - exists [(startNodeId, [startNodeId])], []. split; [reflexivity |]. split.
    + intros x p Hin. by apply list_elem_of_singleton in Hin as [= -> ->].
    + intros x p Hin. by apply elem_of_nil in Hin.
  - intros x w Hw Hlen. rewrite (walkFrom_single _ _ _ _ Hw Hlen). set_solver.
Qed.

Lemma elem_of_enqueue (cpath new : list string) (x : string) (p : list string) :
  (x, p) ∈ enqueue cpath new ↔ x ∈ new ∧ p = cpath ++ [x].
Proof.
  unfold enqueue. rewrite list_elem_of_In, in_map_iff. split.
  - intros (nb & [= -> ->] & Hnb). by apply list_elem_of_In in Hnb.
  - intros [Hx ->]. exists x. by apply list_elem_of_In in Hx.
Qed.

Lemma expanded_neighbors (cid : string) (visited : gset string) (y : string) :
  linked edges cid y → y ∈ turnVisited edges cid visited.
Proof.
  intros Hy. unfold turnVisited. apply neighborsOf_linked in Hy.
  destruct (decide (y ∈ visited)) as [Hv|Hv]; [set_solver |].
  apply elem_of_union_l, elem_of_list_to_set, fresh_spec. done.
Qed.

Lemma SearchInv_turn (cid : string) (cpath : list string)
    (rest : list (string * list string)) (visited : gset string) :
  SearchInv ((cid, cpath) :: rest) visited → cid ≠ endNodeId →
  SearchInv (turnQueue edges cid cpath rest visited) (turnVisited edges cid visited).
Proof.
  intros (Hs & Hq & Hv & Hruns & Hnear) Hne.
  destruct (Hq cid cpath) as (Hcw & Hcnd & Hcv & Hcmin); [left |].
  assert (Hsub : ∀ y, y ∈ visited → y ∈ turnVisited edges cid visited)
    by (intros y Hy; unfold turnVisited; set_solver).
  assert (Hq' : ∀ x p, (x, p) ∈ turnQueue edges cid cpath rest visited →
            walkFrom edges startNodeId x p ∧ NoDup p ∧
            (∀ y, y ∈ p → y ∈ turnVisited edges cid visited) ∧
            (∀ w, walkFrom edges startNodeId x w → length p ≤ length w)).
  { intros x p Hin. unfold turnQueue in Hin. apply elem_of_app in Hin as [Hin|Hin].
    - destruct (Hq x p) as (H1 & H2 & H3 & H4); [by right |]. eauto 10.
    - apply elem_of_enqueue in Hin as [Hx ->]. apply fresh_spec in Hx as [Hx Hxv].
      apply neighborsOf_linked in Hx. split; [by eapply walkFrom_snoc |]. split.
      + apply NoDup_app. split; [done |]. split; [| apply NoDup_singleton].
        intros y Hy Hy'. apply list_elem_of_singleton in Hy' as ->. by apply Hxv, Hcv.
      + split.
        * intros y Hy. apply elem_of_app in Hy as [Hy|Hy]; [by apply Hsub, Hcv |].
          apply list_elem_of_singleton in Hy as ->. by apply expanded_neighbors.
        * intros w Hw. rewrite length_app. simpl.
          destruct (decide (length w ≤ length cpath)) as [Hle|Hgt]; [| lia].
          exfalso. by apply Hxv, (Hnear x w). }
  assert (Hv' : ∀ x, x ∈ turnVisited edges cid visited →
            (∃ p, (x, p) ∈ turnQueue edges cid cpath rest visited) ∨
            (x ≠ endNodeId ∧ ∀ y, linked edges x y → y ∈ turnVisited edges cid visited)).
  { intros x Hx. unfold turnVisited in Hx. apply elem_of_union in Hx as [Hx|Hx].
    - left. exists (cpath ++ [x]). unfold turnQueue. apply elem_of_app. right.
      apply elem_of_enqueue. split; [| done]. by apply elem_of_list_to_set in Hx.
    - destruct (Hv x Hx) as [[p Hp]|[Hxe Hclosed]].
      + apply elem_of_cons in Hp as [[= -> ->]|Hp].
        * right. split; [done |]. intros y. apply expanded_neighbors.
        * left. exists p. unfold turnQueue. apply elem_of_app. by left.
      + right. split; [done |]. intros y Hy. by apply Hsub, Hclosed. }
  split; [by apply Hsub |]. split; [exact Hq' |]. split; [exact Hv' |].
  destruct (turnQueue edges cid cpath rest visited) as [|[c' cp'] rest'] eqn:Hturn; [done |].
  destruct Hruns as (q1 & q2 & Hsplit & H1 & H2).
  destruct q1 as [|[c0 cp0] q1'].
  { simpl in Hsplit. subst q2. specialize (H2 cid cpath (list_elem_of_here _ _)). lia. }
  simpl in Hsplit. injection Hsplit as <- <- ->.
  unfold turnQueue in Hturn. rewrite <- app_assoc in Hturn.
  assert (Hnew : ∀ x p, (x, p) ∈ q2 ++ enqueue cpath (fresh visited (neighborsOf edges cid)) →
            length p = S (length cpath)).
  { intros x p Hin. apply elem_of_app in Hin as [Hin|Hin]; [by eapply H2 |].
    apply elem_of_enqueue in Hin as [_ ->]. rewrite length_app. simpl. lia. }
  destruct q1' as [|[c1 cp1] q1''].
  - simpl in Hturn. split.
    + exists ((c' , cp') :: rest'), []. rewrite app_nil_r. split; [done |].
      assert (Hcp' : length cp' = S (length cpath))
        by (apply (Hnew c'); rewrite Hturn; left).
      split.
      * intros x p Hin. rewrite <- Hturn in Hin. rewrite Hcp'. by eapply Hnew.
      * intros x p Hin. by apply elem_of_nil in Hin.
    + assert (Hcp' : length cp' = S (length cpath))
        by (apply (Hnew c'); rewrite Hturn; left).
      intros x w Hw Hlen. rewrite Hcp' in Hlen.
      destruct (decide (length w ≤ length cpath)) as [Hle|Hgt]; [by eapply Hsub, Hnear |].
      assert (Hpos : 1 ≤ length cpath).
      { destruct Hcw as (H0 & _ & _). apply lookup_lt_Some in H0. lia. }
      destruct (walkFrom_inv _ _ _ _ Hw) as (w' & y & -> & Hw' & Hyx); [lia |].
      rewrite length_app in Hlen, Hgt. simpl in Hlen, Hgt.
      assert (Hy : y ∈ visited) by (apply (Hnear y w' Hw'); lia).
      destruct (Hv y Hy) as [[p Hp]|[_ Hclosed]]; [| by apply Hsub, Hclosed].
      apply elem_of_cons in Hp as [[= -> ->]|Hp]; [by apply expanded_neighbors |].
      simpl in Hp. destruct (Hq y p) as (_ & _ & _ & Hmin); [by right |].
      specialize (Hmin w' Hw'). specialize (H2 y p Hp). lia.
  - simpl in Hturn. injection Hturn as <- <- <-.
    assert (Hcp1 : length cp1 = length cpath) by (apply (H1 c1); right; left).
    rewrite Hcp1. split.
    + exists ((c1, cp1) :: q1''), (q2 ++ enqueue cpath (fresh visited (neighborsOf edges cid))).
      split; [done |]. split; [| exact Hnew].
      intros x p Hin. apply (H1 x). by right.
    + intros x w Hw Hlen. by eapply Hsub, Hnear.
Qed.

End SearchInvariant.

(** ** What the search returns *)

Lemma walk_stays (edges : list Edge) (a : string) (V : gset string) :
  a ∈ V → (∀ x y, x ∈ V → linked edges x y → y ∈ V) →
  ∀ w y, walkFrom edges a y w → y ∈ V.
Proof.
  intros Ha Hclosed w. induction w as [w IH] using (induction_ltof1 _ (@length string)).
  unfold ltof in IH. intros y Hw.
  destruct (decide (length w ≤ 1)) as [Hle|Hgt].
  - by rewrite (walkFrom_single _ _ _ _ Hw Hle).
  - destruct (walkFrom_inv _ _ _ _ Hw) as (w' & x & -> & Hw' & Hxy); [lia |].
    apply (Hclosed x y); [| done]. apply (IH w'); [| done].
    rewrite length_app. simpl. lia.
Qed.

Lemma bfsRun_total (edges : list Edge) (startNodeId endNodeId : string) :
  is_Some (bfsRun edges startNodeId endNodeId).
Proof.
  unfold bfsRun. apply (bfsLoop_finishes _ (endpoints edges)).
  - apply adjacencyList_within.
  - unfold bfsMeasure, bfsFuel. simpl.
    pose proof (endpoints_size edges).
    assert (size (endpoints edges ∖ {[startNodeId]}) ≤ size (endpoints edges))
      by (apply subseteq_size; set_solver).
    lia.
Qed.

Lemma bfs_outcome (edges : list Edge) (startNodeId endNodeId : string) :
  match bfs edges startNodeId endNodeId with
  | Some p => ∃ rest visited, SearchInv edges startNodeId endNodeId ((endNodeId, p) :: rest) visited
  | None => ∃ visited, SearchInv edges startNodeId endNodeId [] visited
  end.
Proof.
  unfold bfs. destruct (bfsRun_total edges startNodeId endNodeId) as [found Hrun].
  rewrite Hrun. unfold bfsRun in Hrun.
  apply (bfsLoop_keeps edges endNodeId (SearchInv edges startNodeId endNodeId)) in Hrun.
  - done.
  - apply SearchInv_turn.
  - apply SearchInv_start.
Qed.

(** X6: the path the search of [findPath] finds is a walk over the links
    from the start to the end device, names no device twice, and no walk
    over the links between the two is shorter. *)
Theorem bfs_shortest_walk (edges : list Edge) (startNodeId endNodeId : string)
    (p : list string) :
  bfs edges startNodeId endNodeId = Some p →
  walkFrom edges startNodeId endNodeId p ∧ NoDup p ∧
  ∀ w, walkFrom edges startNodeId endNodeId w → length p ≤ length w.
Proof.
  intros Hp. pose proof (bfs_outcome edges startNodeId endNodeId) as Hout.
  rewrite Hp in Hout. destruct Hout as (rest & visited & _ & Hq & _).
  destruct (Hq endNodeId p) as (Hw & Hnd & _ & Hmin); [left |]. done.
Qed.

(** X7: the search of [findPath] finds a path exactly when some walk over
    the links, in either direction of each, leads from the start to the
    end device. *)
Theorem bfs_finds_connection (edges : list Edge) (startNodeId endNodeId : string) :
  is_Some (bfs edges startNodeId endNodeId) ↔
  ∃ w, walkFrom edges startNodeId endNodeId w.
Proof.
  pose proof (bfs_outcome edges startNodeId endNodeId) as Hout. split.
  - intros [p Hp]. rewrite Hp in Hout. destruct Hout as (rest & visited & _ & Hq & _).
    exists p. destruct (Hq endNodeId p) as (Hw & _); [left |]. done.
  - intros [w Hw]. destruct (bfs edges startNodeId endNodeId) as [p|]; [by eexists |].
    destruct Hout as (visited & Hs & _ & Hv & _). exfalso.
    assert (Hclosed : ∀ x, x ∈ visited → x ≠ endNodeId ∧ ∀ y, linked edges x y → y ∈ visited).
    { intros x Hx. destruct (Hv x Hx) as [[p Hp]|H]; [by apply elem_of_nil in Hp | done]. }
    assert (He : endNodeId ∈ visited).
    { apply (walk_stays edges startNodeId visited Hs) with (w := w); [| done].
      intros x y Hx. by apply Hclosed. }
    by apply (Hclosed endNodeId He).
Qed.

(** ** The verdict of [findPath] and the path found *)

(** What [findPath] reports, read off its branches: nothing with an empty
    path and no hop, or the verdict on the path found. *)
Lemma findPath_outcome (nodes : list NetworkNode) (edges : list Edge)
    (startNodeId endNodeId : string) :
  ∃ r, findPath nodes edges startNodeId endNodeId = r ∧
  ((success r = false ∧ path r = [] ∧ hops r = 0%Z) ∨
   (∃ p, bfs edges startNodeId endNodeId = Some p ∧ path r = p ∧
         ((success r = false ∧ hops r = 0%Z) ∨
          (success r = true ∧ hops r = (Z.of_nat (length p) - 1)%Z)))).
Proof.
  eexists. split; [reflexivity |]. unfold findPath.
  destruct (findNode nodes startNodeId) as [startNode|]; [| by left].
  destruct (findNode nodes endNodeId) as [endNode|]; [| by left].
  destruct (isValidIP (d_ip (node_data startNode))); [| by left].
  destruct (isValidIP (d_ip (node_data endNode))); [| by left].
  cbn [negb]. destruct (bfs edges startNodeId endNodeId) as [p|]; [| by left].
  right. exists p. split; [reflexivity |].
  unfold validatePath, routePath.
  destruct (List.find (isDown nodes) p) as [broken|].
  - destruct (Js.truthy broken); [by split; [| left] |].
    destruct (negb _); [destruct (negb _) |]; (split; [reflexivity |]); auto.
  - destruct (negb _); [destruct (negb _) |]; (split; [reflexivity |]); auto.
Qed.

(** X8: a delivery that [findPath] reports runs over a shortest walk: its
    path leads from the start to the end device over the links, names no
    device twice, and its hop count, the links of that path, is below the
    number of devices of every walk between the two. *)
Theorem findPath_delivery_shortest (nodes : list NetworkNode) (edges : list Edge)
    (startNodeId endNodeId : string) :
  success (findPath nodes edges startNodeId endNodeId) = true →
  walkFrom edges startNodeId endNodeId (path (findPath nodes edges startNodeId endNodeId)) ∧
  NoDup (path (findPath nodes edges startNodeId endNodeId)) ∧
  hops (findPath nodes edges startNodeId endNodeId)
    = (Z.of_nat (length (path (findPath nodes edges startNodeId endNodeId))) - 1)%Z ∧
  ∀ w, walkFrom edges startNodeId endNodeId w →
       (hops (findPath nodes edges startNodeId endNodeId) < Z.of_nat (length w))%Z.
Proof.
  intros Hok.
  destruct (findPath_outcome nodes edges startNodeId endNodeId)
    as (r & <- & [(Hf & _)|(p & Hp & Hpath & [(Hf & _)|(_ & Hhops)])]);
    [congruence | congruence |].
  pose proof (bfs_outcome edges startNodeId endNodeId) as Hout.
  rewrite Hp in Hout. destruct Hout as (rest & visited & _ & Hq & _).
  destruct (Hq endNodeId p) as (Hw & Hnd & _ & Hmin); [left |].
  rewrite Hpath, Hhops. split; [done |]. split; [done |]. split; [done |].
  intros w Hww. specialize (Hmin w Hww). lia.
Qed.

(** X9: whatever the outcome, a failure reports no hop, a success the
    links of its path; and the path reported is empty or the one the search
    found. *)
Theorem findPath_report (nodes : list NetworkNode) (edges : list Edge)
    (startNodeId endNodeId : string) :
  hops (findPath nodes edges startNodeId endNodeId)
    = (if success (findPath nodes edges startNodeId endNodeId)
       then Z.of_nat (length (path (findPath nodes edges startNodeId endNodeId))) - 1
       else 0)%Z ∧
  (path (findPath nodes edges startNodeId endNodeId) = [] ∨
   bfs edges startNodeId endNodeId = Some (path (findPath nodes edges startNodeId endNodeId))).
Proof.
  destruct (findPath_outcome nodes edges startNodeId endNodeId)
    as (r & <- & [(Hf & Hp & Hh)|(p & Hp & Hpath & [(Hf & Hh)|(Hs & Hh)])]).
  - rewrite Hf, Hh, Hp. by split; [| left].
  - rewrite Hf, Hh, Hpath. by split; [| right].
  - rewrite Hs, Hh, Hpath. by split; [| right].
Qed.

Definition noCable : PacketSimulationResult :=
  mkResult false [] 0
    "Physical Link Error: No cable connection exists between these devices.".

(** X10: between two devices that are found and have valid addresses,
    [findPath] reports the physical link error exactly when no walk over
    the links leads from one to the other. *)
Theorem findPath_no_cable (nodes : list NetworkNode) (edges : list Edge)
    (startNodeId endNodeId : string) (startNode endNode : NetworkNode) :
  findNode nodes startNodeId = Some startNode →
  findNode nodes endNodeId = Some endNode →
  isValidIP (d_ip (node_data startNode)) = true →
  isValidIP (d_ip (node_data endNode)) = true →
  findPath nodes edges startNodeId endNodeId = noCable ↔
  ¬ ∃ w, walkFrom edges startNodeId endNodeId w.
Proof.
  intros Hs He Hsv Hev.
  pose proof (bfs_outcome edges startNodeId endNodeId) as Hout.
  split.
  - intros Hr [w Hw].
    destruct (bfs edges startNodeId endNodeId) as [p|] eqn:Hp.
    + destruct Hout as (rest & visited & _ & Hq & _).
      destruct (Hq endNodeId p) as ((H0 & _) & _); [left |].
      unfold findPath in Hr. rewrite Hs, He, Hsv, Hev, Hp in Hr. cbn [negb] in Hr.
      assert (Hpath : path (validatePath nodes p (default "" (d_ip (node_data startNode)))
                              (default "" (d_ip (node_data endNode)))) = p).
      { unfold validatePath, routePath.
        destruct (List.find _ p); [destruct (Js.truthy _); [done |] |];
          (destruct (negb _); [destruct (negb _) |]); done. }
      rewrite Hr in Hpath. simpl in Hpath. subst p. done.
    + destruct Hout as (visited & Hstart & _ & Hv & _).
      assert (Hclosed : ∀ x, x ∈ visited →
                x ≠ endNodeId ∧ ∀ y, linked edges x y → y ∈ visited).
      { intros x Hx. destruct (Hv x Hx) as [[q Hq]|H]; [by apply elem_of_nil in Hq | done]. }
      assert (Hin : endNodeId ∈ visited).
      { apply (walk_stays edges startNodeId visited Hstart) with (w := w); [| done].
        intros x y Hx. by apply Hclosed. }
      by apply (Hclosed endNodeId Hin).
  - intros Hno. unfold findPath. rewrite Hs, He, Hsv, Hev. cbn [negb].
    destruct (bfs edges startNodeId endNodeId) as [p|]; [| reflexivity].
    exfalso. apply Hno. exists p.
    destruct Hout as (rest & visited & _ & Hq & _).
    destruct (Hq endNodeId p) as (Hw & _); [left |]. done.
Qed.

(** The search from a device to itself ends at once, whatever the links. *)
Lemma bfs_self (edges : list Edge) (x : string) : bfs edges x x = Some [x].
Proof.
  unfold bfs, bfsRun, bfsFuel.
  replace (4 * length edges + 2) with (S (4 * length edges + 1)) by lia.
  simpl. by rewrite String.eqb_refl.
Qed.

(** X11: a device that is found, has a valid address and is not down (or
    has the empty identifier) reaches itself in no hop, whatever the links
    and the other devices. *)
Theorem findPath_to_itself (nodes : list NetworkNode) (edges : list Edge)
    (nodeId : string) (node : NetworkNode) (ip : string) :
  findNode nodes nodeId = Some node →
  d_ip (node_data node) = Some ip →
  isValidIP (Some ip) = true →
  d_status (node_data node) ≠ down ∨ nodeId = "" →
  findPath nodes edges nodeId nodeId =
    mkResult true [nodeId] 0
      ("Success! Packet delivered from " +:+ ip +:+ " to " +:+ ip +:+ " via 0 hops.").
Proof.
  intros Hn Hip Hv Hup.
  rewrite (findPath_on_path nodes edges nodeId nodeId node node ip ip [nodeId]);
    try done; [| apply bfs_self].
  unfold validatePath. simpl. unfold isDown at 1. rewrite Hn.
  assert (Hroute : routePath nodes [nodeId] ip ip =
            mkResult true [nodeId] 0
              ("Success! Packet delivered from " +:+ ip +:+ " to " +:+ ip +:+ " via 0 hops.")).
  { unfold routePath. by rewrite String.eqb_refl. }
  destruct (Status_eqb (d_status (node_data node)) down) eqn:Hst; [| exact Hroute].
  destruct Hup as [Hup| ->]; [| exact Hroute].
  exfalso. apply Hup. by destruct (d_status (node_data node)).
Qed.

(** ** Deleted devices and highlighted links ([App]) *)

(** [onNodesDelete]: the links that touch no deleted device stay. *)
Definition touches (deleted : list NetworkNode) (e : Edge) : bool :=
  existsb (fun d => String.eqb (node_id d) (edge_source e)
                    || String.eqb (node_id d) (edge_target e)) deleted.

Definition onNodesDelete (deleted : list NetworkNode) (eds : list Edge) : list Edge :=
  filter (fun e => negb (touches deleted e) = true) eds.

(** [isPathEdge] of [handlePacketSimulate]: the link joins a device of the
    path and the next one, in either direction. *)
Definition isPathEdge (path : list string) (e : Edge) : bool :=
  existsb (fun idx =>
             match path !! idx, path !! S idx with
             | Some nodeId, Some nextNode =>
                 (String.eqb (edge_source e) nodeId && String.eqb (edge_target e) nextNode)
                 || (String.eqb (edge_source e) nextNode && String.eqb (edge_target e) nodeId)
             | _, _ => false
             end) (seq 0 (length path)).

(** The style [handlePacketSimulate] gives a link: whether it is animated,
    its stroke and its width. *)
Definition highlight (path : list string) (success : bool) (e : Edge)
  : bool * string * Z :=
  let strokeColor := if success then "#10b981" else "#ef4444" in
  if isPathEdge path e then (true, strokeColor, 4%Z) else (false, "#3b82f6", 1%Z).

Lemma linked_onNodesDelete (deleted : list NetworkNode) (eds : list Edge) (a b : string) :
  linked (onNodesDelete deleted eds) a b →
  linked eds a b ∧ ∀ d, d ∈ deleted → node_id d ≠ a ∧ node_id d ≠ b.
Proof.
  intros (e & He & Hab). unfold onNodesDelete in He.
  apply list_elem_of_filter in He as [Hkeep He].
  split; [by exists e |].
  intros d Hd. apply negb_true_iff in Hkeep.
  assert (Hno : (String.eqb (node_id d) (edge_source e)
                 || String.eqb (node_id d) (edge_target e)) = false).
  { destruct (_ || _) eqn:E; [| done]. exfalso.
    assert (touches deleted e = true); [| congruence].
    apply existsb_exists. exists d. split; [by apply list_elem_of_In | done]. }
  apply orb_false_iff in Hno as [Hs Ht].
  apply String.eqb_neq in Hs, Ht.
  destruct Hab as [[<- <-]|[<- <-]]; done.
Qed.

Lemma walk_neighbour (edges : list Edge) (p : list string) (x : string) :
  isWalk edges p → 2 ≤ length p → x ∈ p → ∃ y, linked edges x y ∨ linked edges y x.
Proof.
  intros Hw Hlen Hx. apply list_elem_of_lookup in Hx as [i Hi].
  destruct (p !! S i) as [y|] eqn:Hy.
  - exists y. left. by apply (Hw i).
  - destruct i as [|j].
    + apply lookup_ge_None in Hy. lia.
    + destruct (p !! j) as [y|] eqn:Hj.
      * exists y. right. by apply (Hw j).
      * apply lookup_ge_None in Hj. apply lookup_lt_Some in Hi. lia.
Qed.

(** X12: after devices are deleted, the links that are kept touch none of
    them, so a path that the search finds over these links, other than the
    path of a device to itself, names no deleted device. *)
Theorem deleted_devices_off_the_paths (deleted : list NetworkNode) (eds : list Edge)
    (startNodeId endNodeId : string) (p : list string) :
  bfs (onNodesDelete deleted eds) startNodeId endNodeId = Some p →
  2 ≤ length p →
  walkFrom eds startNodeId endNodeId p ∧
  ∀ x d, x ∈ p → d ∈ deleted → node_id d ≠ x.
Proof.
  intros Hp Hlen.
  pose proof (bfs_outcome (onNodesDelete deleted eds) startNodeId endNodeId) as Hout.
  rewrite Hp in Hout. destruct Hout as (rest & visited & _ & Hq & _).
  destruct (Hq endNodeId p) as ((H0 & Hlast & Hw) & _); [left |]. split.
  - split; [done |]. split; [done |]. intros i a b Ha Hb.
    by apply (linked_onNodesDelete deleted), (Hw i).
  - intros x d Hx Hd.
    destruct (walk_neighbour _ p x Hw Hlen Hx) as [y [Hl|Hl]];
      apply linked_onNodesDelete in Hl as [_ Hl]; by destruct (Hl d Hd).
Qed.

Lemma isPathEdge_step (path : list string) (e : Edge) (i : nat) (a b : string) :
  path !! i = Some a → path !! S i = Some b →
  (edge_source e = a ∧ edge_target e = b) ∨ (edge_source e = b ∧ edge_target e = a) →
  isPathEdge path e = true.
Proof.
  intros Ha Hb He. unfold isPathEdge. apply existsb_exists. exists i. split.
  - apply in_seq. apply lookup_lt_Some in Ha. lia.
  - rewrite Ha, Hb. destruct He as [[-> ->]|[-> ->]]; rewrite !String.eqb_refl; simpl;
      [done | apply orb_true_r].
Qed.

(** X13: the links that the simulation highlights carry the whole path:
    a path that [findPath] reports, when it is not empty, is a walk from the
    start to the end device over the highlighted links alone. *)
Theorem highlighted_links_carry_the_path (nodes : list NetworkNode) (edges : list Edge)
    (startNodeId endNodeId : string) :
  path (findPath nodes edges startNodeId endNodeId) ≠ [] →
  walkFrom
    (filter (fun e => (highlight (path (findPath nodes edges startNodeId endNodeId))
                         (success (findPath nodes edges startNodeId endNodeId)) e).1.1 = true)
       edges)
    startNodeId endNodeId (path (findPath nodes edges startNodeId endNodeId)).
Proof.
  intros Hne.
  destruct (findPath_outcome nodes edges startNodeId endNodeId)
    as (r & <- & [(_ & Hnil & _)|(p & Hp & Hpath & _)]); [done |].
  rewrite Hpath.
  pose proof (bfs_outcome edges startNodeId endNodeId) as Hout.
  rewrite Hp in Hout. destruct Hout as (rest & visited & _ & Hq & _).
  destruct (Hq endNodeId p) as ((H0 & Hlast & Hw) & _); [left |].
  split; [done |]. split; [done |]. intros i a b Ha Hb.
  destruct (Hw i a b Ha Hb) as (e & He & Hab). exists e. split; [| done].
  apply list_elem_of_filter. split; [| done].
  unfold highlight. by rewrite (isPathEdge_step p e i a b Ha Hb Hab).
Qed.

(** * The terminal and the devices *)

(** ** What a command can do to the devices *)

(** The updaters of an interface record that the interpreter applies. *)
Inductive IsUpdater : (InterfaceConfig → InterfaceConfig) → Prop :=
  | UpShutdown b : IsUpdater (withShutdown b)
  | UpSwitchportMode m : IsUpdater (withSwitchportMode m)
  | UpAccessVlan v : IsUpdater (withAccessVlan v)
  | UpTrunkAllowedVlans s : IsUpdater (withTrunkAllowedVlans s)
  | UpIpMask i m : IsUpdater (withIpMask i m).

(** The elementary changes of a device, for the device [nodeId] the
    terminal is bound to: all but the VLAN tag of an end host are changes of
    the bound device. *)
Inductive NodeEdit (nodeId : option string) : NetworkNode → NetworkNode → Prop :=
  | EditHostname n name :
      isBound nodeId n = true → Js.truthy name = true →
      NodeEdit nodeId n (withData (withHostnameLabel name (node_data n)) n)
  | EditEnsure n fullName :
      isBound nodeId n = true →
      NodeEdit nodeId n (ensureInterface n fullName)
  | EditCreateVlan n vid :
      isBound nodeId n = true →
      hasVlanName (vlanTable (node_data n)) vid = false →
      NodeEdit nodeId n
        (withData (withVlanDb (Some (<[vid := defaultVlanName vid]> (vlanTable (node_data n))))
                     (node_data n)) n)
  | EditKeepVlan n :
      isBound nodeId n = true →
      NodeEdit nodeId n (withData (withVlanDb (Some (vlanTable (node_data n))) (node_data n)) n)
  | EditIpRouting n :
      isBound nodeId n = true →
      NodeEdit nodeId n (withData (withIpRouting true (node_data n)) n)
  | EditInterface n interfaces contextInt updater :
      isBound nodeId n = true →
      d_interfaces (node_data n) = Some interfaces →
      member interfaces contextInt = true →
      IsUpdater updater →
      NodeEdit nodeId n
        (withData
           (withInterfaces
              (Some (assign contextInt
                       (updater (default emptyInterface (own interfaces !! contextInt)))
                       (spread interfaces)))
              (node_data n)) n)
  | EditTag n vid :
      isEndHost (d_type (node_data n)) = true →
      NodeEdit nodeId n (withData (withAssignedVlan vid (node_data n)) n)
  | EditRename n vlanDb contextVlan name :
      isBound nodeId n = true → Js.truthy name = true →
      d_vlanDb (node_data n) = Some vlanDb →
      NodeEdit nodeId n
        (withData (withVlanDb (Some (<[contextVlan := name]> vlanDb)) (node_data n)) n)
  | EditTouch n vlanDb :
      isBound nodeId n = true →
      d_vlanDb (node_data n) = Some vlanDb →
      hasVlanName vlanDb 1 = false →
      NodeEdit nodeId n
        (withData (withVlanDb (Some (<[1%Z := "default"]> vlanDb)) (node_data n)) n).

(** A list of devices edited: device by device, any number of elementary
    changes. *)
Definition Edits (nodeId : option string) : relation (list NetworkNode) :=
  Forall2 (rtc (NodeEdit nodeId)).

#[local] Instance Edits_refl (nodeId : option string) : Reflexive (Edits nodeId).
Proof. unfold Edits. apply _. Qed.

#[local] Instance Edits_trans (nodeId : option string) : Transitive (Edits nodeId).
Proof. unfold Edits. apply _. Qed.

Lemma Edits_map (nodeId : option string) (f : NetworkNode → NetworkNode)
    (nds : list NetworkNode) :
  (∀ n, rtc (NodeEdit nodeId) n (f n)) → Edits nodeId nds (map f nds).
Proof.
  intros Hf. induction nds as [|n nds IH]; simpl; constructor; [apply Hf | apply IH].
Qed.

Lemma Edits_updateInt (nodeId : option string) (contextInt : string)
    (updater : InterfaceConfig → InterfaceConfig) (nds : list NetworkNode) :
  IsUpdater updater → Edits nodeId nds (updateInt nodeId contextInt updater nds).
Proof.
  intros Hu. apply Edits_map. intros n.
  destruct (isBound nodeId n) eqn:Hb; [| done].
  destruct (d_interfaces (node_data n)) as [interfaces|] eqn:Hi; [| done].
  destruct (member interfaces contextInt) eqn:Hc; [| done].
  apply rtc_once. exact (EditInterface nodeId n interfaces contextInt updater Hb Hi Hc Hu).
Qed.

Lemma Edits_tagNeighbor (nodeId : option string) (neighborId : string) (vid : Z)
    (nds : list NetworkNode) :
  Edits nodeId nds (tagNeighbor neighborId vid nds).
Proof.
  apply Edits_map. intros n.
  destruct (String.eqb (node_id n) neighborId); [| done]. simpl.
  destruct (isEndHost (d_type (node_data n))) eqn:Hh; [| done].
  apply rtc_once. by apply EditTag.
Qed.

Lemma Edits_createVlan (nodeId : option string) (vid : Z) (nds : list NetworkNode) :
  Edits nodeId nds (createVlan nodeId vid nds).
Proof.
  apply Edits_map. intros n.
  destruct (isBound nodeId n) eqn:Hb; [| done].
  cbv beta zeta.
  destruct (hasVlanName (vlanTable (node_data n)) vid) eqn:Hv; cbn [negb].
  - apply rtc_once. by apply EditKeepVlan.
  - apply rtc_once. by apply EditCreateVlan.
Qed.

Lemma Edits_renameVlan (nodeId : option string) (contextVlan : Z) (name : string)
    (nds : list NetworkNode) :
  Js.truthy name = true → Edits nodeId nds (renameVlan nodeId contextVlan name nds).
Proof.
  intros Hn. apply Edits_map. intros n.
  destruct (isBound nodeId n) eqn:Hb; [| done].
  destruct (d_vlanDb (node_data n)) as [vlanDb|] eqn:Hd; [| done].
  apply rtc_once. by eapply EditRename.
Qed.

Lemma Edits_touchVlan1 (nodeId : option string) (nds : list NetworkNode) :
  Edits nodeId nds (touchVlan1 nodeId nds).
Proof.
  induction nds as [|n nds IH]; simpl; [done |].
  destruct (isBound nodeId n) eqn:Hb; [| by constructor].
  destruct (d_vlanDb (node_data n)) as [vlanDb|] eqn:Hd; [| done].
  destruct (hasVlanName vlanDb 1) eqn:Hv; simpl; [done |].
  constructor; [| done]. apply rtc_once. by eapply EditTouch.
Qed.

Section CommandEdits.

Variable localeCompare : string → string → Z.
Variable runningConfigText : NetworkNode → string.
Variable vlanBriefText : NetworkNode → string.
Variable ipIntBriefText : NetworkNode → list Edge → string.

Local Abbreviation run :=
  (handleCommand localeCompare runningConfigText vlanBriefText ipIntBriefText).

Ltac split_tests :=
  repeat match goal with
         | |- context [if ?b then _ else _] => destruct b eqn:?
         | |- context [match ?x with _ => _ end] => destruct x eqn:?
         end.

Lemma doCommand_edits (edges : list Edge) (t : Terminal) (cmd : string) (p : Pending) :
  Edits (ts_nodeId (t_state t)) (p_nodes p)
    (p_nodes (doCommand localeCompare runningConfigText vlanBriefText ipIntBriefText
                edges t cmd p)).
Proof.
  unfold doCommand, showVlan.
  destruct (matchCmd _ "show run"); [done |].
  destruct (matchCmd _ "show vlan"); [apply Edits_touchVlan1 |].
  destruct (matchCmd _ "show ip int"); [done |].
  destruct (matchCmd _ "ping"); done.
Qed.

Lemma userExec_edits (edges : list Edge) (t : Terminal) (cmd : string)
    (tokens : list string) (p : Pending) :
  p_nodes (userExec edges t cmd tokens p) = p_nodes p.
Proof. unfold userExec. split_tests; reflexivity. Qed.

Lemma privilegedExec_edits (edges : list Edge) (t t1 : Terminal) (cmd : string)
    (firstToken : option string) (p : Pending) :
  t_nodes t1 = p_nodes p →
  match privilegedExec localeCompare runningConfigText vlanBriefText ipIntBriefText
          edges t t1 cmd firstToken p with
  | Returned o => t_nodes (next o) = p_nodes p
  | Pended p' => Edits (ts_nodeId (t_state t)) (p_nodes p) (p_nodes p')
  end.
Proof.
  intros H1. unfold privilegedExec, showVlan.
  destruct (_ || _); [done |].
  destruct (_ || _); [done |].
  destruct (_ || _); [apply Edits_touchVlan1 |].
  destruct (_ || _); [done |].
  destruct (matchCmd cmd "reload"); [exact H1 |].
  case_bool_decide; [done |].
  destruct (negb _); done.
Qed.

Lemma globalConfig_edits (t : Terminal) (cmd : string) (tokens : list string)
    (firstToken : option string) (p : Pending) :
  Edits (ts_nodeId (t_state t)) (p_nodes p) (p_nodes (globalConfig t cmd tokens firstToken p)).
Proof.
  unfold globalConfig.
  destruct (matchCmd cmd "hostname").
  { destruct (tokens !! 1) as [name|]; [| done].
    destruct (Js.truthy name) eqn:Hn; [| done].
    apply Edits_map. intros n. destruct (isBound _ n) eqn:Hb; [| done].
    apply rtc_once. by apply EditHostname. }
  destruct (matchCmd cmd "interface").
  { destruct (tokens !! 1) as [intName|]; [| done].
    destruct (Js.truthy intName); [| done].
    apply Edits_map. intros n. destruct (isBound _ n) eqn:Hb; [| done].
    apply rtc_once. by apply EditEnsure. }
  case_bool_decide.
  { destruct (negb _); [done |].
    destruct (Js.parseIntOpt _); [apply Edits_createVlan | done]. }
  destruct (matchCmd cmd "ip routing").
  { apply Edits_map. intros n. destruct (isBound _ n) eqn:Hb; [| done].
    apply rtc_once. by apply EditIpRouting. }
  destruct (negb _); done.
Qed.

Lemma propagateVlan_edits (edges : list Edge) (t : Terminal) (vid : Z) (p : Pending) :
  Edits (ts_nodeId (t_state t)) (p_nodes p) (p_nodes (propagateVlan localeCompare edges t vid p)).
Proof.
  unfold propagateVlan.
  destruct (Js.matchTrailingDigits _); [| done].
  destruct (Js.parseInt _); [| done].
  destruct (at_ _ _); [| done].
  apply Edits_tagNeighbor.
Qed.

Lemma interfaceConfig_edits (edges : list Edge) (t : Terminal) (cmd : string) (p : Pending) :
  Edits (ts_nodeId (t_state t)) (p_nodes p) (p_nodes (interfaceConfig localeCompare edges t cmd p)).
Proof.
  unfold interfaceConfig.
  destruct (_ || _); [apply Edits_updateInt; constructor |].
  destruct (_ || _); [apply Edits_updateInt; constructor |].
  destruct (matchCmd cmd "switchport mode"); [apply Edits_updateInt; constructor |].
  destruct (matchCmd cmd "switchport access vlan").
  { destruct (Js.parseInt _) as [vid|]; [| done].
    etrans; [| apply propagateVlan_edits]. apply Edits_updateInt. constructor. }
  destruct (matchCmd cmd "switchport trunk allowed vlan").
  { destruct (_ !! 1); [| done]. destruct (Js.truthy _); [| done].
    apply Edits_updateInt. constructor. }
  destruct (matchCmd cmd "ip address").
  { destruct (_ <=? _)%nat; [| done]. apply Edits_updateInt. constructor. }
  destruct (negb _); done.
Qed.

Lemma vlanConfig_edits (t : Terminal) (cmd : string) (tokens : list string)
    (firstToken : option string) (p : Pending) :
  Edits (ts_nodeId (t_state t)) (p_nodes p) (p_nodes (vlanConfig t cmd tokens firstToken p)).
Proof.
  unfold vlanConfig.
  destruct (matchCmd cmd "name").
  { destruct (tokens !! 1) as [name|]; [| done].
    destruct (Js.truthy name) eqn:Hn; [| done]. by apply Edits_renameVlan. }
  destruct (_ || _); [done |]. destruct (negb _); done.
Qed.

Lemma finish_nodes (t1 : Terminal) (cmdRaw : string) (newHistory : list string)
    (p : Pending) :
  t_nodes (next (finish t1 cmdRaw newHistory p))
    = if shouldClose p then t_nodes t1 else p_nodes p.
Proof. unfold finish. by destruct (shouldClose p). Qed.

(** Every change a command makes to the devices is made of the elementary
    changes above. *)
Lemma handleCommand_edits (edges : list Edge) (t : Terminal) :
  Edits (ts_nodeId (t_state t)) (t_nodes t) (t_nodes (next (run edges t))).
Proof.
  unfold handleCommand.
  set (cmd := Js.trim (t_input t)).
  set (p := mkPending _ _ _ _ _ _ _ _).
  destruct (String.eqb cmd ""); [done |].
  destruct (String.eqb cmd "exit").
  { rewrite finish_nodes. destruct (ts_mode (t_state t)); done. }
  destruct (String.eqb cmd "end"); [by rewrite finish_nodes |].
  destruct (_ || _); [by rewrite finish_nodes |].
  destruct (_ || _); [done |].
  case_bool_decide.
  { rewrite finish_nodes, doCommand_stays. exact (doCommand_edits edges t cmd p). }
  destruct (ts_mode (t_state t)).
  - rewrite finish_nodes, userExec_stays, userExec_edits. done.
  - pose proof (privilegedExec_edits edges t (withHistoryIdx (-1) t) cmd
                  (Js.toLowerCase <$> Js.splitWs cmd !! 0) p eq_refl) as Hpriv.
    destruct (matchCmd cmd "reload") eqn:Hr.
    + unfold privilegedExec in *. rewrite Hr in *.
      repeat (destruct (_ || _); [by rewrite finish_nodes |]). done.
    + destruct (privilegedExec_stays localeCompare runningConfigText vlanBriefText
                  ipIntBriefText edges t (withHistoryIdx (-1) t) cmd
                  (Js.toLowerCase <$> Js.splitWs cmd !! 0) p Hr) as (p' & Hp' & Hclose).
      rewrite Hp' in *. rewrite finish_nodes, Hclose. exact Hpriv.
  - rewrite finish_nodes, globalConfig_stays.
    exact (globalConfig_edits t cmd _ _ p).
  - rewrite finish_nodes, interfaceConfig_stays.
    exact (interfaceConfig_edits edges t cmd p).
  - rewrite finish_nodes, vlanConfig_stays.
    exact (vlanConfig_edits t cmd _ _ p).
  - by rewrite finish_nodes.
Qed.

End CommandEdits.

(** ** What no command changes *)

(** What [findPath] reads of a device, the label of its messages apart. *)
Definition netView (n : NetworkNode) : string * option string * Status * DeviceType :=
  (node_id n, d_ip (node_data n), d_status (node_data n), d_type (node_data n)).

Lemma netView_inv (n n' : NetworkNode) :
  netView n' = netView n →
  node_id n' = node_id n ∧ d_ip (node_data n') = d_ip (node_data n) ∧
  d_status (node_data n') = d_status (node_data n) ∧
  d_type (node_data n') = d_type (node_data n).
Proof. unfold netView. by intros [= -> -> -> ->]. Qed.

Lemma NodeEdit_netView (nodeId : option string) (n n' : NetworkNode) :
  NodeEdit nodeId n n' → netView n' = netView n.
Proof. by destruct 1. Qed.

Lemma rtc_NodeEdit_netView (nodeId : option string) (n n' : NetworkNode) :
  rtc (NodeEdit nodeId) n n' → netView n' = netView n.
Proof.
  induction 1 as [|n m n' Hstep _ IH]; [done |].
  rewrite IH. by eapply NodeEdit_netView.
Qed.

Lemma Edits_netView (nodeId : option string) (nds nds' : list NetworkNode) :
  Edits nodeId nds nds' → map netView nds' = map netView nds.
Proof.
  induction 1 as [|n n' nds nds' Hn _ IH]; [done |]. simpl.
  by rewrite IH, (rtc_NodeEdit_netView _ _ _ Hn).
Qed.

(** Lists of devices with the same views are alike to [findPath]. *)
Lemma findNode_view (nds nds' : list NetworkNode) (id : string) :
  map netView nds' = map netView nds →
  match findNode nds id, findNode nds' id with
  | Some n, Some n' => netView n' = netView n
  | None, None => True
  | _, _ => False
  end.
Proof.
  revert nds'. induction nds as [|n nds IH]; intros [|n' nds'] Hv; try done.
  simpl in Hv. injection Hv as Hid Hip Hst Hty Hrest. unfold findNode. simpl.
  rewrite Hid. destruct (String.eqb (node_id n) id); [| by apply IH].
  unfold netView. congruence.
Qed.

Lemma isDown_view (nds nds' : list NetworkNode) (id : string) :
  map netView nds' = map netView nds → isDown nds' id = isDown nds id.
Proof.
  intros Hv. unfold isDown. pose proof (findNode_view nds nds' id Hv) as H.
  destruct (findNode nds id) as [n|], (findNode nds' id) as [n'|]; try done.
  destruct (netView_inv _ _ H) as (_ & _ & -> & _). done.
Qed.

Lemma isRoutingDevice_view (nds nds' : list NetworkNode) (id : string) :
  map netView nds' = map netView nds → isRoutingDevice nds' id = isRoutingDevice nds id.
Proof.
  intros Hv. unfold isRoutingDevice. pose proof (findNode_view nds nds' id Hv) as H.
  destruct (findNode nds id) as [n|], (findNode nds' id) as [n'|]; try done.
  destruct (netView_inv _ _ H) as (_ & _ & _ & ->). done.
Qed.

Lemma find_ext {A} (f g : A → bool) (l : list A) :
  (∀ x, f x = g x) → List.find f l = List.find g l.
Proof. intros H. induction l as [|a l IH]; simpl; [done |]. by rewrite H, IH. Qed.

Lemma existsb_ext' {A} (f g : A → bool) (l : list A) :
  (∀ x, f x = g x) → existsb f l = existsb g l.
Proof. intros H. induction l as [|a l IH]; simpl; [done |]. by rewrite H, IH. Qed.

(** The verdict, the path and the hops of [findPath], its message apart. *)
Definition verdict (r : PacketSimulationResult) : bool * list string * Z :=
  (success r, path r, hops r).

Lemma findPath_view (nds nds' : list NetworkNode) (edges : list Edge)
    (startNodeId endNodeId : string) :
  map netView nds' = map netView nds →
  verdict (findPath nds' edges startNodeId endNodeId)
    = verdict (findPath nds edges startNodeId endNodeId).
Proof.
  intros Hv. unfold findPath.
  pose proof (findNode_view nds nds' startNodeId Hv) as Hs.
  pose proof (findNode_view nds nds' endNodeId Hv) as He.
  destruct (findNode nds startNodeId) as [sn|], (findNode nds' startNodeId) as [sn'|];
    try done.
  destruct (findNode nds endNodeId) as [en|], (findNode nds' endNodeId) as [en'|];
    try done.
  destruct (netView_inv _ _ Hs) as (_ & Hsip & _). destruct (netView_inv _ _ He) as (_ & Heip & _).
  rewrite Hsip, Heip.
  destruct (isValidIP (d_ip (node_data sn))); [| done].
  destruct (isValidIP (d_ip (node_data en))); [| done].
  cbn [negb]. destruct (bfs edges startNodeId endNodeId) as [p|]; [| done].
  unfold validatePath, routePath.
  rewrite (find_ext (isDown nds') (isDown nds)) by (intros x; by apply isDown_view).
  rewrite (existsb_ext' (isRoutingDevice nds') (isRoutingDevice nds))
    by (intros x; by apply isRoutingDevice_view).
  destruct (List.find (isDown nds) p) as [broken|].
  - destruct (Js.truthy broken); [done |].
    destruct (negb _); [destruct (negb _) |]; done.
  - destruct (negb _); [destruct (negb _) |]; done.
Qed.

(** ** The terminal as a machine of events *)

(** The commands the tabulator completes to, in the order they are tried. *)
Definition tabCommands : list string :=
  ["show"; "configure"; "enable"; "interface"; "vlan"; "ping"; "exit"; "switchport";
   "no shutdown"].

(** The tabulator of [handleKeyDown]: the first command that starts with
    the input replaces it, a space added. *)
Definition tabKey (t : Terminal) : Terminal :=
  match List.find (fun c => Js.startsWith c (t_input t)) tabCommands with
  | Some found => if Js.truthy found then withInput (found +:+ " ") t else t
  | None => t
  end.

Inductive Key := Tab | ArrowUp | ArrowDown | Enter | OtherKey.

(** What reaches the component: a key pressed in the input, a change of
    its text, a command picked from the workflows, the timer of [reload], a
    tip that arrives, the button that closes the window. *)
Inductive Event :=
  | KeyDown (key : Key)
  | Change (value : string)
  | InsertWorkflowCommand (cmd : string)
  | ReloadTimeout
  | TipArrives (tip : string)
  | CloseButton.

(** The component with the timer of [reload], when one is pending: the
    host name its closure holds. *)
Record Window := mkWindow {
  w_term : Terminal;
  w_timer : option string
}.

(** The input is rendered in an open window that is not booting. *)
Definition listening (t : Terminal) : bool :=
  ts_isOpen (t_state t) && negb (t_isBooting t).

Section TerminalEvents.

Variable localeCompare : string → string → Z.
Variable runningConfigText : NetworkNode → string.
Variable vlanBriefText : NetworkNode → string.
Variable ipIntBriefText : NetworkNode → list Edge → string.

(** [handleKeyDown]. *)
Definition handleKeyDown (edges : list Edge) (key : Key) (w : Window) : Window :=
  match key with
  | Tab => mkWindow (tabKey (w_term w)) (w_timer w)
  | ArrowUp => mkWindow (arrowUp (w_term w)) (w_timer w)
  | ArrowDown => mkWindow (arrowDown (w_term w)) (w_timer w)
  | Enter =>
      let o := handleCommand localeCompare runningConfigText vlanBriefText ipIntBriefText
                 edges (w_term w) in
      mkWindow (next o)
        (if reloadTimer o then Some (ts_hostname (t_state (w_term w))) else w_timer w)
  | OtherKey => w
  end.

(** One event.  Events are not held to the order they can occur in; what
    holds after every sequence holds after those that occur. *)
Definition handleEvent (edges : list Edge) (w : Window) (ev : Event) : Window :=
  match ev with
  | KeyDown key => if listening (w_term w) then handleKeyDown edges key w else w
  | Change value =>
      if listening (w_term w) then mkWindow (withInput value (w_term w)) (w_timer w) else w
  | InsertWorkflowCommand cmd =>
      if ts_isOpen (t_state (w_term w))
      then mkWindow (withInput cmd (w_term w)) (w_timer w) else w
  | ReloadTimeout =>
      match w_timer w with
      | Some hostnameThen => mkWindow (reloadTimeout hostnameThen (w_term w)) None
      | None => w
      end
  | TipArrives tip =>
      if Js.truthy tip
      then mkWindow (withOutput (t_output (w_term w) ++ ["[AI Tip]: " +:+ tip]) (w_term w))
             (w_timer w)
      else w
  | CloseButton => mkWindow (onClose (w_term w)) (w_timer w)
  end.

Definition handleEvents (edges : list Edge) (w : Window) (evs : list Event) : Window :=
  foldl (handleEvent edges) w evs.

End TerminalEvents.

Section EventProperties.

Variable localeCompare : string → string → Z.
Variable runningConfigText : NetworkNode → string.
Variable vlanBriefText : NetworkNode → string.
Variable ipIntBriefText : NetworkNode → list Edge → string.

Local Abbreviation run :=
  (handleCommand localeCompare runningConfigText vlanBriefText ipIntBriefText).
Local Abbreviation event :=
  (handleEvent localeCompare runningConfigText vlanBriefText ipIntBriefText).
Local Abbreviation events :=
  (handleEvents localeCompare runningConfigText vlanBriefText ipIntBriefText).

(** A command ends in one of three ways: at once with the output replaced
    ([clear], the empty line), with the reload, or at the common end. *)
Lemma handleCommand_ends (edges : list Edge) (t : Terminal) :
  (∃ out, run edges t = mkOutcome (withOutput out (withHistoryIdx (-1) t)) None false) ∨
  (ts_mode (t_state t) = PrivilegedExec ∧ run edges t = reloadNow (withHistoryIdx (-1) t)) ∨
  (∃ newHistory p, run edges t = finish (withHistoryIdx (-1) t) (t_input t) newHistory p).
Proof.
  unfold handleCommand.
  destruct (String.eqb _ ""); [left; by eexists |].
  destruct (String.eqb _ "exit"); [right; right; by do 2 eexists |].
  destruct (String.eqb _ "end"); [right; right; by do 2 eexists |].
  destruct (_ || _); [right; right; by do 2 eexists |].
  destruct (_ || _); [left; by eexists |].
  case_bool_decide; [right; right; by do 2 eexists |].
  destruct (ts_mode (t_state t)); try (right; right; by do 2 eexists).
  unfold privilegedExec.
  repeat (destruct (_ || _); [right; right; by do 2 eexists |]).
  destruct (matchCmd _ "reload"); [right; left; done |].
  case_bool_decide; [right; right; by do 2 eexists |].
  destruct (negb _); right; right; by do 2 eexists.
Qed.

Lemma handleCommand_nodeId (edges : list Edge) (t : Terminal) :
  ts_nodeId (t_state (next (run edges t))) = ts_nodeId (t_state t).
Proof.
  destruct (handleCommand_ends edges t) as [[out ->]|[[_ ->]|(h & p & ->)]]; [done | done |].
  unfold finish. by destruct (shouldClose p).
Qed.

Lemma arrowDown_state (t : Terminal) : t_state (arrowDown t) = t_state t.
Proof. unfold arrowDown. by destruct (0 <? _)%Z. Qed.

Lemma arrowUp_nodes (t : Terminal) : t_nodes (arrowUp t) = t_nodes t.
Proof. unfold arrowUp. by destruct (0 <? _)%Z. Qed.

Lemma arrowDown_nodes (t : Terminal) : t_nodes (arrowDown t) = t_nodes t.
Proof. unfold arrowDown. by destruct (0 <? _)%Z. Qed.

Lemma tabKey_state (t : Terminal) : t_state (tabKey t) = t_state t.
Proof. unfold tabKey. destruct (List.find _ _) as [c|]; [destruct (Js.truthy c) |]; done. Qed.

Lemma tabKey_nodes (t : Terminal) : t_nodes (tabKey t) = t_nodes t.
Proof. unfold tabKey. destruct (List.find _ _) as [c|]; [destruct (Js.truthy c) |]; done. Qed.

Lemma handleEvent_nodeId (edges : list Edge) (w : Window) (ev : Event) :
  ts_nodeId (t_state (w_term (event edges w ev))) = ts_nodeId (t_state (w_term w)).
Proof.
  destruct ev as [key| | | | |]; simpl.
  - destruct (listening _); [| done]. destruct key; simpl; try done.
    + by rewrite tabKey_state.
    + by rewrite arrowUp_state.
    + by rewrite arrowDown_state.
    + apply handleCommand_nodeId.
  - by destruct (listening _).
  - by destruct (ts_isOpen _).
  - by destruct (w_timer w).
  - by destruct (Js.truthy _).
  - done.
Qed.

Lemma handleEvent_edits (edges : list Edge) (w : Window) (ev : Event) :
  Edits (ts_nodeId (t_state (w_term w))) (t_nodes (w_term w))
    (t_nodes (w_term (event edges w ev))).
Proof.
  destruct ev as [key| | | | |]; simpl.
  - destruct (listening _); [| done]. destruct key; simpl; try done.
    + by rewrite tabKey_nodes.
    + by rewrite arrowUp_nodes.
    + by rewrite arrowDown_nodes.
    + apply handleCommand_edits.
  - by destruct (listening _).
  - by destruct (ts_isOpen _).
  - by destruct (w_timer w).
  - by destruct (Js.truthy _).
  - done.
Qed.

Lemma handleEvents_nodeId (edges : list Edge) (evs : list Event) (w : Window) :
  ts_nodeId (t_state (w_term (events edges w evs))) = ts_nodeId (t_state (w_term w)).
Proof.
  revert w. induction evs as [|ev evs IH]; intros w; [done |].
  change (events edges w (ev :: evs)) with (events edges (event edges w ev) evs).
  by rewrite IH, handleEvent_nodeId.
Qed.

Lemma handleEvents_edits (edges : list Edge) (evs : list Event) (w : Window) :
  Edits (ts_nodeId (t_state (w_term w))) (t_nodes (w_term w))
    (t_nodes (w_term (events edges w evs))).
Proof.
  revert w. induction evs as [|ev evs IH]; intros w; [done |].
  change (events edges w (ev :: evs)) with (events edges (event edges w ev) evs).
  etrans; [apply (handleEvent_edits edges w ev) |].
  rewrite <- (handleEvent_nodeId edges w ev). apply IH.
Qed.

(** X14: nothing done at the terminal changes what [findPath] makes of the
    network: after any sequence of events, for any links and any two
    devices, the verdict, the path and the hops are what they were before;
    only the label in a message can differ. *)
Theorem terminal_keeps_reachability (edges : list Edge) (w : Window) (evs : list Event)
    (links : list Edge) (startNodeId endNodeId : string) :
  verdict (findPath (t_nodes (w_term (events edges w evs))) links startNodeId endNodeId)
    = verdict (findPath (t_nodes (w_term w)) links startNodeId endNodeId).
Proof.
  apply findPath_view. eapply Edits_netView. apply handleEvents_edits.
Qed.

End EventProperties.

(** ** What the devices keep *)

(** [n.data.vlanDb && n.data.vlanDb[vid]]: the device has a table and in
    it a name, not empty, for the VLAN. *)
Definition hasVlan (n : NetworkNode) (vid : Z) : bool :=
  match d_vlanDb (node_data n) with
  | Some vlanDb => hasVlanName vlanDb vid
  | None => false
  end.

(** Every interface record is stored under its own name, or has no name:
    the record a command makes for a name that only an inherited member
    answers to has none. *)
Definition namedOrBare (n : NetworkNode) : Prop :=
  ∀ k c, interfacesOf n !! k = Some c → if_name c = Some k ∨ if_name c = None.

(** The fields of a device that no command writes. *)
Definition fixedPart (n : NetworkNode) :=
  (node_id n, node_position n, d_type (node_data n), d_ip (node_data n),
   d_mac (node_data n), d_status (node_data n), d_floor (node_data n),
   d_isVulnerable (node_data n), d_domainName (node_data n), d_lines (node_data n),
   d_gateway (node_data n)).

Lemma hasVlanName_insert (vlanDb : gmap Z string) (k vid : Z) (name : string) :
  Js.truthy name = true →
  hasVlanName vlanDb vid = true → hasVlanName (<[k := name]> vlanDb) vid = true.
Proof.
  intros Hn. unfold hasVlanName. destruct (decide (k = vid)) as [->|Hne].
  - by rewrite lookup_insert_eq.
  - by rewrite lookup_insert_ne.
Qed.

Lemma NodeEdit_hasVlan (nodeId : option string) (n n' : NetworkNode) (vid : Z) :
  NodeEdit nodeId n n' → hasVlan n vid = true → hasVlan n' vid = true.
Proof.
  unfold hasVlan.
  destruct 1 as [n name|n fullName|n v Hb Hv|n Hb|n|n ifs ci u|n v|n db cv name Hb Hn Hd
                |n db Hb Hd Hv]; try done.
  - unfold vlanTable. destruct (d_vlanDb (node_data n)) as [db|]; [| done]. simpl.
    by apply hasVlanName_insert.
  - unfold vlanTable. by destruct (d_vlanDb (node_data n)).
  - rewrite Hd. simpl. by apply hasVlanName_insert.
  - rewrite Hd. simpl. by apply hasVlanName_insert.
Qed.

Lemma IsUpdater_name (updater : InterfaceConfig → InterfaceConfig) (c : InterfaceConfig) :
  IsUpdater updater → if_name (updater c) = if_name c.
Proof. by destruct 1. Qed.

(** The own entries after [interfaces[k] = c]. *)
Lemma assign_own (k : string) (c : InterfaceConfig) (interfaces : Interfaces) :
  own (assign k c interfaces) = own interfaces ∧ own interfaces !! k = None ∨
  own (assign k c interfaces) = <[k := c]> (own interfaces).
Proof.
  unfold assign. destruct (String.eqb k "__proto__"); [| by right].
  case_bool_decide; [by left | by right].
Qed.

Lemma assign_replace (k : string) (c c0 : InterfaceConfig) (interfaces : Interfaces) :
  own interfaces !! k = Some c0 →
  assign k c interfaces = mkInterfaces (<[k := c]> (own interfaces)) (proto interfaces).
Proof.
  intros Hk. unfold assign. rewrite bool_decide_false by congruence.
  by rewrite andb_false_r.
Qed.

Lemma member_assign (k : string) (c : InterfaceConfig) (interfaces : Interfaces) :
  member (assign k c interfaces) k = true.
Proof.
  unfold assign. destruct (String.eqb_spec k "__proto__") as [->|_]; cbn [andb].
  - case_bool_decide; [apply member_proto |].
    apply member_own. cbn. rewrite lookup_insert_eq. by eexists.
  - apply member_own. cbn. rewrite lookup_insert_eq. by eexists.
Qed.

(** A record a device holds stays, under its name and with its name. *)
Lemma NodeEdit_interfaces (nodeId : option string) (n n' : NetworkNode) (k : string)
    (c : InterfaceConfig) :
  NodeEdit nodeId n n' →
  interfacesOf n !! k = Some c →
  ∃ c', interfacesOf n' !! k = Some c' ∧ if_name c' = if_name c.
Proof.
  destruct 1 as [n name|n fullName|n v Hb Hv|n Hb|n|n ifs ci u Hb Hi Hc Hu|n v
                |n db cv name Hb Hn Hd|n db Hb Hd Hv]; try by (intros Hk; exists c).
  - intros Hk. exists c. split; [| done]. rewrite ensureInterface_interfaces.
    destruct (member (tableOf n) fullName) eqn:Hm; [done |].
    rewrite lookup_insert_ne; [done |]. intros ->.
    rewrite (member_own (tableOf n) k) in Hm; [done | by exists c].
  - unfold interfacesOf, tableOf. rewrite Hi. cbn. intros Hk.
    destruct (decide (ci = k)) as [->|Hne].
    + rewrite Hk. cbn. rewrite (assign_replace k _ c) by done. cbn.
      rewrite lookup_insert_eq. eexists. split; [done |]. by apply IsUpdater_name.
    + exists c. split; [| done].
      destruct (assign_own ci (u (default emptyInterface (own ifs !! ci))) (spread ifs))
        as [[-> _]| ->]; [done |].
      by rewrite lookup_insert_ne.
Qed.

Lemma NodeEdit_namedOrBare (nodeId : option string) (n n' : NetworkNode) :
  NodeEdit nodeId n n' → namedOrBare n → namedOrBare n'.
Proof.
  unfold namedOrBare.
  destruct 1 as [n name|n fullName|n v Hb Hv|n Hb|n|n ifs ci u Hb Hi Hc Hu|n v
                |n db cv name Hb Hn Hd|n db Hb Hd Hv]; try done.
  - intros Hw k c. rewrite ensureInterface_interfaces.
    destruct (member (tableOf n) fullName) eqn:Hl; [apply Hw |].
    destruct (decide (fullName = k)) as [->|Hne].
    + rewrite lookup_insert_eq. intros [= <-]. by left.
    + rewrite lookup_insert_ne by done. apply Hw.
  - intros Hw k c'. unfold interfacesOf, tableOf in *. rewrite Hi in Hw. cbn in *.
    destruct (assign_own ci (u (default emptyInterface (own ifs !! ci))) (spread ifs))
      as [[-> _]| ->]; [apply Hw |]. cbn.
    destruct (decide (ci = k)) as [->|Hne].
    + rewrite lookup_insert_eq. intros [= <-]. rewrite IsUpdater_name by done.
      destruct (own ifs !! k) as [c0|] eqn:Hk; cbn; [by apply Hw | by right].
    + rewrite lookup_insert_ne by done. apply Hw.
Qed.

Lemma NodeEdit_fixedPart (nodeId : option string) (n n' : NetworkNode) :
  NodeEdit nodeId n n' → fixedPart n' = fixedPart n.
Proof. by destruct 1. Qed.

(** A device other than the bound one can only be given a VLAN tag, and
    only an end host. *)
Definition tagged (n n' : NetworkNode) : Prop :=
  n' = n ∨
  (isEndHost (d_type (node_data n)) = true ∧
   ∃ vid, n' = withData (withAssignedVlan vid (node_data n)) n).

Lemma NodeEdit_unbound (nodeId : option string) (n n' : NetworkNode) :
  NodeEdit nodeId n n' → isBound nodeId n = false →
  isEndHost (d_type (node_data n)) = true ∧
  ∃ vid, n' = withData (withAssignedVlan vid (node_data n)) n.
Proof. destruct 1; try congruence. intros _. split; [done |]. by eexists. Qed.

Lemma isBound_fixedPart (nodeId : option string) (n n' : NetworkNode) :
  fixedPart n' = fixedPart n → isBound nodeId n' = isBound nodeId n.
Proof. unfold fixedPart, isBound. intros [= -> _ _ _ _ _ _ _ _ _ _]. done. Qed.

(** What holds of a device along a chain of changes. *)
Lemma rtc_NodeEdit_keeps (nodeId : option string) (n n' : NetworkNode) :
  rtc (NodeEdit nodeId) n n' →
  fixedPart n' = fixedPart n ∧
  (∀ vid, hasVlan n vid = true → hasVlan n' vid = true) ∧
  (∀ k c, interfacesOf n !! k = Some c →
          ∃ c', interfacesOf n' !! k = Some c' ∧ if_name c' = if_name c) ∧
  (namedOrBare n → namedOrBare n') ∧
  (isBound nodeId n = false → tagged n n').
Proof.
  induction 1 as [n|n m n' Hstep _ (IHf & IHv & IHi & IHw & IHt)].
  { repeat split; try done; [by eexists | intros _; by left]. }
  pose proof (NodeEdit_fixedPart _ _ _ Hstep) as Hf.
  split; [by rewrite IHf |].
  split; [intros vid Hv; by eapply IHv, NodeEdit_hasVlan |].
  split.
  { intros k c Hk. destruct (NodeEdit_interfaces _ _ _ k c Hstep Hk) as (c1 & Hk1 & Hn1).
    destruct (IHi k c1 Hk1) as (c2 & Hk2 & Hn2). exists c2. split; [done | congruence]. }
  split; [intros Hw; by eapply IHw, NodeEdit_namedOrBare |].
  intros Hb. destruct (NodeEdit_unbound _ _ _ Hstep Hb) as (Hend & vid & ->).
  destruct IHt as [->|(_ & vid' & ->)].
  - by rewrite (isBound_fixedPart _ _ _ Hf).
  - right. split; [done |]. by exists vid.
  - right. split; [done |]. by exists vid'.
Qed.

(** ** The checks of the missions on VLANs ([ChallengePanel]) *)

(** Mission 1, "VLAN Setup (Bonus)". *)
Definition checkVlanSetup (nodes : list NetworkNode) : bool :=
  existsb (fun n => hasVlan n 10) nodes.

(** Mission 2, "VLAN Configuration". *)
Definition checkVlanConfiguration (nodes : list NetworkNode) : bool :=
  existsb (fun n => hasVlan n 10 && hasVlan n 20) nodes.

Lemma existsb_Forall2 {A} (R : A → A → Prop) (f : A → bool) (l l' : list A) :
  Forall2 R l l' → (∀ x y, R x y → f x = true → f y = true) →
  existsb f l = true → existsb f l' = true.
Proof.
  intros HR Hf. induction HR as [|x y l l' Hxy _ IH]; [done |]. simpl.
  rewrite !orb_true_iff. intros [Hx|Hl]; [left; by eapply Hf | right; by apply IH].
Qed.

Section DeviceProperties.

Variable localeCompare : string → string → Z.
Variable runningConfigText : NetworkNode → string.
Variable vlanBriefText : NetworkNode → string.
Variable ipIntBriefText : NetworkNode → list Edge → string.

Local Abbreviation events :=
  (handleEvents localeCompare runningConfigText vlanBriefText ipIntBriefText).

(** X15: what the terminal leaves alone.  After any sequence of events the
    devices are the same in number and order; of every device the
    identifier, the position, the kind, the address, the MAC, the status,
    the floor, the vulnerability mark, the domain name, the lines and the
    gateway are what they were; and a device other than the one the
    terminal is bound to is unchanged, or is an end host that was given a
    VLAN tag and is otherwise unchanged. *)
Theorem terminal_frame (edges : list Edge) (w : Window) (evs : list Event) :
  Forall2 (fun n n' =>
             fixedPart n' = fixedPart n ∧
             (isBound (ts_nodeId (t_state (w_term w))) n = false → tagged n n'))
    (t_nodes (w_term w)) (t_nodes (w_term (events edges w evs))).
Proof.
  eapply Forall2_impl; [apply handleEvents_edits |].
  intros n n' Hn. destruct (rtc_NodeEdit_keeps _ _ _ Hn) as (Hf & _ & _ & _ & Ht). done.
Qed.

(** X16: what is configured stays.  After any sequence of events, a VLAN
    that had a name on a device has one; an interface record that a device
    held is still held under the same key, with the name it had; and when
    every record was stored under its own name or had none, this is still
    so (a record without a name is what a command of interface
    configuration stores under a key that only an inherited member answers
    to). *)
Theorem terminal_keeps_configuration (edges : list Edge) (w : Window) (evs : list Event) :
  Forall2 (fun n n' =>
             (∀ vid, hasVlan n vid = true → hasVlan n' vid = true) ∧
             (∀ k c, interfacesOf n !! k = Some c →
                     ∃ c', interfacesOf n' !! k = Some c' ∧ if_name c' = if_name c) ∧
             (namedOrBare n → namedOrBare n'))
    (t_nodes (w_term w)) (t_nodes (w_term (events edges w evs))).
Proof.
  eapply Forall2_impl; [apply handleEvents_edits |].
  intros n n' Hn. destruct (rtc_NodeEdit_keeps _ _ _ Hn) as (_ & Hv & Hi & Hw & _). done.
Qed.

(** X17: a VLAN step of a mission, once passed, stays passed whatever is
    done at the terminal afterwards. *)
Theorem vlan_checks_stay_passed (edges : list Edge) (w : Window) (evs : list Event) :
  (checkVlanSetup (t_nodes (w_term w)) = true →
   checkVlanSetup (t_nodes (w_term (events edges w evs))) = true) ∧
  (checkVlanConfiguration (t_nodes (w_term w)) = true →
   checkVlanConfiguration (t_nodes (w_term (events edges w evs))) = true).
Proof.
  pose proof (handleEvents_edits localeCompare runningConfigText vlanBriefText
                ipIntBriefText edges evs w) as He.
  split; apply (existsb_Forall2 _ _ _ _ He); intros n n' Hn;
    destruct (rtc_NodeEdit_keeps _ _ _ Hn) as (_ & Hv & _).
  - apply Hv.
  - rewrite !andb_true_iff. intros [H10 H20]. split; by apply Hv.
Qed.

End DeviceProperties.

(** ** The context follows the mode *)

(** [n.data.interfaces && n.data.interfaces[k]]: the test [updateInt]
    makes of a device, besides its identifier. *)
Definition answers (n : NetworkNode) (k : string) : bool :=
  match d_interfaces (node_data n) with
  | Some interfaces => member interfaces k
  | None => false
  end.

(** What the mode says of the context: in interface configuration the
    context is a name under which the table of interfaces of every device
    the terminal is bound to answers, so that [updateInt] goes through; in
    VLAN configuration it is a VLAN that has a name on each of them;
    elsewhere there is none.  No line is ever configured. *)
Definition coherent (nodeId : option string) (m : Mode) (contextInt : string)
    (contextVlan : Z) (contextLine : string) (nds : list NetworkNode) : Prop :=
  contextLine = "" ∧
  match m with
  | InterfaceConfigMode =>
      contextInt ≠ "" ∧ contextVlan = 0%Z ∧
      ∀ n, n ∈ nds → isBound nodeId n = true → answers n contextInt = true
  | VlanConfig =>
      contextInt = "" ∧
      ∀ n, n ∈ nds → isBound nodeId n = true → hasVlan n contextVlan = true
  | LineConfigMode => False
  | UserExec | PrivilegedExec | GlobalConfig => contextInt = "" ∧ contextVlan = 0%Z
  end.

Definition Coherent (t : Terminal) : Prop :=
  coherent (ts_nodeId (t_state t)) (ts_mode (t_state t)) (t_contextInt t)
    (t_contextVlan t) (t_contextLine t) (t_nodes t).

Definition coherentP (nodeId : option string) (p : Pending) : Prop :=
  coherent nodeId (newMode p) (p_contextInt p) (p_contextVlan p) (p_contextLine p)
    (p_nodes p).

Lemma Edits_elem (nodeId : option string) (nds nds' : list NetworkNode) (n' : NetworkNode) :
  Edits nodeId nds nds' → n' ∈ nds' → ∃ n, n ∈ nds ∧ rtc (NodeEdit nodeId) n n'.
Proof.
  intros He Hin. apply list_elem_of_lookup in Hin as [i Hi].
  destruct (Forall2_lookup_r _ _ _ _ _ He Hi) as (n & Hn & Hr).
  exists n. split; [by eapply list_elem_of_lookup_2 | done].
Qed.

(** A device answers under the name after a step if it did before. *)
Definition keepsAnswer (k : string) (n n' : NetworkNode) : Prop :=
  answers n k = true → answers n' k = true.

#[local] Instance keepsAnswer_refl (k : string) : Reflexive (keepsAnswer k).
Proof. intros n H. exact H. Qed.

#[local] Instance keepsAnswer_trans (k : string) : Transitive (keepsAnswer k).
Proof. intros a b c H1 H2 H. by apply H2, H1. Qed.

Definition Answering (k : string) : relation (list NetworkNode) :=
  Forall2 (keepsAnswer k).

#[local] Instance Answering_refl (k : string) : Reflexive (Answering k).
Proof. unfold Answering. apply _. Qed.

#[local] Instance Answering_trans (k : string) : Transitive (Answering k).
Proof. unfold Answering. apply _. Qed.

Lemma Answering_map (k : string) (f : NetworkNode → NetworkNode) (nds : list NetworkNode) :
  (∀ n, keepsAnswer k n (f n)) → Answering k nds (map f nds).
Proof.
  intros Hf. induction nds as [|n nds IH]; simpl; constructor; [apply Hf | apply IH].
Qed.

(** [updateInt] leaves the table answering under the name it wrote
    under. *)
Lemma Answering_updateInt (nodeId : option string) (k : string)
    (updater : InterfaceConfig → InterfaceConfig) (nds : list NetworkNode) :
  Answering k nds (updateInt nodeId k updater nds).
Proof.
  apply Answering_map. intros n Ha.
  destruct (isBound nodeId n); [| exact Ha].
  unfold answers in Ha |- *.
  destruct (d_interfaces (node_data n)) as [interfaces|]; [| done].
  rewrite Ha. cbn. apply member_assign.
Qed.

Lemma Answering_tagNeighbor (k : string) (neighborId : string) (vid : Z)
    (nds : list NetworkNode) :
  Answering k nds (tagNeighbor neighborId vid nds).
Proof. apply Answering_map. intros n. unfold keepsAnswer. by destruct (_ && _). Qed.

Lemma Answering_touchVlan1 (k : string) (nodeId : option string) (nds : list NetworkNode) :
  Answering k nds (touchVlan1 nodeId nds).
Proof.
  induction nds as [|n nds IH]; simpl; [constructor |].
  destruct (isBound nodeId n); [| constructor; [by intros H | exact IH]].
  destruct (d_vlanDb (node_data n)) as [vlanDb|]; [| reflexivity].
  destruct (hasVlanName vlanDb 1); simpl; [reflexivity |].
  constructor; [by intros H | reflexivity].
Qed.

Lemma ensureInterface_answers (node : NetworkNode) (ifName : string) :
  answers (ensureInterface node ifName) ifName = true.
Proof. exact (ensureInterface_member node ifName). Qed.

Lemma coherent_edits (nodeId : option string) (m : Mode) (contextInt : string)
    (contextVlan : Z) (contextLine : string) (nds nds' : list NetworkNode) :
  Edits nodeId nds nds' →
  (m = InterfaceConfigMode → Answering contextInt nds nds') →
  coherent nodeId m contextInt contextVlan contextLine nds →
  coherent nodeId m contextInt contextVlan contextLine nds'.
Proof.
  intros He Ha [Hl Hm]. split; [done |]. destruct m; try done.
  - destruct Hm as (Hi & Hv & Hrec). split; [done |]. split; [done |].
    intros n' Hin Hb. apply list_elem_of_lookup in Hin as [i Hi'].
    destruct (Forall2_lookup_r _ _ _ _ _ He Hi') as (n & Hn & Hr).
    destruct (Forall2_lookup_r _ _ _ _ _ (Ha eq_refl) Hi') as (n2 & Hn2 & Hk).
    rewrite Hn in Hn2. injection Hn2 as <-.
    destruct (rtc_NodeEdit_keeps _ _ _ Hr) as (Hf & _).
    apply Hk, Hrec; [by eapply list_elem_of_lookup_2 |].
    by rewrite <- (isBound_fixedPart _ _ _ Hf).
  - destruct Hm as (Hi & Hrec). split; [done |].
    intros n' Hin Hb. destruct (Edits_elem _ _ _ _ He Hin) as (n & Hn & Hr).
    destruct (rtc_NodeEdit_keeps _ _ _ Hr) as (Hf & Hkeep & _).
    apply Hkeep, Hrec; [done |]. by rewrite <- (isBound_fixedPart _ _ _ Hf).
Qed.

Lemma fullInterfaceName_nonempty (intName : string) :
  Js.truthy intName = true → fullInterfaceName intName ≠ "".
Proof.
  destruct intName as [|c s]; [done |]. intros _. unfold fullInterfaceName.
  cbn [Js.toLowerCase Js.startsWith Js.replaceLeadingWord].
  destruct (Ascii.eqb (Js.lowerChar c) "g") eqn:Eg; [done |].
  destruct (Ascii.eqb (Js.lowerChar c) "f") eqn:Ef; done.
Qed.

Section Coherence.

Variable localeCompare : string → string → Z.
Variable runningConfigText : NetworkNode → string.
Variable vlanBriefText : NetworkNode → string.
Variable ipIntBriefText : NetworkNode → list Edge → string.

Local Abbreviation run :=
  (handleCommand localeCompare runningConfigText vlanBriefText ipIntBriefText).
Local Abbreviation event :=
  (handleEvent localeCompare runningConfigText vlanBriefText ipIntBriefText).
Local Abbreviation events :=
  (handleEvents localeCompare runningConfigText vlanBriefText ipIntBriefText).

Ltac split_tests :=
  repeat match goal with
         | |- context [if ?b then _ else _] => destruct b
         | |- context [match ?x with _ => _ end] => destruct x
         end.

(** The mode and the context a branch leaves. *)
Definition sameContext (p p' : Pending) : Prop :=
  p_contextInt p' = p_contextInt p ∧ p_contextVlan p' = p_contextVlan p ∧
  p_contextLine p' = p_contextLine p.

Lemma doCommand_context (edges : list Edge) (t : Terminal) (cmd : string) (p : Pending) :
  newMode (doCommand localeCompare runningConfigText vlanBriefText ipIntBriefText
             edges t cmd p) = newMode p ∧
  sameContext p (doCommand localeCompare runningConfigText vlanBriefText ipIntBriefText
                   edges t cmd p).
Proof. unfold doCommand, showVlan. split_tests; done. Qed.

Lemma userExec_context (edges : list Edge) (t : Terminal) (cmd : string)
    (tokens : list string) (p : Pending) :
  (newMode (userExec edges t cmd tokens p) = newMode p ∨
   newMode (userExec edges t cmd tokens p) = PrivilegedExec) ∧
  sameContext p (userExec edges t cmd tokens p).
Proof. unfold userExec. split_tests; split; auto; done. Qed.

Lemma privilegedExec_context (edges : list Edge) (t t1 : Terminal) (cmd : string)
    (firstToken : option string) (p : Pending) :
  match privilegedExec localeCompare runningConfigText vlanBriefText ipIntBriefText
          edges t t1 cmd firstToken p with
  | Returned o => o = reloadNow t1
  | Pended p' =>
      (newMode p' = newMode p ∨ newMode p' = GlobalConfig) ∧ sameContext p p'
  end.
Proof. unfold privilegedExec, showVlan. split_tests; try done; split; auto; done. Qed.

Lemma interfaceConfig_context (edges : list Edge) (t : Terminal) (cmd : string) (p : Pending) :
  newMode (interfaceConfig localeCompare edges t cmd p) = newMode p ∧
  sameContext p (interfaceConfig localeCompare edges t cmd p).
Proof. unfold interfaceConfig, propagateVlan. split_tests; done. Qed.

Lemma vlanConfig_context (t : Terminal) (cmd : string) (tokens : list string)
    (firstToken : option string) (p : Pending) :
  newMode (vlanConfig t cmd tokens firstToken p) = newMode p ∧
  sameContext p (vlanConfig t cmd tokens firstToken p).
Proof. unfold vlanConfig. split_tests; done. Qed.

Lemma doCommand_answering (k : string) (edges : list Edge) (t : Terminal) (cmd : string)
    (p : Pending) :
  Answering k (p_nodes p)
    (p_nodes (doCommand localeCompare runningConfigText vlanBriefText ipIntBriefText
                edges t cmd p)).
Proof.
  unfold doCommand, showVlan.
  destruct (matchCmd _ "show run"); [reflexivity |].
  destruct (matchCmd _ "show vlan"); [apply Answering_touchVlan1 |].
  destruct (matchCmd _ "show ip int"); [reflexivity |].
  destruct (matchCmd _ "ping"); reflexivity.
Qed.

Lemma propagateVlan_answering (k : string) (edges : list Edge) (t : Terminal) (vid : Z)
    (p : Pending) :
  Answering k (p_nodes p) (p_nodes (propagateVlan localeCompare edges t vid p)).
Proof.
  unfold propagateVlan.
  destruct (Js.matchTrailingDigits _); [| reflexivity].
  destruct (Js.parseInt _); [| reflexivity].
  destruct (at_ _ _); [| reflexivity].
  apply Answering_tagNeighbor.
Qed.

(** The commands of interface configuration write under the name of the
    context and under no other. *)
Lemma interfaceConfig_answering (edges : list Edge) (t : Terminal) (cmd : string)
    (p : Pending) :
  Answering (t_contextInt t) (p_nodes p)
    (p_nodes (interfaceConfig localeCompare edges t cmd p)).
Proof.
  unfold interfaceConfig.
  destruct (_ || _); [apply Answering_updateInt |].
  destruct (_ || _); [apply Answering_updateInt |].
  destruct (matchCmd cmd "switchport mode"); [apply Answering_updateInt |].
  destruct (matchCmd cmd "switchport access vlan").
  { destruct (Js.parseInt _) as [vid|]; [| reflexivity].
    etrans; [| apply propagateVlan_answering]. apply Answering_updateInt. }
  destruct (matchCmd cmd "switchport trunk allowed vlan").
  { destruct (_ !! 1); [| reflexivity]. destruct (Js.truthy _); [| reflexivity].
    apply Answering_updateInt. }
  destruct (matchCmd cmd "ip address").
  { destruct (_ <=? _)%nat; [| reflexivity]. apply Answering_updateInt. }
  destruct (negb _); reflexivity.
Qed.

Lemma coherentP_same (nodeId : option string) (p p' : Pending) :
  newMode p' = newMode p → sameContext p p' → Edits nodeId (p_nodes p) (p_nodes p') →
  (newMode p = InterfaceConfigMode →
   Answering (p_contextInt p) (p_nodes p) (p_nodes p')) →
  coherentP nodeId p → coherentP nodeId p'.
Proof.
  intros Hm (Hi & Hv & Hl) He Ha Hp. unfold coherentP. rewrite Hm, Hi, Hv, Hl.
  by eapply coherent_edits.
Qed.

(** Outside interface configuration only the changes themselves matter. *)
Lemma coherentP_other (nodeId : option string) (p p' : Pending) :
  newMode p ≠ InterfaceConfigMode →
  newMode p' = newMode p → sameContext p p' → Edits nodeId (p_nodes p) (p_nodes p') →
  coherentP nodeId p → coherentP nodeId p'.
Proof. intros Hno Hm Hc He. by apply coherentP_same. Qed.

Lemma globalConfig_coherent (t : Terminal) (cmd : string) (tokens : list string)
    (firstToken : option string) (p : Pending) :
  newMode p = GlobalConfig →
  coherentP (ts_nodeId (t_state t)) p →
  coherentP (ts_nodeId (t_state t)) (globalConfig t cmd tokens firstToken p).
Proof.
  intros Hm Hp. pose proof Hp as (Hl & Hc). rewrite Hm in Hc. destruct Hc as [Hi Hv].
  assert (Hno : newMode p ≠ InterfaceConfigMode) by by rewrite Hm.
  pose proof (globalConfig_edits t cmd tokens firstToken p) as He.
  unfold globalConfig in *.
  destruct (matchCmd cmd "hostname").
  { destruct (tokens !! 1) as [name|]; [| done]. destruct (Js.truthy name); [| done].
    by apply (coherentP_other _ p). }
  destruct (matchCmd cmd "interface").
  { destruct (tokens !! 1) as [intName|]; [| by apply (coherentP_other _ p)].
    destruct (Js.truthy intName) eqn:Hn; [| by apply (coherentP_other _ p)].
    split; [done |]. cbn. split; [by apply fullInterfaceName_nonempty |]. split; [done |].
    intros n' Hin Hb. apply list_elem_of_fmap in Hin as (n & -> & Hin).
    destruct (isBound (ts_nodeId (t_state t)) n) eqn:Hbn.
    - apply ensureInterface_answers.
    - congruence. }
  case_bool_decide.
  { destruct (negb _); [by apply (coherentP_other _ p) |].
    destruct (Js.parseIntOpt _) as [vid|]; [| by apply (coherentP_other _ p)].
    split; [done |]. cbn. split; [done |].
    intros n' Hin Hb. apply list_elem_of_fmap in Hin as (n & -> & Hin).
    destruct (isBound (ts_nodeId (t_state t)) n) eqn:Hbn; [| congruence].
    unfold hasVlan. cbn.
    destruct (hasVlanName (vlanTable (node_data n)) vid) eqn:Hname; cbn [negb]; [done |].
    unfold hasVlanName. by rewrite lookup_insert_eq. }
  destruct (matchCmd cmd "ip routing"); [by apply (coherentP_other _ p) |].
  destruct (negb _); by apply (coherentP_other _ p).
Qed.

Lemma finish_coherent (t1 : Terminal) (cmdRaw : string) (newHistory : list string)
    (p : Pending) :
  Coherent t1 → coherentP (ts_nodeId (t_state t1)) p →
  Coherent (next (finish t1 cmdRaw newHistory p)).
Proof. intros H1 Hp. unfold finish. by destruct (shouldClose p). Qed.

Lemma handleCommand_coherent (edges : list Edge) (t : Terminal) :
  Coherent t → Coherent (next (run edges t)).
Proof.
  intros Ht. unfold handleCommand.
  set (cmd := Js.trim (t_input t)).
  set (p := mkPending _ _ _ _ _ _ _ _).
  assert (Hp : coherentP (ts_nodeId (t_state t)) p) by exact Ht.
  assert (H1 : Coherent (withHistoryIdx (-1) t)) by exact Ht.
  destruct (String.eqb cmd ""); [done |].
  destruct (String.eqb cmd "exit").
  { apply finish_coherent; [done |];
      change (ts_nodeId (t_state (withHistoryIdx (-1) t))) with (ts_nodeId (t_state t)). destruct Ht as [Hl Hm].
    unfold coherentP, exitCommand. destruct (ts_mode (t_state t)) eqn:Em; try done.
    - split; [done |]. cbn. by destruct Hm as (_ & ? & _).
    - split; [done |]. cbn. by destruct Hm as (? & _). }
  destruct (String.eqb cmd "end"); [by apply finish_coherent |].
  destruct (_ || _); [by apply finish_coherent |].
  destruct (_ || _); [done |].
  case_bool_decide.
  { apply finish_coherent; [done |];
      change (ts_nodeId (t_state (withHistoryIdx (-1) t))) with (ts_nodeId (t_state t)).
    destruct (doCommand_context edges t cmd p) as [Hm Hc].
    apply (coherentP_same _ p); try done.
    - exact (doCommand_edits _ _ _ _ edges t cmd p).
    - intros _. apply doCommand_answering. }
  destruct (ts_mode (t_state t)) eqn:Em.
  - apply finish_coherent; [done |];
      change (ts_nodeId (t_state (withHistoryIdx (-1) t))) with (ts_nodeId (t_state t)).
    destruct (userExec_context edges t cmd (Js.splitWs cmd) p) as [[Hm|Hm] (Hi & Hv & Hl)];
      unfold coherentP; rewrite Hm, Hi, Hv, Hl, userExec_edits;
      unfold coherentP in Hp; cbn in Hp |- *; exact Hp.
  - pose proof (privilegedExec_context edges t (withHistoryIdx (-1) t) cmd
                  (Js.toLowerCase <$> Js.splitWs cmd !! 0) p) as Hc.
    pose proof (privilegedExec_edits localeCompare runningConfigText vlanBriefText
                  ipIntBriefText edges t (withHistoryIdx (-1) t) cmd
                  (Js.toLowerCase <$> Js.splitWs cmd !! 0) p eq_refl) as He.
    destruct (privilegedExec _ _ _ _ _ _ _ _ _ _) as [o|p'].
    + subst o. exact Ht.
    + apply finish_coherent; [done |];
      change (ts_nodeId (t_state (withHistoryIdx (-1) t))) with (ts_nodeId (t_state t)). destruct Hc as [[Hm|Hm] (Hi & Hv & Hl)].
      * by apply (coherentP_other _ p).
      * unfold coherentP. rewrite Hm, Hi, Hv, Hl.
        assert (Hg : coherent (ts_nodeId (t_state t)) GlobalConfig (p_contextInt p)
                       (p_contextVlan p) (p_contextLine p) (p_nodes p)).
        { unfold coherentP in Hp. cbn in Hp |- *. exact Hp. }
        by eapply coherent_edits.
  - apply finish_coherent; [done |];
      change (ts_nodeId (t_state (withHistoryIdx (-1) t))) with (ts_nodeId (t_state t)). by apply globalConfig_coherent.
  - apply finish_coherent; [done |];
      change (ts_nodeId (t_state (withHistoryIdx (-1) t))) with (ts_nodeId (t_state t)).
    destruct (interfaceConfig_context edges t cmd p) as [Hm Hc].
    apply (coherentP_same _ p); try done.
    + exact (interfaceConfig_edits _ edges t cmd p).
    + intros _. exact (interfaceConfig_answering edges t cmd p).
  - apply finish_coherent; [done |];
      change (ts_nodeId (t_state (withHistoryIdx (-1) t))) with (ts_nodeId (t_state t)).
    destruct (vlanConfig_context t cmd (Js.splitWs cmd) (Js.toLowerCase <$> Js.splitWs cmd !! 0) p)
      as [Hm Hc].
    apply (coherentP_other _ p); try done. exact (vlanConfig_edits t cmd _ _ p).
  - by apply finish_coherent.
Qed.

End Coherence.

Section CoherenceOfEvents.

Variable localeCompare : string → string → Z.
Variable runningConfigText : NetworkNode → string.
Variable vlanBriefText : NetworkNode → string.
Variable ipIntBriefText : NetworkNode → list Edge → string.

Local Abbreviation event :=
  (handleEvent localeCompare runningConfigText vlanBriefText ipIntBriefText).
Local Abbreviation events :=
  (handleEvents localeCompare runningConfigText vlanBriefText ipIntBriefText).

Lemma arrowUp_coherent (t : Terminal) : Coherent t → Coherent (arrowUp t).
Proof. unfold arrowUp. by destruct (0 <? _)%Z. Qed.

Lemma arrowDown_coherent (t : Terminal) : Coherent t → Coherent (arrowDown t).
Proof. unfold arrowDown. by destruct (0 <? _)%Z. Qed.

Lemma tabKey_coherent (t : Terminal) : Coherent t → Coherent (tabKey t).
Proof. unfold tabKey. destruct (List.find _ _) as [c|]; [destruct (Js.truthy c) |]; done. Qed.

Lemma handleEvent_coherent (edges : list Edge) (w : Window) (ev : Event) :
  Coherent (w_term w) → Coherent (w_term (event edges w ev)).
Proof.
  intros Hw. destruct ev as [key| | | | |]; simpl.
  - destruct (listening _); [| done]. destruct key; simpl; try done.
    + by apply tabKey_coherent.
    + by apply arrowUp_coherent.
    + by apply arrowDown_coherent.
    + by apply handleCommand_coherent.
  - by destruct (listening _).
  - by destruct (ts_isOpen _).
  - destruct (w_timer w); [| done]. simpl. destruct Hw as [Hl Hm]. split; [done |].
    cbn. destruct (ts_mode (t_state (w_term w))); done.
  - by destruct (Js.truthy _).
  - done.
Qed.

(** X18: the context follows the mode.  In a terminal that starts without
    a context, after any sequence of events: the mode is never line
    configuration and the line context is empty; in interface
    configuration the interface context is a name, not empty, under which
    the table of interfaces of every device the terminal is bound to
    answers (with a record, or with a member it inherits), so that the test
    of [updateInt] passes and every command of that mode writes; in VLAN
    configuration the
    VLAN context has a name on each of these devices; in every other mode
    the interface context is empty and the VLAN context zero. *)
Theorem context_follows_mode (edges : list Edge) (w : Window) (evs : list Event) :
  Coherent (w_term w) → Coherent (w_term (events edges w evs)).
Proof.
  revert w. induction evs as [|ev evs IH]; intros w Hw; [done |].
  change (events edges w (ev :: evs)) with (events edges (event edges w ev) evs).
  by apply IH, handleEvent_coherent.
Qed.

End CoherenceOfEvents.

(** ** The links as the canvas draws them ([visibleEdges]) *)

(** [n.data.floor === currentFloor || !n.data.floor]. *)
Definition onFloor (currentFloor : string) (n : NetworkNode) : bool :=
  bool_decide (d_floor (node_data n) = Some currentFloor)
  || negb (Js.truthy (default "" (d_floor (node_data n)))).

Definition visibleNodes (nodes : list NetworkNode) (currentFloor : string)
  : list NetworkNode :=
  filter (fun n => onFloor currentFloor n = true) nodes.

(** [Object.values(node?.data.interfaces || {}).some(i => i.shutdown)]: the
    own entries, a record without the flag counting as not shut down. *)
Definition anyShutdown (node : option NetworkNode) : bool :=
  match node with
  | Some n =>
      existsb (fun kc => default false (if_shutdown kc.2)) (map_to_list (interfacesOf n))
  | None => false
  end.

Definition isShutdown (nodes : list NetworkNode) (e : Edge) : bool :=
  anyShutdown (findNode nodes (edge_source e))
  || anyShutdown (findNode nodes (edge_target e)).

(** [a || b] on VLAN tags: the first that is a number other than zero. *)
Definition firstTag (a b : option Z) : option Z :=
  match a with
  | Some v => if (v =? 0)%Z then b else a
  | None => b
  end.

Definition tagOf (node : option NetworkNode) : option Z :=
  node ≫= fun n => d_assignedVlan (node_data n).

Definition tagTruthy (v : option Z) : bool :=
  match v with
  | Some x => negb (x =? 0)%Z
  | None => false
  end.

(** The stroke, its width and its dashes. *)
Definition linkStyle (showTraffic : bool) (nodes : list NetworkNode) (e : Edge)
  : string * Z * string :=
  let sourceNode := findNode nodes (edge_source e) in
  let targetNode := findNode nodes (edge_target e) in
  let shut := isShutdown nodes e in
  let stroke := if shut then "#ef4444" else "#3b82f6" in
  let strokeDasharray := if shut then "5 5" else "" in
  if showTraffic && negb shut then
    let vlan := firstTag (tagOf sourceNode) (tagOf targetNode) in
    let stroke' :=
      if bool_decide (vlan = Some 10%Z) then "#f97316"
      else if bool_decide (vlan = Some 20%Z) then "#a855f7"
      else if bool_decide (vlan = Some 30%Z) then "#ec4899"
      else if bool_decide (vlan = Some 99%Z) then "#ef4444"
      else stroke in
    (stroke', if tagTruthy vlan then 3%Z else 2%Z, strokeDasharray)
  else (stroke, 2%Z, strokeDasharray).

(** [visibleEdges]: the links between devices that are shown, each with
    its style. *)
Definition visibleEdges (showTraffic : bool) (nodes : list NetworkNode) (edges : list Edge)
    (currentFloor : string) : list (Edge * (string * Z * string)) :=
  let nodeIds : gset string := list_to_set (map node_id (visibleNodes nodes currentFloor)) in
  map (fun e => (e, linkStyle showTraffic nodes e))
    (filter (fun e => edge_source e ∈ nodeIds ∧ edge_target e ∈ nodeIds) edges).

Lemma findNode_map (f : NetworkNode → NetworkNode) (nds : list NetworkNode) (id : string) :
  (∀ n, node_id (f n) = node_id n) →
  findNode (map f nds) id = f <$> findNode nds id.
Proof.
  intros Hf. unfold findNode. induction nds as [|n nds IH]; [done |]. simpl.
  rewrite Hf. by destruct (String.eqb (node_id n) id).
Qed.

Lemma anyShutdown_record (n : NetworkNode) (k : string) (c : InterfaceConfig) :
  interfacesOf n !! k = Some c → if_shutdown c = Some true → anyShutdown (Some n) = true.
Proof.
  intros Hk Hc. simpl. apply existsb_exists. exists (k, c). split; [| cbn; by rewrite Hc].
  apply list_elem_of_In, elem_of_map_to_list. done.
Qed.

Lemma isShutdown_endpoint (nodes : list NetworkNode) (e : Edge) (id : string)
    (n : NetworkNode) :
  findNode nodes id = Some n → anyShutdown (Some n) = true →
  edge_source e = id ∨ edge_target e = id → isShutdown nodes e = true.
Proof.
  intros Hn Hs [He|He]; unfold isShutdown; rewrite He, Hn, Hs; [done | apply orb_true_r].
Qed.

Lemma linkStyle_shutdown (showTraffic : bool) (nodes : list NetworkNode) (e : Edge) :
  isShutdown nodes e = true → linkStyle showTraffic nodes e = ("#ef4444", 2%Z, "5 5").
Proof. intros H. unfold linkStyle. rewrite H, andb_false_r. done. Qed.

Section Shutdown.

Variable localeCompare : string → string → Z.
Variable runningConfigText : NetworkNode → string.
Variable vlanBriefText : NetworkNode → string.
Variable ipIntBriefText : NetworkNode → list Edge → string.

Local Abbreviation run :=
  (handleCommand localeCompare runningConfigText vlanBriefText ipIntBriefText).

(** X19: [shutdown] on one interface and the whole device looks cut off.
    In interface configuration, on a bound device that has the record of
    the current interface, a line that matches [shutdown] sets the flag of
    that record and of no other; from then on the canvas draws every link
    that touches the device, whatever its port, as shut down: red, dashed,
    and not coloured by VLAN.  The answer starts with a per cent sign, so
    the accepted line is sent for a fix all the same. *)
Theorem shutdown_marks_every_link (edges : list Edge) (t : Terminal) (id : string)
    (n : NetworkNode) (c : InterfaceConfig) :
  ts_mode (t_state t) = InterfaceConfigMode →
  matchCmd (Js.trim (t_input t)) "shutdown" = true →
  ts_nodeId (t_state t) = Some id →
  findNode (t_nodes t) id = Some n →
  interfacesOf n !! t_contextInt t = Some c →
  (∃ n', findNode (t_nodes (next (run edges t))) id = Some n' ∧
         interfacesOf n' = <[t_contextInt t := withShutdown true c]> (interfacesOf n)) ∧
  (∀ showTraffic links currentFloor e style,
     (e, style) ∈ visibleEdges showTraffic (t_nodes (next (run edges t))) links currentFloor →
     edge_source e = id ∨ edge_target e = id →
     style = ("#ef4444", 2%Z, "5 5")) ∧
  aiFix (run edges t) =
    Some (t_input t, "%LINK-5-CHANGED: Interface " +:+ t_contextInt t
                       +:+ ", changed state to administratively down").
Proof.
  intros Hmode Hm Hid Hn Hc. rewrite (shutdown_dispatch _ _ _ _ edges t Hmode Hm).
  cbn [finish shouldClose respond setNodes next t_nodes p_nodes response aiFix].
  assert (Hn' : ∃ n', findNode (updateInt (ts_nodeId (t_state t)) (t_contextInt t)
                                  (withShutdown true) (t_nodes t)) id = Some n' ∧
                  interfacesOf n' = <[t_contextInt t := withShutdown true c]> (interfacesOf n)).
  { unfold updateInt. rewrite findNode_map, Hn.
    - simpl. eexists. split; [reflexivity |].
      assert (Hb : isBound (ts_nodeId (t_state t)) n = true).
      { rewrite Hid. simpl. apply find_some in Hn as [_ Hn]. exact Hn. }
      rewrite Hb. unfold interfacesOf, tableOf in Hc |- *.
      destruct (d_interfaces (node_data n)) as [ifs|]; [| done]. simpl in Hc |- *.
      rewrite (member_own ifs (t_contextInt t)) by by exists c.
      cbn. rewrite Hc. cbn. by rewrite (assign_replace _ _ c).
    - intros m. destruct (isBound _ m); [| done].
      destruct (d_interfaces (node_data m)) as [ifs|]; [| done].
      by destruct (member ifs (t_contextInt t)). }
  split; [exact Hn' |]. split; [| reflexivity].
  destruct Hn' as (n' & Hf & Hi).
  assert (Hs : anyShutdown (Some n') = true).
  { apply (anyShutdown_record n' (t_contextInt t) (withShutdown true c)); [| done].
    by rewrite Hi, lookup_insert_eq. }
  intros showTraffic links currentFloor e style Hin He.
  unfold visibleEdges in Hin. apply list_elem_of_In, in_map_iff in Hin as (e' & [= -> <-] & _).
  apply linkStyle_shutdown. by eapply isShutdown_endpoint.
Qed.

End Shutdown.

(** ** Completion by the tabulator *)

Lemma startsWith_refl (s : string) : Js.startsWith s s = true.
Proof. apply startsWith_prefix. exists "". by rewrite app_empty_r. Qed.

Lemma app_assoc' (a b c : string) : (a +:+ b) +:+ c = a +:+ (b +:+ c).
Proof. induction a as [|x a IH]; [done |]. by rewrite !app_cons, IH. Qed.

Lemma completed_is_final (c : string) :
  c ∈ tabCommands →
  List.find (fun c' => Js.startsWith c' (c +:+ " ")) tabCommands = None.
Proof.
  intros Hc. unfold tabCommands in Hc.
  repeat (apply elem_of_cons in Hc as [->|Hc]; [by vm_compute |]).
  by apply elem_of_nil in Hc.
Qed.

(** The element [find] returns is the first that passes the test. *)
Lemma find_is_first {A} (f : A → bool) (l : list A) (x : A) :
  List.find f l = Some x →
  ∃ i, l !! i = Some x ∧ f x = true ∧ ∀ j y, j < i → l !! j = Some y → f y = false.
Proof.
  induction l as [|a l IH]; [done |]. simpl. destruct (f a) eqn:Ha.
  - intros [= <-]. exists 0. split; [done |]. split; [done |]. intros j y Hj. lia.
  - intros Hx. destruct (IH Hx) as (i & Hi & Hfx & Hbefore).
    exists (S i). split; [done |]. split; [done |].
    intros [|j] y Hj; simpl; [by intros [= <-] | apply Hbefore; lia].
Qed.

(** X20: the tabulator completes a prefix.  It changes the input alone.
    When no command of the list starts with the input, nothing changes;
    otherwise the input becomes the first command of the list that starts
    with it, with a space added, whatever commands after it in the list
    start with it too.  What was typed is a prefix of the result, and
    pressing the key again changes nothing. *)
Theorem tabKey_completes (t : Terminal) :
  tabKey t = withInput (t_input (tabKey t)) t ∧
  ((∀ c, c ∈ tabCommands → Js.startsWith c (t_input t) = false) ∧
   t_input (tabKey t) = t_input t
   ∨
   ∃ i c, tabCommands !! i = Some c ∧ Js.startsWith c (t_input t) = true ∧
          (∀ j c', j < i → tabCommands !! j = Some c' →
                   Js.startsWith c' (t_input t) = false) ∧
          t_input (tabKey t) = c +:+ " ") ∧
  Js.startsWith (t_input (tabKey t)) (t_input t) = true ∧
  tabKey (tabKey t) = tabKey t.
Proof.
  destruct (List.find (fun c => Js.startsWith c (t_input t)) tabCommands) as [c|] eqn:Hfind.
  - pose proof Hfind as Hsome. destruct (find_is_first _ _ _ Hfind) as (i & Hi & Hpre & Hbefore).
    assert (Hin : c ∈ tabCommands) by by eapply list_elem_of_lookup_2.
    assert (Hc : Js.truthy c = true).
    { unfold tabCommands in Hin.
      repeat (apply elem_of_cons in Hin as [->|Hin]; [done |]). by apply elem_of_nil in Hin. }
    assert (Hk : tabKey t = withInput (c +:+ " ") t) by (unfold tabKey; by rewrite Hsome, Hc).
    rewrite !Hk. pose proof Hpre as [rest Hrest]%startsWith_prefix.
    cbn [t_input withInput]. split; [done |].
    split; [right; by exists i, c |]. split.
    + apply startsWith_prefix. exists (rest +:+ " "). by rewrite Hrest, app_assoc'.
    + unfold tabKey. cbn [t_input withInput]. by rewrite completed_is_final.
  - assert (Hk : tabKey t = t) by (unfold tabKey; by rewrite Hfind).
    rewrite !Hk. split; [by destruct t |].
    split; [left; split; [by apply find_none_iff | done] |].
    split; [apply startsWith_refl | done].
Qed.

(** ** The hints of the missions, typed in *)

(** Mission 2, "Assign Ports". *)
Definition checkAssignPorts (nodes : list NetworkNode) : bool :=
  existsb (fun n => bool_decide (d_assignedVlan (node_data n) = Some 10%Z)) nodes
  && existsb (fun n => bool_decide (d_assignedVlan (node_data n) = Some 20%Z)) nodes.

(** The far end of a link of the device. *)
Definition farEnd (nodeId : option string) (e : Edge) : string :=
  if bool_decide (Some (edge_source e) = nodeId) then edge_target e else edge_source e.

Section Hints.

Variable localeCompare : string → string → Z.
Variable runningConfigText : NetworkNode → string.
Variable vlanBriefText : NetworkNode → string.
Variable ipIntBriefText : NetworkNode → list Edge → string.

Local Abbreviation run :=
  (handleCommand localeCompare runningConfigText vlanBriefText ipIntBriefText).
Local Abbreviation events :=
  (handleEvents localeCompare runningConfigText vlanBriefText ipIntBriefText).

(** A line typed and entered. *)
Definition typeLine (line : string) : list Event := [Change line; KeyDown Enter].

Definition enter (edges : list Edge) (line : string) (t : Terminal) : Terminal :=
  next (run edges (withInput line t)).

Lemma typeLine_runs (edges : list Edge) (w : Window) (line : string) (evs : list Event) :
  listening (w_term w) = true →
  ∃ w', w_term w' = enter edges line (w_term w) ∧
        events edges w (typeLine line ++ evs) = events edges w' evs.
Proof.
  intros Hl. eexists (mkWindow _ _). split; [reflexivity |].
  unfold handleEvents, typeLine. cbn [app foldl handleEvent].
  rewrite Hl. cbn [w_term].
  change (listening (withInput line (w_term w))) with (listening (w_term w)).
  rewrite Hl. reflexivity.
Qed.

(** What the next line finds when a line only changed the mode. *)
Definition movedTo (m : Mode) (t t' : Terminal) : Prop :=
  ts_mode (t_state t') = m ∧ ts_nodeId (t_state t') = ts_nodeId (t_state t) ∧
  listening t' = listening t ∧ t_nodes t' = t_nodes t ∧
  t_contextInt t' = t_contextInt t ∧ t_contextVlan t' = t_contextVlan t ∧
  t_contextLine t' = t_contextLine t.

Lemma enable_moves (edges : list Edge) (t : Terminal) :
  ts_mode (t_state t) = UserExec → movedTo PrivilegedExec t (enter edges "enable" t).
Proof.
  intros Hm. unfold enter, handleCommand. cbn [t_input withInput t_state].
  rewrite Hm. by repeat split.
Qed.

Lemma confT_moves (edges : list Edge) (t : Terminal) :
  ts_mode (t_state t) = PrivilegedExec → movedTo GlobalConfig t (enter edges "conf t" t).
Proof.
  intros Hm. unfold enter, handleCommand. cbn [t_input withInput t_state].
  rewrite Hm. by repeat split.
Qed.

Lemma exit_moves (edges : list Edge) (t : Terminal) :
  ts_mode (t_state t) = VlanConfig →
  ts_mode (t_state (enter edges "exit" t)) = GlobalConfig ∧
  ts_nodeId (t_state (enter edges "exit" t)) = ts_nodeId (t_state t) ∧
  listening (enter edges "exit" t) = listening t ∧
  t_nodes (enter edges "exit" t) = t_nodes t.
Proof.
  intros Hm. unfold enter, handleCommand. cbn [t_input withInput t_state].
  rewrite Hm. by repeat split.
Qed.

Lemma isSwitch_found (nodes : list NetworkNode) (nodeId : option string) (n : NetworkNode) :
  getNode nodes nodeId = Some n →
  d_type (node_data n) = SWITCH_L2 ∨ d_type (node_data n) = SWITCH_L3 →
  match getNode nodes nodeId with
  | Some n => Js.includes (deviceTypeText (d_type (node_data n))) "SWITCH"
  | None => false
  end = true.
Proof. intros -> Hk. by apply isSwitch_kind. Qed.

(** [vlan <id>] on a switch, its number read. *)
Lemma vlan_moves (edges : list Edge) (t : Terminal) (line : string) (n : NetworkNode)
    (vid : Z) :
  ts_mode (t_state t) = GlobalConfig →
  Js.toLowerCase <$> Js.splitWs (Js.trim line) !! 0 = Some "vlan" →
  Js.parseIntOpt (Js.splitWs (Js.trim line) !! 1) = Some vid →
  getNode (t_nodes t) (ts_nodeId (t_state t)) = Some n →
  d_type (node_data n) = SWITCH_L2 ∨ d_type (node_data n) = SWITCH_L3 →
  ts_mode (t_state (enter edges line t)) = VlanConfig ∧
  ts_nodeId (t_state (enter edges line t)) = ts_nodeId (t_state t) ∧
  listening (enter edges line t) = listening t ∧
  t_nodes (enter edges line t) = createVlan (ts_nodeId (t_state t)) vid (t_nodes t) ∧
  t_contextVlan (enter edges line t) = vid.
Proof.
  intros Hm Hft Hvid Hn Hk. unfold enter.
  rewrite (vlan_dispatch _ _ _ _ edges (withInput line t) Hm Hft).
  cbv zeta. cbn [t_input t_nodes t_state withInput].
  rewrite (isSwitch_found _ _ _ Hn Hk), Hvid. by repeat split.
Qed.

(** [name <text>] in VLAN configuration. *)
Lemma name_moves (edges : list Edge) (t : Terminal) (line name : string) :
  ts_mode (t_state t) = VlanConfig →
  matchCmd (Js.trim line) "name" = true →
  Js.splitWs (Js.trim line) !! 1 = Some name → Js.truthy name = true →
  ts_mode (t_state (enter edges line t)) = VlanConfig ∧
  ts_nodeId (t_state (enter edges line t)) = ts_nodeId (t_state t) ∧
  listening (enter edges line t) = listening t ∧
  t_nodes (enter edges line t)
    = renameVlan (ts_nodeId (t_state t)) (t_contextVlan t) name (t_nodes t) ∧
  t_contextVlan (enter edges line t) = t_contextVlan t.
Proof.
  intros Hmode Hm Hname Htruthy.
  assert (Hparts : ∃ ta more, inputParts (Js.trim line) = String "n" ta :: more).
  { apply matchCmd_tokens in Hm as [Hlen H].
    change (targetParts "name") with ["name"] in Hlen, H.
    destruct (inputParts (Js.trim line)) as [|x0 more]; simpl in Hlen; [lia |].
    destruct (H 0 x0 _ eq_refl eq_refl) as [N0 [r0 E0]].
    destruct (prefix_head _ _ _ _ N0 E0) as [ta ->]. by exists ta, more. }
  destruct Hparts as (ta & more & Hparts).
  assert (Hft : Js.toLowerCase <$> Js.splitWs (Js.trim line) !! 0
                = Some (String "n" ta)).
  { by rewrite <- inputParts_firstToken, Hparts. }
  unfold enter, handleCommand. cbn [t_input t_nodes t_state withInput]. rewrite Hmode, Hft.
  remember (Js.trim line) as cmd eqn:Ecmd.
  destruct (String.eqb_spec cmd "") as [->|_]; [by vm_compute in Hm |].
  destruct (String.eqb_spec cmd "exit") as [->|_]; [by vm_compute in Hm |].
  destruct (String.eqb_spec cmd "end") as [->|_]; [by vm_compute in Hm |].
  destruct (String.eqb_spec cmd "?") as [->|_]; [by vm_compute in Hm |].
  destruct (String.eqb_spec cmd "help") as [->|_]; [by vm_compute in Hm |].
  destruct (String.eqb_spec cmd "clear") as [->|_]; [by vm_compute in Hm |].
  destruct (String.eqb_spec cmd "cls") as [->|_]; [by vm_compute in Hm |].
  cbn [orb]. rewrite bool_decide_false by discriminate.
  unfold vlanConfig. rewrite Hm, Hname, Htruthy. by repeat split.
Qed.

Lemma getNode_map (f : NetworkNode → NetworkNode) (nds : list NetworkNode)
    (nodeId : option string) :
  (∀ n, node_id (f n) = node_id n) →
  getNode (map f nds) nodeId = f <$> getNode nds nodeId.
Proof.
  intros Hf. unfold getNode. induction nds as [|n nds IH]; [done |]. simpl.
  assert (Hb : isBound nodeId (f n) = isBound nodeId n)
    by (unfold isBound; by rewrite Hf).
  rewrite Hb. by destruct (isBound nodeId n).
Qed.

Lemma getNode_bound (nds : list NetworkNode) (nodeId : option string) (n : NetworkNode) :
  getNode nds nodeId = Some n → n ∈ nds ∧ isBound nodeId n = true.
Proof. intros H. apply find_some in H as [Hin Hb]. by apply list_elem_of_In in Hin. Qed.

Lemma getNode_createVlan (nds : list NetworkNode) (nodeId : option string)
    (n : NetworkNode) (vid : Z) :
  getNode nds nodeId = Some n →
  ∃ n', getNode (createVlan nodeId vid nds) nodeId = Some n' ∧
        d_type (node_data n') = d_type (node_data n) ∧
        hasVlan n' vid = true ∧
        (∀ v name, v ≠ vid → d_vlanDb (node_data n) ≫= (.!! v) = Some name →
                   d_vlanDb (node_data n') ≫= (.!! v) = Some name).
Proof.
  intros Hn. destruct (getNode_bound _ _ _ Hn) as [_ Hb].
  unfold createVlan. rewrite getNode_map, Hn.
  - simpl. rewrite Hb. eexists. split; [reflexivity |]. split; [done |]. split.
    + unfold hasVlan. cbn.
      destruct (hasVlanName (vlanTable (node_data n)) vid) eqn:Hname; cbn [negb]; [done |].
      unfold hasVlanName. by rewrite lookup_insert_eq.
    + intros v name Hv Hl. cbn. unfold vlanTable.
      destruct (d_vlanDb (node_data n)) as [db|]; [| done]. simpl in Hl |- *.
      destruct (negb _); [by rewrite lookup_insert_ne | done].
  - intros m. by destruct (isBound nodeId m).
Qed.

Lemma getNode_renameVlan (nds : list NetworkNode) (nodeId : option string)
    (n : NetworkNode) (contextVlan : Z) (name : string) :
  getNode nds nodeId = Some n → hasVlan n contextVlan = true →
  ∃ n', getNode (renameVlan nodeId contextVlan name nds) nodeId = Some n' ∧
        d_type (node_data n') = d_type (node_data n) ∧
        d_vlanDb (node_data n') ≫= (.!! contextVlan) = Some name ∧
        (∀ v name', v ≠ contextVlan → d_vlanDb (node_data n) ≫= (.!! v) = Some name' →
                    d_vlanDb (node_data n') ≫= (.!! v) = Some name').
Proof.
  intros Hn Hv. destruct (getNode_bound _ _ _ Hn) as [_ Hb].
  unfold renameVlan. rewrite getNode_map, Hn.
  - simpl. rewrite Hb. unfold hasVlan in Hv.
    destruct (d_vlanDb (node_data n)) as [db|]; [| done].
    eexists. split; [reflexivity |]. split; [done |]. split.
    + cbn. by rewrite lookup_insert_eq.
    + intros v name' Hne Hl. cbn in Hl |- *. by rewrite lookup_insert_ne.
  - intros m. destruct (isBound nodeId m); [| done].
    by destruct (d_vlanDb (node_data m)).
Qed.

Lemma existsb_found (f : NetworkNode → bool) (nds : list NetworkNode)
    (nodeId : option string) (n : NetworkNode) :
  getNode nds nodeId = Some n → f n = true → existsb f nds = true.
Proof.
  intros Hn Hf. destruct (getNode_bound _ _ _ Hn) as [Hin _].
  apply existsb_exists. exists n. split; [by apply list_elem_of_In | done].
Qed.

Lemma named_hasVlan (n : NetworkNode) (vid : Z) (name : string) :
  d_vlanDb (node_data n) ≫= (.!! vid) = Some name → Js.truthy name = true →
  hasVlan n vid = true.
Proof.
  unfold hasVlan, hasVlanName. destruct (d_vlanDb (node_data n)) as [db|]; [| done].
  simpl. by intros ->.
Qed.

(** X21: the hints work.  On a terminal that listens, bound to an L2 or
    L3 switch: from user EXEC, the lines [enable], [conf t], [vlan 10] of
    the hint of mission 1 make its VLAN step pass; from global
    configuration, the lines [vlan 10], [name Sales], [exit], [vlan 20],
    [name Eng] of mission 2 make its VLAN step pass, with VLAN 10 named
    Sales and VLAN 20 named Eng on the switch. *)
Theorem vlan_hints_pass (edges : list Edge) (w : Window) (n : NetworkNode) :
  listening (w_term w) = true →
  getNode (t_nodes (w_term w)) (ts_nodeId (t_state (w_term w))) = Some n →
  d_type (node_data n) = SWITCH_L2 ∨ d_type (node_data n) = SWITCH_L3 →
  (ts_mode (t_state (w_term w)) = UserExec →
   checkVlanSetup
     (t_nodes (w_term (events edges w
        (typeLine "enable" ++ typeLine "conf t" ++ typeLine "vlan 10")))) = true) ∧
  (ts_mode (t_state (w_term w)) = GlobalConfig →
   checkVlanConfiguration
     (t_nodes (w_term (events edges w
        (typeLine "vlan 10" ++ typeLine "name Sales" ++ typeLine "exit"
           ++ typeLine "vlan 20" ++ typeLine "name Eng")))) = true ∧
   ∃ n', getNode
           (t_nodes (w_term (events edges w
              (typeLine "vlan 10" ++ typeLine "name Sales" ++ typeLine "exit"
                 ++ typeLine "vlan 20" ++ typeLine "name Eng"))))
           (ts_nodeId (t_state (w_term w))) = Some n' ∧
         d_vlanDb (node_data n') ≫= (.!! 10%Z) = Some "Sales" ∧
         d_vlanDb (node_data n') ≫= (.!! 20%Z) = Some "Eng").
Proof.
  intros Hl Hn Hk. split; intros Hm.
  - destruct (typeLine_runs edges w "enable" (typeLine "conf t" ++ typeLine "vlan 10") Hl)
      as (w1 & Hw1 & ->).
    destruct (enable_moves edges (w_term w) Hm) as (Hm1 & Hid1 & Hl1 & Hn1 & _).
    rewrite <- Hw1 in Hm1, Hid1, Hl1, Hn1. rewrite Hl in Hl1.
    destruct (typeLine_runs edges w1 "conf t" (typeLine "vlan 10") Hl1) as (w2 & Hw2 & ->).
    destruct (confT_moves edges (w_term w1) Hm1) as (Hm2 & Hid2 & Hl2 & Hn2 & _).
    rewrite <- Hw2 in Hm2, Hid2, Hl2, Hn2. rewrite Hl1 in Hl2.
    rewrite <- (app_nil_r (typeLine "vlan 10")).
    destruct (typeLine_runs edges w2 "vlan 10" [] Hl2) as (w3 & Hw3 & ->).
    assert (Hn2' : getNode (t_nodes (w_term w2)) (ts_nodeId (t_state (w_term w2))) = Some n)
      by (by rewrite Hn2, Hid2, Hn1, Hid1).
    destruct (vlan_moves edges (w_term w2) "vlan 10" n 10 Hm2 eq_refl eq_refl Hn2' Hk)
      as (_ & _ & _ & Hn3 & _).
    rewrite <- Hw3 in Hn3. cbn [handleEvents foldl]. rewrite Hn3.
    destruct (getNode_createVlan _ _ n 10 Hn2') as (n' & Hn' & _ & Hv & _).
    by eapply existsb_found.
  - destruct (typeLine_runs edges w "vlan 10"
                (typeLine "name Sales" ++ typeLine "exit" ++ typeLine "vlan 20"
                   ++ typeLine "name Eng") Hl) as (w1 & Hw1 & ->).
    destruct (vlan_moves edges (w_term w) "vlan 10" n 10 Hm eq_refl eq_refl Hn Hk)
      as (Hm1 & Hid1 & Hl1 & Hn1 & Hv1).
    rewrite <- Hw1 in Hm1, Hid1, Hl1, Hn1, Hv1. rewrite Hl in Hl1.
    destruct (getNode_createVlan _ _ n 10 Hn) as (n1 & Hg1 & Hk1 & Hh1 & _).
    rewrite <- Hn1, <- Hid1 in Hg1.
    destruct (typeLine_runs edges w1 "name Sales"
                (typeLine "exit" ++ typeLine "vlan 20" ++ typeLine "name Eng") Hl1)
      as (w2 & Hw2 & ->).
    destruct (name_moves edges (w_term w1) "name Sales" "Sales" Hm1 eq_refl eq_refl eq_refl)
      as (Hm2 & Hid2 & Hl2 & Hn2 & Hv2).
    rewrite <- Hw2 in Hm2, Hid2, Hl2, Hn2, Hv2. rewrite Hl1 in Hl2. rewrite Hv1 in Hn2.
    destruct (getNode_renameVlan _ _ n1 10 "Sales" Hg1 Hh1) as (n2 & Hg2 & Hk2 & Hs2 & _).
    rewrite <- Hn2, <- Hid2 in Hg2.
    destruct (typeLine_runs edges w2 "exit" (typeLine "vlan 20" ++ typeLine "name Eng") Hl2)
      as (w3 & Hw3 & ->).
    destruct (exit_moves edges (w_term w2) Hm2) as (Hm3 & Hid3 & Hl3 & Hn3).
    rewrite <- Hw3 in Hm3, Hid3, Hl3, Hn3. rewrite Hl2 in Hl3.
    rewrite <- Hn3, <- Hid3 in Hg2.
    assert (Hk3 : d_type (node_data n2) = SWITCH_L2 ∨ d_type (node_data n2) = SWITCH_L3)
      by (by rewrite Hk2, Hk1).
    destruct (typeLine_runs edges w3 "vlan 20" (typeLine "name Eng") Hl3) as (w4 & Hw4 & ->).
    destruct (vlan_moves edges (w_term w3) "vlan 20" n2 20 Hm3 eq_refl eq_refl Hg2 Hk3)
      as (Hm4 & Hid4 & Hl4 & Hn4 & Hv4).
    rewrite <- Hw4 in Hm4, Hid4, Hl4, Hn4, Hv4. rewrite Hl3 in Hl4.
    destruct (getNode_createVlan _ _ n2 20 Hg2) as (n4 & Hg4 & _ & Hh4 & Hkeep4).
    rewrite <- Hn4, <- Hid4 in Hg4.
    rewrite <- (app_nil_r (typeLine "name Eng")).
    destruct (typeLine_runs edges w4 "name Eng" [] Hl4) as (w5 & Hw5 & ->).
    destruct (name_moves edges (w_term w4) "name Eng" "Eng" Hm4 eq_refl eq_refl eq_refl)
      as (Hm5 & Hid5 & Hl5 & Hn5 & Hv5).
    rewrite <- Hw5 in Hm5, Hid5, Hl5, Hn5, Hv5. rewrite Hv4 in Hn5.
    destruct (getNode_renameVlan _ _ n4 20 "Eng" Hg4 Hh4) as (n5 & Hg5 & _ & Hs5 & Hkeep5).
    rewrite <- Hn5, <- Hid5 in Hg5.
    cbn [handleEvents foldl].
    assert (H10 : d_vlanDb (node_data n5) ≫= (.!! 10%Z) = Some "Sales")
      by (apply Hkeep5; [done |]; apply Hkeep4; done).
    split.
    + apply (existsb_found _ _ _ n5 Hg5).
      by rewrite (named_hasVlan n5 10 "Sales"), (named_hasVlan n5 20 "Eng").
    + exists n5. split; [| done].
      by rewrite <- Hid1, <- Hid2, <- Hid3, <- Hid4, <- Hid5.
Qed.

(** [interface <name>] in global configuration. *)
Lemma interface_moves (edges : list Edge) (t : Terminal) (line intName : string) :
  ts_mode (t_state t) = GlobalConfig →
  matchCmd (Js.trim line) "hostname" = false →
  matchCmd (Js.trim line) "interface" = true →
  Js.splitWs (Js.trim line) !! 1 = Some intName → Js.truthy intName = true →
  ts_mode (t_state (enter edges line t)) = InterfaceConfigMode ∧
  ts_nodeId (t_state (enter edges line t)) = ts_nodeId (t_state t) ∧
  listening (enter edges line t) = listening t ∧
  t_contextInt (enter edges line t) = fullInterfaceName intName ∧
  t_nodes (enter edges line t)
    = map (fun n => if isBound (ts_nodeId (t_state t)) n
                    then ensureInterface n (fullInterfaceName intName) else n) (t_nodes t).
Proof.
  intros Hmode Hh Hm Hname Htruthy.
  assert (Hparts : ∃ ta more, inputParts (Js.trim line) = String "i" ta :: more).
  { apply matchCmd_tokens in Hm as [Hlen H].
    change (targetParts "interface") with ["interface"] in Hlen, H.
    destruct (inputParts (Js.trim line)) as [|x0 more]; simpl in Hlen; [lia |].
    destruct (H 0 x0 _ eq_refl eq_refl) as [N0 [r0 E0]].
    destruct (prefix_head _ _ _ _ N0 E0) as [ta ->]. by exists ta, more. }
  destruct Hparts as (ta & more & Hparts).
  assert (Hft : Js.toLowerCase <$> Js.splitWs (Js.trim line) !! 0
                = Some (String "i" ta)).
  { by rewrite <- inputParts_firstToken, Hparts. }
  unfold enter, handleCommand. cbn [t_input t_nodes t_state withInput]. rewrite Hmode, Hft.
  remember (Js.trim line) as cmd eqn:Ecmd.
  destruct (String.eqb_spec cmd "") as [->|_]; [by vm_compute in Hm |].
  destruct (String.eqb_spec cmd "exit") as [->|_]; [by vm_compute in Hm |].
  destruct (String.eqb_spec cmd "end") as [->|_]; [by vm_compute in Hm |].
  destruct (String.eqb_spec cmd "?") as [->|_]; [by vm_compute in Hm |].
  destruct (String.eqb_spec cmd "help") as [->|_]; [by vm_compute in Hm |].
  destruct (String.eqb_spec cmd "clear") as [->|_]; [by vm_compute in Hm |].
  destruct (String.eqb_spec cmd "cls") as [->|_]; [by vm_compute in Hm |].
  cbn [orb]. rewrite bool_decide_false by discriminate.
  unfold globalConfig. rewrite Hh, Hm, Hname, Htruthy. by repeat split.
Qed.

(** [switchport access vlan <id>] on a port whose name ends in digits that
    lead to a link. *)
Lemma accessVlan_moves (edges : list Edge) (t : Terminal) (line digits : string)
    (vid port : Z) (targetEdge : Edge) :
  ts_mode (t_state t) = InterfaceConfigMode →
  matchCmd (Js.trim line) "switchport access vlan" = true →
  matchCmd (Js.trim line) "shutdown" = false →
  Js.parseInt (lastWord (Js.trim line)) = Some vid →
  Js.matchTrailingDigits (t_contextInt t) = Some digits →
  Js.parseInt digits = Some port →
  at_ (getSortedEdges localeCompare edges (ts_nodeId (t_state t))) (port - 1)
    = Some targetEdge →
  ts_mode (t_state (enter edges line t)) = InterfaceConfigMode ∧
  ts_nodeId (t_state (enter edges line t)) = ts_nodeId (t_state t) ∧
  listening (enter edges line t) = listening t ∧
  t_nodes (enter edges line t)
    = tagNeighbor (farEnd (ts_nodeId (t_state t)) targetEdge) vid
        (updateInt (ts_nodeId (t_state t)) (t_contextInt t) (withAccessVlan vid) (t_nodes t)).
Proof.
  intros Hmode Hm Hs Hvid Hdigits Hport Hedge. unfold enter.
  rewrite (accessVlan_dispatch _ _ _ _ edges (withInput line t) Hmode Hm Hs).
  cbv zeta. cbn [t_input t_nodes t_state t_contextInt withInput].
  rewrite Hvid. unfold propagateVlan. cbn [t_input t_nodes t_state t_contextInt withInput].
  rewrite Hdigits, Hport, Hedge. by repeat split.
Qed.

Lemma exitInterface_moves (edges : list Edge) (t : Terminal) :
  ts_mode (t_state t) = InterfaceConfigMode →
  ts_mode (t_state (enter edges "exit" t)) = GlobalConfig ∧
  ts_nodeId (t_state (enter edges "exit" t)) = ts_nodeId (t_state t) ∧
  listening (enter edges "exit" t) = listening t ∧
  t_nodes (enter edges "exit" t) = t_nodes t.
Proof.
  intros Hm. unfold enter, handleCommand. cbn [t_input withInput t_state].
  rewrite Hm. by repeat split.
Qed.

(** What the two lines make of each device: the end host at the far end
    is tagged, and the tag of a device elsewhere stays. *)
Lemma assigned_after (nodeId : option string) (contextInt : string) (nb : string) (vid : Z)
    (fullName : string) (nds : list NetworkNode) (m : NetworkNode) :
  m ∈ nds →
  ∃ n', n' ∈ tagNeighbor nb vid
               (updateInt nodeId contextInt (withAccessVlan vid)
                  (map (fun n => if isBound nodeId n then ensureInterface n fullName else n)
                     nds)) ∧
        node_id n' = node_id m ∧
        d_type (node_data n') = d_type (node_data m) ∧
        (node_id m = nb → isEndHost (d_type (node_data m)) = true →
         d_assignedVlan (node_data n') = Some vid) ∧
        (node_id m ≠ nb → d_assignedVlan (node_data n') = d_assignedVlan (node_data m)).
Proof.
  intros Hin.
  cbv zeta.
  pose (ens := fun n => if isBound nodeId n then ensureInterface n fullName else n).
  pose (upd := fun n : NetworkNode =>
          if isBound nodeId n then
            match d_interfaces (node_data n) with
            | Some interfaces =>
                if member interfaces contextInt then
                  withData
                    (withInterfaces
                       (Some (assign contextInt
                                (withAccessVlan vid
                                   (default emptyInterface (own interfaces !! contextInt)))
                                (spread interfaces)))
                       (node_data n)) n
                else n
            | None => n
            end
          else n).
  pose (tag := fun n : NetworkNode =>
          if String.eqb (node_id n) nb && isEndHost (d_type (node_data n))
          then withData (withAssignedVlan vid (node_data n)) n else n).
  change (tagNeighbor nb vid _) with (map tag (map upd (map ens nds))).
  rewrite !map_map. set (f := fun n => tag (upd (ens n))).
  assert (Hf : ∀ n, node_id (f n) = node_id n ∧
                    d_type (node_data (f n)) = d_type (node_data n) ∧
                    (node_id n = nb → isEndHost (d_type (node_data n)) = true →
                     d_assignedVlan (node_data (f n)) = Some vid) ∧
                    (node_id n ≠ nb →
                     d_assignedVlan (node_data (f n)) = d_assignedVlan (node_data n))).
  { intros n. unfold f.
    assert (H1 : node_id (ens n) = node_id n ∧
                 d_type (node_data (ens n)) = d_type (node_data n) ∧
                 d_assignedVlan (node_data (ens n)) = d_assignedVlan (node_data n))
      by (unfold ens; by destruct (isBound nodeId n)).
    destruct H1 as (Hid1 & Hty1 & Hv1).
    assert (H2 : node_id (upd (ens n)) = node_id n ∧
                 d_type (node_data (upd (ens n))) = d_type (node_data n) ∧
                 d_assignedVlan (node_data (upd (ens n))) = d_assignedVlan (node_data n)).
    { rewrite <- Hid1, <- Hty1, <- Hv1. unfold upd. destruct (isBound nodeId (ens n)); [| done].
      destruct (d_interfaces (node_data (ens n))) as [ifs|]; [| done].
      by destruct (member ifs contextInt). }
    destruct H2 as (Hid2 & Hty2 & Hv2). unfold tag. rewrite Hid2, Hty2.
    destruct (String.eqb_spec (node_id n) nb) as [Heq|Hne]; simpl.
    - destruct (isEndHost (d_type (node_data n))); simpl; repeat split; try done.
    - repeat split; try done. }
  exists (f m). split; [| apply Hf].
  apply list_elem_of_In, in_map. by apply list_elem_of_In.
Qed.

Lemma existsb_tag (nds : list NetworkNode) (n : NetworkNode) (vid : Z) :
  n ∈ nds → d_assignedVlan (node_data n) = Some vid →
  existsb (fun n => bool_decide (d_assignedVlan (node_data n) = Some vid)) nds = true.
Proof.
  intros Hin Hv. apply existsb_exists. exists n.
  split; [by apply list_elem_of_In | by rewrite bool_decide_true].
Qed.

(** X22: the hint of "Assign Ports" works.  On a terminal that listens in
    global configuration, when the first and the second link of the bound
    device, in the order of the port mapper, lead to two different devices
    that are end hosts, the lines [int g0/1], [switchport access vlan 10],
    [exit], [int g0/2], [switchport access vlan 20] make the step pass. *)
Theorem ports_hint_passes (edges : list Edge) (w : Window) (e1 e2 : Edge)
    (pc1 pc2 : NetworkNode) :
  listening (w_term w) = true →
  ts_mode (t_state (w_term w)) = GlobalConfig →
  at_ (getSortedEdges localeCompare edges (ts_nodeId (t_state (w_term w)))) 0 = Some e1 →
  at_ (getSortedEdges localeCompare edges (ts_nodeId (t_state (w_term w)))) 1 = Some e2 →
  pc1 ∈ t_nodes (w_term w) → pc2 ∈ t_nodes (w_term w) →
  node_id pc1 = farEnd (ts_nodeId (t_state (w_term w))) e1 →
  node_id pc2 = farEnd (ts_nodeId (t_state (w_term w))) e2 →
  isEndHost (d_type (node_data pc1)) = true →
  isEndHost (d_type (node_data pc2)) = true →
  node_id pc1 ≠ node_id pc2 →
  checkAssignPorts
    (t_nodes (w_term (events edges w
       (typeLine "int g0/1" ++ typeLine "switchport access vlan 10" ++ typeLine "exit"
          ++ typeLine "int g0/2" ++ typeLine "switchport access vlan 20")))) = true.
Proof.
  intros Hl Hm He1 He2 Hin1 Hin2 Hid1 Hid2 Hend1 Hend2 Hne.
  set (nodeId := ts_nodeId (t_state (w_term w))) in *.
  destruct (typeLine_runs edges w "int g0/1"
              (typeLine "switchport access vlan 10" ++ typeLine "exit"
                 ++ typeLine "int g0/2" ++ typeLine "switchport access vlan 20") Hl)
    as (w1 & Hw1 & ->).
  destruct (interface_moves edges (w_term w) "int g0/1" "g0/1" Hm eq_refl eq_refl eq_refl
              eq_refl) as (Hm1 & Hn1 & Hl1 & Hc1 & Hnodes1).
  rewrite <- Hw1 in Hm1, Hn1, Hl1, Hc1, Hnodes1. rewrite Hl in Hl1. fold nodeId in Hn1, Hnodes1.
  destruct (typeLine_runs edges w1 "switchport access vlan 10"
              (typeLine "exit" ++ typeLine "int g0/2"
                 ++ typeLine "switchport access vlan 20") Hl1) as (w2 & Hw2 & ->).
  destruct (accessVlan_moves edges (w_term w1) "switchport access vlan 10" "1" 10 1 e1
              Hm1 eq_refl eq_refl eq_refl)
    as (Hm2 & Hn2 & Hl2 & Hnodes2);
    [by rewrite Hc1 | reflexivity | by rewrite Hn1 |].
  rewrite <- Hw2 in Hm2, Hn2, Hl2, Hnodes2. rewrite Hl1 in Hl2.
  rewrite Hn1, Hc1, Hnodes1 in Hnodes2. rewrite Hn1 in Hn2.
  destruct (typeLine_runs edges w2 "exit"
              (typeLine "int g0/2" ++ typeLine "switchport access vlan 20") Hl2)
    as (w3 & Hw3 & ->).
  destruct (exitInterface_moves edges (w_term w2) Hm2) as (Hm3 & Hn3 & Hl3 & Hnodes3).
  rewrite <- Hw3 in Hm3, Hn3, Hl3, Hnodes3. rewrite Hl2 in Hl3. rewrite Hn2 in Hn3.
  destruct (typeLine_runs edges w3 "int g0/2" (typeLine "switchport access vlan 20") Hl3)
    as (w4 & Hw4 & ->).
  destruct (interface_moves edges (w_term w3) "int g0/2" "g0/2" Hm3 eq_refl eq_refl eq_refl
              eq_refl) as (Hm4 & Hn4 & Hl4 & Hc4 & Hnodes4).
  rewrite <- Hw4 in Hm4, Hn4, Hl4, Hc4, Hnodes4. rewrite Hl3 in Hl4.
  rewrite Hn3 in Hn4, Hnodes4.
  rewrite <- (app_nil_r (typeLine "switchport access vlan 20")).
  destruct (typeLine_runs edges w4 "switchport access vlan 20" [] Hl4) as (w5 & Hw5 & ->).
  destruct (accessVlan_moves edges (w_term w4) "switchport access vlan 20" "2" 20 2 e2
              Hm4 eq_refl eq_refl eq_refl)
    as (_ & _ & _ & Hnodes5);
    [by rewrite Hc4 | reflexivity | by rewrite Hn4 |].
  rewrite <- Hw5 in Hnodes5. rewrite Hn4, Hc4, Hnodes4, Hnodes3 in Hnodes5.
  cbn [handleEvents foldl]. rewrite Hnodes5.
  set (nodes2 := t_nodes (w_term w2)) in *.
  destruct (assigned_after nodeId (fullInterfaceName "g0/1") (farEnd nodeId e1) 10
              (fullInterfaceName "g0/1") (t_nodes (w_term w)) pc1 Hin1)
    as (a1 & Ha1 & Ha1id & _ & Ha1tag & _).
  destruct (assigned_after nodeId (fullInterfaceName "g0/1") (farEnd nodeId e1) 10
              (fullInterfaceName "g0/1") (t_nodes (w_term w)) pc2 Hin2)
    as (a2 & Ha2 & Ha2id & Ha2ty & _).
  rewrite <- Hnodes2 in Ha1, Ha2.
  destruct (assigned_after nodeId (fullInterfaceName "g0/2") (farEnd nodeId e2) 20
              (fullInterfaceName "g0/2") nodes2 a1 Ha1)
    as (b1 & Hb1 & _ & _ & _ & Hb1keep).
  destruct (assigned_after nodeId (fullInterfaceName "g0/2") (farEnd nodeId e2) 20
              (fullInterfaceName "g0/2") nodes2 a2 Ha2)
    as (b2 & Hb2 & _ & _ & Hb2tag & _).
  unfold checkAssignPorts. apply andb_true_iff. split.
  - apply (existsb_tag _ b1 10 Hb1). rewrite Hb1keep; [by apply Ha1tag |].
    rewrite Ha1id, <- Hid2. done.
  - apply (existsb_tag _ b2 20 Hb2). apply Hb2tag; [by rewrite Ha2id |].
    by rewrite Ha2ty.
Qed.

(** ** Reload *)

(** A line that matches [reload] in privileged EXEC comes down to its
    branch. *)
Lemma reload_dispatch (edges : list Edge) (t : Terminal) :
  ts_mode (t_state t) = PrivilegedExec →
  matchCmd (Js.trim (t_input t)) "reload" = true →
  run edges t = reloadNow (withHistoryIdx (-1) t).
Proof.
  intros Hmode Hm.
  assert (Hparts : ∃ ta more, inputParts (Js.trim (t_input t)) = String "r" ta :: more).
  { apply matchCmd_tokens in Hm as [Hlen H].
    change (targetParts "reload") with ["reload"] in Hlen, H.
    destruct (inputParts (Js.trim (t_input t))) as [|x0 more]; simpl in Hlen; [lia |].
    destruct (H 0 x0 _ eq_refl eq_refl) as [N0 [r0 E0]].
    destruct (prefix_head _ _ _ _ N0 E0) as [ta ->]. by exists ta, more. }
  destruct Hparts as (ta & more & Hparts).
  assert (Hft : Js.toLowerCase <$> Js.splitWs (Js.trim (t_input t)) !! 0
                = Some (String "r" ta)).
  { by rewrite <- inputParts_firstToken, Hparts. }
  unfold handleCommand. rewrite Hmode, Hft.
  remember (Js.trim (t_input t)) as cmd eqn:Ecmd.
  destruct (String.eqb_spec cmd "") as [->|_]; [by vm_compute in Hm |].
  destruct (String.eqb_spec cmd "exit") as [->|_]; [by vm_compute in Hm |].
  destruct (String.eqb_spec cmd "end") as [->|_]; [by vm_compute in Hm |].
  destruct (String.eqb_spec cmd "?") as [->|_]; [by vm_compute in Hm |].
  destruct (String.eqb_spec cmd "help") as [->|_]; [by vm_compute in Hm |].
  destruct (String.eqb_spec cmd "clear") as [->|_]; [by vm_compute in Hm |].
  destruct (String.eqb_spec cmd "cls") as [->|_]; [by vm_compute in Hm |].
  cbn [orb]. rewrite bool_decide_false by discriminate.
  unfold privilegedExec.
  rewrite (matchCmd_mismatch cmd "configure terminal" 0 (String "r" ta) "configure");
    [| by rewrite Hparts | reflexivity | reflexivity].
  destruct (String.eqb_spec cmd "conf t") as [->|_]; [by vm_compute in Hm |].
  rewrite (matchCmd_mismatch cmd "show running-config" 0 (String "r" ta) "show");
    [| by rewrite Hparts | reflexivity | reflexivity].
  destruct (String.eqb_spec cmd "sh run") as [->|_]; [by vm_compute in Hm |].
  rewrite (matchCmd_mismatch cmd "show vlan brief" 0 (String "r" ta) "show");
    [| by rewrite Hparts | reflexivity | reflexivity].
  destruct (String.eqb_spec cmd "sh vlan br") as [->|_]; [by vm_compute in Hm |].
  destruct (String.eqb_spec cmd "sh vlan") as [->|_]; [by vm_compute in Hm |].
  rewrite (matchCmd_mismatch cmd "show ip interface brief" 0 (String "r" ta) "show");
    [| by rewrite Hparts | reflexivity | reflexivity].
  destruct (String.eqb_spec cmd "sh ip int br") as [->|_]; [by vm_compute in Hm |].
  cbn [orb]. by rewrite Hm.
Qed.

(** A key pressed in the input or a change of its text. *)
Definition isTyping (ev : Event) : Prop :=
  match ev with
  | KeyDown _ | Change _ => True
  | _ => False
  end.

Lemma booting_ignores (edges : list Edge) (w : Window) (keys : list Event) :
  t_isBooting (w_term w) = true → Forall isTyping keys → events edges w keys = w.
Proof.
  intros Hb Hk. induction Hk as [|ev keys Hev _ IH]; [done |].
  unfold handleEvents in *. cbn [foldl].
  assert (Hl : listening (w_term w) = false)
    by (unfold listening; rewrite Hb; apply andb_false_r).
  destruct ev; try done; cbn [handleEvent]; by rewrite Hl.
Qed.

(** X23: [reload] restarts the session and nothing else.  In privileged
    EXEC a line that matches [reload] clears the screen and starts the
    boot; what is typed while it lasts is lost; when the timer fires the
    session is in user EXEC without a context, under the host name it had,
    the screen shows the one line of the restart; the devices are
    configured as they were, the line is not in the history, and it is
    still in the input. *)
Theorem reload_restarts (edges : list Edge) (w : Window) (keys : list Event) :
  listening (w_term w) = true →
  ts_mode (t_state (w_term w)) = PrivilegedExec →
  matchCmd (Js.trim (t_input (w_term w))) "reload" = true →
  Forall isTyping keys →
  events edges w (KeyDown Enter :: keys ++ [ReloadTimeout]) =
    mkWindow
      (mkTerminal
         (mkTerminalState true (ts_nodeId (t_state (w_term w)))
            (ts_history (t_state (w_term w))) (ts_hostname (t_state (w_term w))) UserExec)
         (t_nodes (w_term w)) (t_input (w_term w)) ["Press RETURN to get started."]
         "" 0 "" false (-1))
      None.
Proof.
  intros Hl Hm Hr Hk.
  pose proof Hl as Hopen. unfold listening in Hopen. apply andb_true_iff in Hopen as [Hopen _].
  unfold handleEvents. cbn [foldl handleEvent handleKeyDown]. rewrite Hl.
  rewrite (reload_dispatch edges (w_term w) Hm Hr). cbn [next reloadTimer reloadNow].
  rewrite foldl_app.
  pose proof (booting_ignores edges
                (mkWindow (withOutput [] (withBooting true (withHistoryIdx (-1) (w_term w))))
                   (Some (ts_hostname (t_state (w_term w))))) keys eq_refl Hk) as Hboot.
  unfold handleEvents in Hboot. rewrite Hboot.
  cbn [foldl handleEvent w_timer w_term]. unfold reloadTimeout. cbn. by rewrite Hopen.
Qed.

End Hints.

(** ** The host name of the prompt *)

(** [s.replace(/\s+/g, by)]: every maximal run of white space gives way to
    [by]; [inRun] tells that the character before was white space. *)
Fixpoint replaceRuns (by_ : string) (inRun : bool) (s : string) : string :=
  match s with
  | EmptyString => EmptyString
  | String c s' =>
      if Js.isSpace c then
        if inRun then replaceRuns by_ true s' else by_ +:+ replaceRuns by_ true s'
      else String c (replaceRuns by_ false s')
  end.

Definition replaceWs (by_ : string) (s : string) : string := replaceRuns by_ false s.

(** [openTerminal] of the application: the terminal state of a session on
    the selected device, when there is one. *)
Definition openTerminal (selectedNode : option NetworkNode) (s : TerminalState)
  : TerminalState :=
  match selectedNode with
  | Some n =>
      mkTerminalState true (Some (node_id n)) []
        (replaceWs "-" (d_label (node_data n))) UserExec
  | None => s
  end.

(** The lines the component greets a session with. *)
Definition banner (deviceType : string) : list string :=
  ["NetOS (C) 2024 Systems, Inc."; "Hardware: " +:+ deviceType;
   "Press RETURN to get started."].

(** The window after [openTerminal]: the state is replaced and the hooks
    of the component stay, but for the effect on [state.isOpen], which
    greets the session when the window was closed and the screen is
    empty. *)
Definition reopen (selectedNode : option NetworkNode) (w : Window) : Window :=
  match selectedNode with
  | Some n =>
      let t := w_term w in
      let output :=
        if negb (ts_isOpen (t_state t)) && bool_decide (t_output t = [])
        then banner (deviceTypeText (d_type (node_data n)))
        else t_output t in
      mkWindow
        (mkTerminal (openTerminal selectedNode (t_state t)) (t_nodes t) (t_input t) output
           (t_contextInt t) (t_contextVlan t) (t_contextLine t) (t_isBooting t)
           (t_historyIdx t))
        (w_timer w)
  | None => w
  end.

(** No character is white space. *)
Fixpoint noSpace (s : string) : bool :=
  match s with
  | EmptyString => true
  | String c s' => negb (Js.isSpace c) && noSpace s'
  end.

Lemma noSpace_app (a b : string) : noSpace (a +:+ b) = noSpace a && noSpace b.
Proof.
  induction a as [|c a IH]; [done |]. rewrite app_cons. simpl. by rewrite IH, andb_assoc.
Qed.

Lemma replaceRuns_noSpace (by_ : string) (inRun : bool) (s : string) :
  noSpace by_ = true → noSpace (replaceRuns by_ inRun s) = true.
Proof.
  intros Hby. revert inRun. induction s as [|c s IH]; intros inRun; [done |]. simpl.
  destruct (Js.isSpace c) eqn:Hc.
  - destruct inRun; [apply IH |]. by rewrite noSpace_app, Hby, IH.
  - simpl. by rewrite Hc, IH.
Qed.

Lemma replaceRuns_fixed (by_ : string) (s : string) :
  noSpace s = true → replaceRuns by_ false s = s.
Proof.
  induction s as [|c s IH]; [done |]. simpl. intros [Hc Hs]%andb_true_iff.
  apply negb_true_iff in Hc. by rewrite Hc, IH.
Qed.

Lemma splitWs_noSpace (s t : string) : t ∈ Js.splitWs s → noSpace t = true.
Proof.
  revert t. induction s as [|c s IH]; intros t; simpl.
  - by intros ->%list_elem_of_singleton.
  - destruct (Js.isSpace c) eqn:Hc.
    + destruct s as [|c' s'].
      * intros [->|Hin]%elem_of_cons; [done |]. by apply IH.
      * destruct (Js.isSpace c'); [apply IH |].
        intros [->|Hin]%elem_of_cons; [done |]. by apply IH.
    + destruct (Js.splitWs s) as [|x xs] eqn:Hs.
      * intros ->%list_elem_of_singleton. simpl. by rewrite Hc.
      * intros [->|Hin]%elem_of_cons.
        -- simpl. rewrite Hc. simpl. apply IH. by left.
        -- apply IH. by right.
Qed.

Section HostName.

Variable localeCompare : string → string → Z.
Variable runningConfigText : NetworkNode → string.
Variable vlanBriefText : NetworkNode → string.
Variable ipIntBriefText : NetworkNode → list Edge → string.

Local Abbreviation run :=
  (handleCommand localeCompare runningConfigText vlanBriefText ipIntBriefText).
Local Abbreviation event :=
  (handleEvent localeCompare runningConfigText vlanBriefText ipIntBriefText).
Local Abbreviation events :=
  (handleEvents localeCompare runningConfigText vlanBriefText ipIntBriefText).

Ltac split_tests :=
  repeat match goal with
         | |- context [if ?b then _ else _] => destruct b
         | |- context [match ?x with _ => _ end] => destruct x
         end.

Lemma doCommand_hostname (edges : list Edge) (t : Terminal) (cmd : string) (p : Pending) :
  newHostname (doCommand localeCompare runningConfigText vlanBriefText ipIntBriefText
                 edges t cmd p) = newHostname p.
Proof. unfold doCommand, showVlan. split_tests; done. Qed.

Lemma userExec_hostname (edges : list Edge) (t : Terminal) (cmd : string)
    (tokens : list string) (p : Pending) :
  newHostname (userExec edges t cmd tokens p) = newHostname p.
Proof. unfold userExec. split_tests; done. Qed.

Lemma privilegedExec_hostname (edges : list Edge) (t t1 : Terminal) (cmd : string)
    (firstToken : option string) (p : Pending) :
  match privilegedExec localeCompare runningConfigText vlanBriefText ipIntBriefText
          edges t t1 cmd firstToken p with
  | Returned o => o = reloadNow t1
  | Pended p' => newHostname p' = newHostname p
  end.
Proof. unfold privilegedExec, showVlan. split_tests; done. Qed.

Lemma globalConfig_hostname (t : Terminal) (cmd : string) (tokens : list string)
    (firstToken : option string) (p : Pending) :
  newHostname (globalConfig t cmd tokens firstToken p) = newHostname p ∨
  ∃ name, tokens !! 1 = Some name ∧
          newHostname (globalConfig t cmd tokens firstToken p) = name.
Proof.
  unfold globalConfig. destruct (matchCmd cmd "hostname").
  - destruct (tokens !! 1) as [name|]; [| by left].
    destruct (Js.truthy name); [right; by exists name | by left].
  - left. split_tests; done.
Qed.

Lemma interfaceConfig_hostname (edges : list Edge) (t : Terminal) (cmd : string)
    (p : Pending) :
  newHostname (interfaceConfig localeCompare edges t cmd p) = newHostname p.
Proof. unfold interfaceConfig, propagateVlan. split_tests; done. Qed.

Lemma vlanConfig_hostname (t : Terminal) (cmd : string) (tokens : list string)
    (firstToken : option string) (p : Pending) :
  newHostname (vlanConfig t cmd tokens firstToken p) = newHostname p.
Proof. unfold vlanConfig. split_tests; done. Qed.

Lemma finish_hostname (t1 : Terminal) (cmdRaw : string) (newHistory : list string)
    (p : Pending) :
  ts_hostname (t_state (next (finish t1 cmdRaw newHistory p)))
    = if shouldClose p then ts_hostname (t_state t1) else newHostname p.
Proof. unfold finish. by destruct (shouldClose p). Qed.

(** The host name a command leaves: the one it found, or the second word
    of the line. *)
Lemma handleCommand_hostname (edges : list Edge) (t : Terminal) :
  ts_hostname (t_state (next (run edges t))) = ts_hostname (t_state t) ∨
  ∃ name, Js.splitWs (Js.trim (t_input t)) !! 1 = Some name ∧
          ts_hostname (t_state (next (run edges t))) = name.
Proof.
  unfold handleCommand.
  set (cmd := Js.trim (t_input t)).
  set (p := mkPending _ _ _ _ _ _ _ _).
  destruct (String.eqb cmd ""); [by left |].
  destruct (String.eqb cmd "exit").
  { left. rewrite finish_hostname. by destruct (ts_mode (t_state t)). }
  destruct (String.eqb cmd "end"); [left; by rewrite finish_hostname |].
  destruct (_ || _); [left; by rewrite finish_hostname |].
  destruct (_ || _); [by left |].
  case_bool_decide.
  { left. by rewrite finish_hostname, doCommand_stays, doCommand_hostname. }
  destruct (ts_mode (t_state t)) eqn:Em.
  - left. by rewrite finish_hostname, userExec_stays, userExec_hostname.
  - pose proof (privilegedExec_hostname edges t (withHistoryIdx (-1) t) cmd
                  (Js.toLowerCase <$> Js.splitWs cmd !! 0) p) as Hh.
    destruct (matchCmd cmd "reload") eqn:Hr.
    + left. unfold privilegedExec in *. rewrite Hr in *.
      repeat (destruct (_ || _); [by rewrite finish_hostname |]). done.
    + destruct (privilegedExec_stays localeCompare runningConfigText vlanBriefText
                  ipIntBriefText edges t (withHistoryIdx (-1) t) cmd
                  (Js.toLowerCase <$> Js.splitWs cmd !! 0) p Hr) as (p' & Hp' & Hclose).
      rewrite Hp' in *. left. by rewrite finish_hostname, Hclose, Hh.
  - rewrite finish_hostname, globalConfig_stays.
    destruct (globalConfig_hostname t cmd (Js.splitWs cmd)
                (Js.toLowerCase <$> Js.splitWs cmd !! 0) p) as [Hh|(name & Hn & Hh)].
    + left. by rewrite Hh.
    + right. by exists name.
  - left. by rewrite finish_hostname, interfaceConfig_stays, interfaceConfig_hostname.
  - left. by rewrite finish_hostname, vlanConfig_stays, vlanConfig_hostname.
  - left. by rewrite finish_hostname.
Qed.

(** The host name of the prompt, and the one a pending restart will bring
    back, are free of white space. *)
Definition hostNameClean (w : Window) : Prop :=
  noSpace (ts_hostname (t_state (w_term w))) = true ∧
  ∀ h, w_timer w = Some h → noSpace h = true.

Lemma handleEvent_hostNameClean (edges : list Edge) (w : Window) (ev : Event) :
  hostNameClean w → hostNameClean (event edges w ev).
Proof.
  intros [Hh Ht]. destruct ev as [key| | | | |]; cbn [handleEvent].
  - destruct (listening _); [| done].
    destruct key; unfold hostNameClean; cbn [handleKeyDown w_term w_timer]; try done.
    + split; [by rewrite tabKey_state | done].
    + split; [by rewrite arrowUp_state | done].
    + split; [by rewrite arrowDown_state | done].
    + split.
      * destruct (handleCommand_hostname edges (w_term w)) as [->|(name & Hn & ->)];
          [done |].
        eapply splitWs_noSpace, list_elem_of_lookup_2, Hn.
      * cbn [w_timer]. intros h. destruct (reloadTimer _); [by intros [= <-] | apply Ht].
  - destruct (listening _); by split.
  - destruct (ts_isOpen _); by split.
  - destruct (w_timer w) as [h|] eqn:Hw.
    + split; [by apply Ht | done].
    + split; [done |]. intros h Hh'. congruence.
  - destruct (Js.truthy _); by split.
  - by split.
Qed.

(** X24: the prompt has no white space in its host name.  [openTerminal]
    gives the session the label of the device with every run of white
    space made a hyphen, and the label itself when it has none; and from
    a window whose host name, and the one a pending restart holds, are
    free of white space, no sequence of events leads to a host name that
    has some. *)
Theorem hostname_without_space (edges : list Edge) (w : Window) (evs : list Event)
    (n : NetworkNode) :
  (∀ h, w_timer w = Some h → noSpace h = true) →
  noSpace (ts_hostname (t_state (w_term (reopen (Some n) w)))) = true ∧
  (noSpace (d_label (node_data n)) = true →
   ts_hostname (t_state (w_term (reopen (Some n) w))) = d_label (node_data n)) ∧
  noSpace (ts_hostname (t_state (w_term (events edges (reopen (Some n) w) evs)))) = true.
Proof.
  intros Ht.
  assert (H0 : hostNameClean (reopen (Some n) w)).
  { split; [| exact Ht]. by apply replaceRuns_noSpace. }
  split; [exact (proj1 H0) |]. split; [apply replaceRuns_fixed |].
  clear Ht. revert H0. generalize (reopen (Some n) w). clear w.
  induction evs as [|ev evs IH]; intros w Hw; [exact (proj1 Hw) |].
  change (events edges w (ev :: evs)) with (events edges (event edges w ev) evs).
  by apply IH, handleEvent_hostNameClean.
Qed.

End HostName.

(** ** The names of the ports *)

(** The number of a port, written into its name by [toString], is read
    back from it by [parseInt]. *)

(** The value of a decimal numeral read from the left on top of [acc]. *)
Fixpoint uval (acc : Z) (d : Decimal.uint) : Z :=
  match d with
  | Decimal.Nil => acc
  | Decimal.D0 d' => uval (acc * 10 + 0) d'
  | Decimal.D1 d' => uval (acc * 10 + 1) d'
  | Decimal.D2 d' => uval (acc * 10 + 2) d'
  | Decimal.D3 d' => uval (acc * 10 + 3) d'
  | Decimal.D4 d' => uval (acc * 10 + 4) d'
  | Decimal.D5 d' => uval (acc * 10 + 5) d'
  | Decimal.D6 d' => uval (acc * 10 + 6) d'
  | Decimal.D7 d' => uval (acc * 10 + 7) d'
  | Decimal.D8 d' => uval (acc * 10 + 8) d'
  | Decimal.D9 d' => uval (acc * 10 + 9) d'
  end.

Lemma digitsValue_uint (acc : Z) (d : Decimal.uint) :
  Js.digitsValue 10 acc (NilEmpty.string_of_uint d) = uval acc d.
Proof. revert acc. induction d; intros acc; simpl; try apply IHd; reflexivity. Qed.

Lemma uval_of_lu (d d' : Decimal.uint) :
  uval (Z.of_N (DecimalPos.Unsigned.of_lu d')) d
    = Z.of_N (DecimalPos.Unsigned.of_lu (Decimal.revapp d d')).
Proof.
  revert d'. induction d; intros d'; simpl; [reflexivity | ..];
    rewrite <- IHd; f_equal; simpl DecimalPos.Unsigned.of_lu; lia.
Qed.

Lemma uval_0 (d : Decimal.uint) : uval 0 d = Z.of_uint d.
Proof.
  unfold Z.of_uint. rewrite DecimalPos.Unsigned.of_uint_alt.
  exact (uval_of_lu d Decimal.Nil).
Qed.

(** All the characters are digits. *)
Fixpoint allDigits (s : string) : bool :=
  match s with
  | EmptyString => true
  | String c s' => Js.isDigit c && allDigits s'
  end.

Lemma allDigits_uint (d : Decimal.uint) : allDigits (NilEmpty.string_of_uint d) = true.
Proof. induction d; simpl; try done. Qed.

(** A numeral that is not empty is read whole, without a sign and in
    radix 10. *)
Lemma parseInt_uint (d : Decimal.uint) :
  d ≠ Decimal.Nil →
  Js.parseInt (NilEmpty.string_of_uint d) = Some (Z.of_uint d).
Proof.
  intros Hd. rewrite <- uval_0, <- (digitsValue_uint 0 d).
  destruct d as [|d|d|d|d|d|d|d|d|d|d]; [done | ..];
    try (unfold Js.parseInt; simpl; f_equal; lia).
  destruct d; unfold Js.parseInt; simpl; f_equal; lia.
Qed.

Lemma parseInt_positive (p : positive) :
  Js.parseInt (Js.toString (Z.pos p)) = Some (Z.pos p).
Proof.
  unfold Js.toString. simpl.
  pose proof (DecimalPos.Unsigned.to_uint_nonnil p) as Hp.
  pose proof (parseInt_uint _ Hp) as H.
  unfold Z.of_uint in H. rewrite DecimalPos.Unsigned.of_to in H.
  destruct (Pos.to_uint p); [done | ..]; exact H.
Qed.

Lemma digitSuffix_allDigits (s : string) : allDigits s = true → Js.digitSuffix s = s.
Proof.
  induction s as [|c s IH]; [done |]. simpl. intros [Hc Hs]%andb_true_iff.
  by rewrite (IH Hs), Hc, Nat.eqb_refl.
Qed.

Lemma digitSuffix_skip (c : ascii) (s : string) :
  String.length (Js.digitSuffix s) ≠ String.length s →
  Js.digitSuffix (String c s) = Js.digitSuffix s.
Proof.
  intros Hne. simpl. apply Nat.eqb_neq in Hne. by rewrite Hne, andb_false_r.
Qed.

Lemma digitSuffix_nondigit (c : ascii) (s : string) :
  Js.isDigit c = false → Js.digitSuffix (String c s) = Js.digitSuffix s.
Proof. intros Hc. simpl. by rewrite Hc. Qed.

Lemma toString_digits (n : Z) :
  (0 ≤ n)%Z → allDigits (Js.toString n) = true ∧ Js.truthy (Js.toString n) = true.
Proof.
  intros Hn. unfold Js.toString. destruct n as [|p|p]; [done | | lia]. simpl.
  pose proof (DecimalPos.Unsigned.to_uint_nonnil p) as Hp.
  pose proof (allDigits_uint (Pos.to_uint p)) as Hd.
  destruct (Pos.to_uint p); done.
Qed.

(** X26: the names of the ports agree.  The short name of link number
    [idx] of the port mapper expands, as an argument of [interface], to the
    long name that the listing of interfaces gives that link; and the
    digits that end the long name, read as a number and lessened by one
    as [switchport access vlan] does, give [idx] back. *)
Theorem port_names_agree (idx : Z) :
  (0 ≤ idx)%Z →
  fullInterfaceName (getShortInterfaceName idx) = getInterfaceName idx ∧
  ∃ digits port,
    Js.matchTrailingDigits (getInterfaceName idx) = Some digits ∧
    Js.parseInt digits = Some port ∧ (port - 1)%Z = idx.
Proof.
  intros Hidx. split; [reflexivity |].
  exists (Js.toString (idx + 1)), (idx + 1)%Z.
  destruct (toString_digits (idx + 1)) as [Hd Ht]; [lia |].
  split; [| split; [| lia]];
    [| destruct (idx + 1)%Z as [|p|p] eqn:Ek; [lia | apply parseInt_positive | lia]].
  unfold Js.matchTrailingDigits, getInterfaceName.
  assert (Hs : Js.digitSuffix ("GigabitEthernet0/" +:+ Js.toString (idx + 1))
               = Js.toString (idx + 1)).
  { rewrite !app_cons, app_empty.
    do 15 (rewrite digitSuffix_nondigit by reflexivity).
    rewrite digitSuffix_skip.
    - rewrite digitSuffix_nondigit by reflexivity. by apply digitSuffix_allDigits.
    - rewrite digitSuffix_nondigit by reflexivity.
      rewrite digitSuffix_allDigits by done. simpl. lia. }
  by rewrite Hs, Ht.
Qed.

(** *** More samples *)

Definition sampleEvents (edges : list Edge) (w : Window) (evs : list Event) : Window :=
  handleEvents codeUnitCompare (fun _ => "") (fun _ => "") (fun _ _ => "") edges w evs.

(** A window on the sample topology of the office. *)
Definition officeWindow (m : Mode) (contextInt : string) (input : string) : Window :=
  mkWindow (session officeNodes "sw" m contextInt [] input) None.

Lemma bfs_shortest_walk_witness :
  walkFrom lanEdges "h" "i" ["h"; "g"; "i"] ∧ NoDup ["h"; "g"; "i"].
Proof.
  destruct (bfs_shortest_walk lanEdges "h" "i" ["h"; "g"; "i"] lan_path) as (Hw & Hn & _).
  exact (conj Hw Hn).
Defined.

Lemma findPath_delivery_shortest_witness :
  hops (findPath routedNodes lanEdges "h" "i") = 2%Z ∧
  walkFrom lanEdges "h" "i" ["h"; "g"; "i"].
Proof.
  destruct (findPath_delivery_shortest routedNodes lanEdges "h" "i" eq_refl)
    as (Hw & _ & Hh & _).
  exact (conj Hh Hw).
Defined.

Lemma findPath_no_cable_witness :
  findPath lanNodes [mkEdge "e1" "h" "g"] "h" "i" = noCable ∧
  ¬ ∃ w, walkFrom [mkEdge "e1" "h" "g"] "h" "i" w.
Proof.
  split; [reflexivity |].
  refine (proj1 (findPath_no_cable lanNodes [mkEdge "e1" "h" "g"] "h" "i"
                   (host "h" PC (Some "10.0.0.5") up) (host "i" PC (Some "10.0.1.5") up)
                   eq_refl eq_refl eq_refl eq_refl) eq_refl).
Defined.

Lemma findPath_to_itself_witness :
  findPath lanNodes [] "h" "h" =
    mkResult true ["h"] 0 "Success! Packet delivered from 10.0.0.5 to 10.0.0.5 via 0 hops.".
Proof.
  refine (findPath_to_itself lanNodes [] "h" (host "h" PC (Some "10.0.0.5") up) "10.0.0.5"
            eq_refl eq_refl eq_refl _).
  left. discriminate.
Defined.

Lemma deleted_devices_off_the_paths_witness :
  bfs (onNodesDelete [host "g" SWITCH_L2 None up]
         (lanEdges ++ [mkEdge "e3" "h" "j"; mkEdge "e4" "j" "i"])) "h" "i"
    = Some ["h"; "j"; "i"] ∧
  walkFrom (lanEdges ++ [mkEdge "e3" "h" "j"; mkEdge "e4" "j" "i"]) "h" "i" ["h"; "j"; "i"].
Proof.
  split; [reflexivity |].
  refine (proj1 (deleted_devices_off_the_paths [host "g" SWITCH_L2 None up]
                   (lanEdges ++ [mkEdge "e3" "h" "j"; mkEdge "e4" "j" "i"]) "h" "i"
                   ["h"; "j"; "i"] eq_refl _)).
  simpl. lia.
Defined.

Lemma highlighted_links_carry_the_path_witness :
  walkFrom
    (filter (fun e => (highlight ["h"; "g"; "i"] false e).1.1 = true)
       (lanEdges ++ [mkEdge "e3" "g" "k"]))
    "h" "i" ["h"; "g"; "i"].
Proof.
  refine (highlighted_links_carry_the_path lanNodes (lanEdges ++ [mkEdge "e3" "g" "k"])
            "h" "i" _).
  discriminate.
Defined.

Lemma vlan_checks_stay_passed_witness :
  checkVlanSetup
    (t_nodes (w_term (sampleEvents officeEdges
                        (sampleEvents officeEdges (officeWindow GlobalConfig "" "vlan 10")
                           [KeyDown Enter])
                        [Change "name Sales"; KeyDown Enter; Change "end"; KeyDown Enter])))
    = true.
Proof.
  apply (vlan_checks_stay_passed codeUnitCompare (fun _ => "") (fun _ => "")
           (fun _ _ => "") officeEdges
           (sampleEvents officeEdges (officeWindow GlobalConfig "" "vlan 10") [KeyDown Enter])
           [Change "name Sales"; KeyDown Enter; Change "end"; KeyDown Enter]).
  vm_compute. reflexivity.
Defined.

(** A port by its name, and a name that only an inherited member answers
    to. *)
Lemma context_follows_mode_witness :
  Coherent (w_term (sampleEvents officeEdges (officeWindow GlobalConfig "" "interface gi0/1")
                      [KeyDown Enter; Change "shutdown"; KeyDown Enter])) ∧
  Coherent (w_term (sampleEvents officeEdges (officeWindow GlobalConfig "" "interface toString")
                      [KeyDown Enter; Change "shutdown"; KeyDown Enter])).
Proof.
  split.
  - refine (context_follows_mode codeUnitCompare (fun _ => "") (fun _ => "") (fun _ _ => "")
              officeEdges (officeWindow GlobalConfig "" "interface gi0/1")
              [KeyDown Enter; Change "shutdown"; KeyDown Enter] _).
    split; [reflexivity |]. simpl. split; reflexivity.
  - refine (context_follows_mode codeUnitCompare (fun _ => "") (fun _ => "") (fun _ _ => "")
              officeEdges (officeWindow GlobalConfig "" "interface toString")
              [KeyDown Enter; Change "shutdown"; KeyDown Enter] _).
    split; [reflexivity |]. simpl. split; reflexivity.
Defined.

(** [s] is completed to [show], the first of the two commands that start
    with it. *)
Lemma tabKey_completes_witness :
  t_input (tabKey (session [] "sw" UserExec "" [] "s")) = "show ".
Proof.
  destruct (tabKey_completes (session [] "sw" UserExec "" [] "s"))
    as (_ & [[Hnone _] | (i & c & Hi & _ & Hbefore & Hin)] & _).
  - discriminate (Hnone "show" (list_elem_of_here _ _)).
  - destruct i as [|i].
    + injection Hi as <-. exact Hin.
    + discriminate (Hbefore 0 "show" (Nat.lt_0_succ i) eq_refl).
Defined.

Lemma shutdown_marks_every_link_witness :
  linkStyle true
    (t_nodes (next (runSample officeEdges
       (session officeNodes "sw" InterfaceConfigMode "GigabitEthernet0/1" [] "shutdown"))))
    (mkEdge "e2" "sw2" "sw")
  = ("#ef4444", 2%Z, "5 5").
Proof.
  destruct (shutdown_marks_every_link codeUnitCompare (fun _ => "") (fun _ => "")
              (fun _ _ => "") officeEdges
              (session officeNodes "sw" InterfaceConfigMode "GigabitEthernet0/1" [] "shutdown")
              "sw" accessSwitch (defaultInterface "GigabitEthernet0/1")
              eq_refl eq_refl eq_refl eq_refl eq_refl) as (_ & Hall & _).
  refine (Hall true officeEdges "" (mkEdge "e2" "sw2" "sw") _ _ (or_intror eq_refl)).
  unfold visibleEdges. apply list_elem_of_In.
  apply (in_map (fun e => (e, linkStyle true _ e)) _ (mkEdge "e2" "sw2" "sw")).
  apply list_elem_of_In, list_elem_of_filter.
  split; [| apply list_elem_of_here].
  cbv beta zeta. split; apply (bool_decide_unpack _); vm_compute; exact I.
Defined.

Lemma vlan_hints_pass_witness :
  checkVlanSetup
    (t_nodes (w_term (sampleEvents officeEdges (officeWindow UserExec "" "")
                        (typeLine "enable" ++ typeLine "conf t" ++ typeLine "vlan 10"))))
    = true.
Proof.
  exact (proj1 (vlan_hints_pass codeUnitCompare (fun _ => "") (fun _ => "") (fun _ _ => "")
                  officeEdges (officeWindow UserExec "" "") accessSwitch
                  eq_refl eq_refl (or_introl eq_refl)) eq_refl).
Defined.

Lemma reload_restarts_witness :
  sampleEvents officeEdges (officeWindow PrivilegedExec "" "reload")
    [KeyDown Enter; Change "show run"; KeyDown Enter; ReloadTimeout] =
  mkWindow
    (mkTerminal (mkTerminalState true (Some "sw") [] "sw" UserExec) officeNodes "reload"
       ["Press RETURN to get started."] "" 0 "" false (-1))
    None.
Proof.
  refine (reload_restarts codeUnitCompare (fun _ => "") (fun _ => "") (fun _ _ => "")
            officeEdges (officeWindow PrivilegedExec "" "reload")
            [Change "show run"; KeyDown Enter] eq_refl eq_refl eq_refl _).
  repeat constructor.
Defined.

Lemma port_names_agree_witness :
  fullInterfaceName (getShortInterfaceName 0) = "GigabitEthernet0/1".
Proof. exact (proj1 (port_names_agree 0 (Z.le_refl 0))). Defined.

(** A switch with a PC on each of its first two ports. *)
Definition deskNodes : list NetworkNode :=
  [host "sw" SWITCH_L2 None up; host "pc1" PC (Some "192.168.1.10") up;
   host "pc2" PC (Some "192.168.1.11") up].

Definition deskEdges : list Edge := [mkEdge "e1" "sw" "pc1"; mkEdge "e2" "pc2" "sw"].

Lemma ports_hint_passes_witness :
  checkAssignPorts
    (t_nodes (w_term (sampleEvents deskEdges
                        (mkWindow (session deskNodes "sw" GlobalConfig "" [] "") None)
                        (typeLine "int g0/1" ++ typeLine "switchport access vlan 10"
                           ++ typeLine "exit" ++ typeLine "int g0/2"
                           ++ typeLine "switchport access vlan 20")))) = true.
Proof.
  refine (ports_hint_passes codeUnitCompare (fun _ => "") (fun _ => "") (fun _ _ => "")
            deskEdges (mkWindow (session deskNodes "sw" GlobalConfig "" [] "") None)
            (mkEdge "e1" "sw" "pc1") (mkEdge "e2" "pc2" "sw")
            (host "pc1" PC (Some "192.168.1.10") up) (host "pc2" PC (Some "192.168.1.11") up)
            eq_refl eq_refl eq_refl eq_refl _ _ eq_refl eq_refl eq_refl eq_refl _).
  - apply list_elem_of_further, list_elem_of_here.
  - apply list_elem_of_further, list_elem_of_further, list_elem_of_here.
  - discriminate.
Defined.

Lemma hostname_without_space_witness :
  ts_hostname (t_state (w_term (reopen (Some (host "Core Switch  1" SWITCH_L2 None up))
                                  (officeWindow UserExec "" ""))))
    = "Core-Switch-1" ∧
  noSpace (ts_hostname (t_state (w_term (sampleEvents officeEdges
             (reopen (Some (host "Core Switch  1" SWITCH_L2 None up))
                (officeWindow UserExec "" ""))
             (typeLine "enable" ++ typeLine "conf t" ++ typeLine "hostname My Core"))))) = true.
Proof.
  split; [reflexivity |].
  refine (proj2 (proj2 (hostname_without_space codeUnitCompare (fun _ => "") (fun _ => "")
                          (fun _ _ => "") officeEdges (officeWindow UserExec "" "")
                          (typeLine "enable" ++ typeLine "conf t"
                             ++ typeLine "hostname My Core")
                          (host "Core Switch  1" SWITCH_L2 None up) _))).
  intros h. discriminate.
Defined.
